(** * API-TUSSAM: proximity search, caches and synchronisation

    A shallow embedding of [app/database.py], [app/services/tussam.py],
    the nearby-with-arrivals endpoint and the rate limiter of
    [app/main.py] and the weekly job of [app/scheduler.py], with the
    properties of the specification, and further properties of the code,
    stated and proved over it.

    Conventions of the embedding.
    - A Python [float] is a real number ([R]): the formulas are the ones
      of the source, evaluated without binary64 rounding error.
      [math.sqrt] and [math.asin] keep their domain checks, and
      [haversine] the [ValueError] they raise: a distance is an optional
      real. In exact arithmetic the value [haversine] hands to them stays
      in their domain; in the source the rounding can take it out, for
      nearly antipodal points. What is stated of a distance is therefore
      stated by cases on the two checks, and no input of the error case
      is exhibited.
    - A Python [int] is an integer ([Z]); a [str] is a [string].
    - A [datetime] is a number of microseconds ([Z]), a [timedelta] too.
    - A SQLite table is the list of its rows in insertion order.
    - An [async def] that touches the store, the clock, the log or the
      HTTP client is a function from a [world] to an outcome and a new
      [world]; a Python exception is the [Raise] outcome. An
      [except Exception] clause catches every exception but
      [CancelledError], which stands for the exceptions that are not an
      [Exception].
    - A log record keeps the level and the template of its message, not
      the values formatted into it.
    - [time.time()] is a real number of seconds. *)

From Stdlib Require Import Reals Machin Lra ZArith Lia Bool String Ascii.
From Stdlib Require Import Sorting.Sorted Sorting.Permutation.
From stdpp Require Import base decidable option list strings gmap.

Local Open Scope Z_scope.

(** ** Python numerics *)

#[global] Instance Rle_decision (x y : R) : Decision (x <= y)%R := Rle_dec x y.
#[global] Instance Rlt_decision (x y : R) : Decision (x < y)%R := Rlt_dec x y.
#[global] Instance Req_decision : EqDecision R := Req_dec_T.

Module Py.

Local Open Scope R_scope.


(** [math.floor]: the integer part of a real. *)
Definition floor (x : R) : Z := Int_part x.

(** [round(x)] with one argument: the nearest integer, a tie going to
    the even neighbour. *)
Definition round (x : R) : Z :=
  let f := floor x in
  let d := x - IZR f in
  if decide (d < 1 / 2) then f
  else if decide (1 / 2 < d) then (f + 1)%Z
  else if Z.even f then f else (f + 1)%Z.

(** [round(x, ndigits)] for [ndigits >= 0]: [x] rounded to that many
    decimals (a tie going to the even neighbour), again a float. *)
Definition round_ndigits (x : R) (ndigits : nat) : R :=
  IZR (round (x * 10 ^ ndigits)) / 10 ^ ndigits.

(** [math.radians] and [math.degrees]. *)
Definition radians (x : R) : R := x * (PI / 180).
Definition degrees (x : R) : R := x * (180 / PI).

(** [math.atan2(y, x)]: the argument of the point [(x, y)], in (-PI, PI]. *)
Definition atan2 (y x : R) : R :=
  if decide (0 < x) then atan (y / x)
  else if decide (x < 0) then
    (if decide (0 <= y) then atan (y / x) + PI else atan (y / x) - PI)
  else if decide (0 < y) then PI / 2
  else if decide (y < 0) then - (PI / 2)
  else 0.

(** [x % m] on floats, for [m > 0]: the result lies in [0, m). *)
Definition fmod (x m : R) : R := x - IZR (floor (x / m)) * m.

(** [min(a, b)] returns [a] unless [b < a]. *)
Definition min (a b : R) : R := if decide (b < a) then b else a.

(** Truth value of an optional string ([if calle:]): [None] and the empty
    string are false. *)
Definition truthy (s : option string) : bool :=
  match s with
  | Some EmptyString | None => false
  | Some _ => true
  end.

(** [math.sqrt] and [math.asin]: outside their domain they raise
    [ValueError: math domain error], which is [None] here. *)
Definition sqrt (x : R) : option R :=
  if decide (0 <= x) then Some (R_sqrt.sqrt x) else None.

Definition asin (x : R) : option R :=
  if decide (-1 <= x /\ x <= 1) then Some (Ratan.asin x) else None.

End Py.

(** ** Sorting

    [sorted(xs, key=...)] and [ORDER BY] are stable sorts. The result of
    a stable sort is determined by the input and the order, so insertion
    sort stands for both. *)

Section StableSort.

Context {A : Type} (leb : A -> A -> bool).

(** [x] goes in front of the first element it does not exceed, hence in
    front of the elements that compare equal to it. *)
Fixpoint insert_sorted (x : A) (l : list A) : list A :=
  match l with
  | [] => [x]
  | y :: l' => if leb x y then x :: l else y :: insert_sorted x l'
  end.

Definition stable_sort (l : list A) : list A := foldr insert_sorted [] l.

End StableSort.

(** [sorted(xs, key=k)] for an integer key. *)
Definition sorted {A : Type} (key : A -> Z) (xs : list A) : list A :=
  stable_sort (fun a b => key a <=? key b) xs.

(** ** Geospatial engine *)

Module Geo.

Local Open Scope R_scope.

(** [database.haversine]. The distance, or [None] when [math.sqrt] or
    [math.asin] raises a math domain error on the value handed to it. *)
Definition haversine (lat1 lon1 lat2 lon2 : R) : option R :=
  let R0 := 6371000 in
  let phi1 := Py.radians lat1 in
  let phi2 := Py.radians lat2 in
  let dphi := Py.radians (lat2 - lat1) in
  let dlambda := Py.radians (lon2 - lon1) in
  let a := sin (dphi / 2) ^ 2
           + cos phi1 * cos phi2 * sin (dlambda / 2) ^ 2 in
  match Py.sqrt a with
  | Some raiz =>
      match Py.asin raiz with
      | Some arco => Some (2 * R0 * arco)
      | None => None
      end
  | None => None
  end.

(** [TussamService._calculate_bearing] *)
Definition _calculate_bearing (lat1 lon1 lat2 lon2 : R) : R :=
  let lat1_r := Py.radians lat1 in
  let lat2_r := Py.radians lat2 in
  let dlon_r := Py.radians (lon2 - lon1) in
  let x := sin dlon_r * cos lat2_r in
  let y := cos lat1_r * sin lat2_r - sin lat1_r * cos lat2_r * cos dlon_r in
  let bearing := Py.degrees (Py.atan2 x y) in
  Py.fmod (bearing + 360) 360.

(** [TussamService._bearing_diff] *)
Definition _bearing_diff (bearing1 bearing2 : R) : R :=
  let diff := Rabs (bearing1 - bearing2) in
  Py.min diff (360 - diff).

End Geo.

(** ** The relational store

    A table is the list of its rows; [pk] projects the primary key. *)

Section Sql.

Context {row key : Type} `{EqDecision key} (pk : row -> key).

(** [SELECT * FROM t WHERE pk = k], then [fetchone()]. *)
Definition select_by_pk (k : key) (t : list row) : option row :=
  head (filter (fun r => pk r = k) t).

(** [DELETE FROM t WHERE pk = k] *)
Definition delete_by_pk (k : key) (t : list row) : list row :=
  filter (fun r => pk r <> k) t.

(** [INSERT OR REPLACE INTO t]: a row with the same key is removed and
    the new one is added. *)
Definition insert_or_replace (r : row) (t : list row) : list row :=
  delete_by_pk (pk r) t ++ [r].

(** [INSERT OR IGNORE INTO t]: nothing happens when the key is taken. *)
Definition insert_or_ignore (r : row) (t : list row) : list row :=
  match select_by_pk (pk r) t with
  | Some _ => t
  | None => t ++ [r]
  end.

(** [INSERT INTO t ... ON CONFLICT(pk) DO UPDATE SET ...]: the row that
    holds the key is updated in place by [upd]; without one, [r] is added. *)
Fixpoint upsert (r : row) (upd : row -> row) (t : list row) : list row :=
  match t with
  | [] => [r]
  | x :: t' => if decide (pk x = pk r) then upd x :: t' else x :: upsert r upd t'
  end.

End Sql.

(** ** Data model *)

Local Open Scope string_scope.
Local Open Scope Z_scope.
Local Open Scope list_scope.

(** A row of [paradas]. The address columns are nullable. *)
Record parada := mkParada {
  p_codigo : string;
  p_nombre : string;
  p_latitud : R;
  p_longitud : R;
  p_calle : option string;
  p_numero : option string;
  p_codigo_postal : option string;
  p_municipio : option string;
  p_provincia : option string;
  p_comunidad_autonoma : option string;
  p_direccion_completa : option string;
  p_updated_at : Z
}.

(** A stop as [save_paradas_batch] receives it: a dict with the keys
    [codigo], [nombre], [latitud], [longitud], read with [p[...]], and
    [calle], [numero], read with [p.get(...)] ([None] when absent). *)
Record parada_dict := mkParadaDict {
  d_codigo : string;
  d_nombre : string;
  d_latitud : R;
  d_longitud : R;
  d_calle : option string;
  d_numero : option string
}.

(** A row of [paradas_lineas]; the key is (stop, line, direction). *)
Record parada_linea := mkParadaLinea {
  pl_parada_codigo : string;
  pl_linea_numero : string;
  pl_sentido : Z;
  pl_orden : Z
}.

Definition pl_key (r : parada_linea) : string * string * Z :=
  (pl_parada_codigo r, pl_linea_numero r, pl_sentido r).

(** A membership as [save_paradas_lineas_batch] receives it: a dict read
    with [r[...]]; [None] is a key the dict does not have. *)
Record relacion_dict := mkRelacionDict {
  r_parada_codigo : option string;
  r_linea_numero : option string;
  r_sentido : option Z;
  r_orden : option Z
}.

(** One arrival estimate of the answer of [get_tiempos_parada]. *)
Record tiempo := mkTiempo {
  t_linea : string;
  t_color : string;
  t_tiempo_minutos : Z;
  t_destino : string;
  t_distancia_metros : Z;
  t_sentido : option Z
}.

(** The answer of [get_tiempos_parada] (the dict [result_data]). *)
Record tiempos_parada := mkTiemposParada {
  tp_parada : string;
  tp_nombre : string;
  tp_latitud : option R;
  tp_longitud : option R;
  tp_tiempos : list tiempo
}.

(** The address dict of [get_direccion_from_coords]. *)
Record direccion := mkDireccion {
  dir_calle : string;
  dir_numero : string;
  dir_codigo_postal : string;
  dir_municipio : string;
  dir_provincia : string;
  dir_tipo_via : string;
  dir_direccion_completa : string
}.

(** The content of a JSON text column, by what [json.loads] makes of it:
    the text [json.dumps] wrote for a value, or text that does not parse. *)
Inductive json_text (A : Type) : Type :=
  | Encoded (v : A)
  | Corrupt (raw : string).
Arguments Encoded {A} v.
Arguments Corrupt {A} raw.

Definition json_dumps {A : Type} (v : A) : json_text A := Encoded v.

(** A row of [tiempos_cache], keyed by the stop code. *)
Record tiempos_cache_row := mkTiemposCacheRow {
  tc_parada_codigo : string;
  tc_tiempos_json : json_text tiempos_parada;
  tc_cached_at : Z
}.

(** A row of [direcciones_cache], keyed by (latitud, longitud). *)
Record direcciones_cache_row := mkDireccionesCacheRow {
  dc_latitud : R;
  dc_longitud : R;
  dc_direccion_json : json_text direccion;
  dc_cached_at : Z
}.

Definition dc_key (r : direcciones_cache_row) : R * R :=
  (dc_latitud r, dc_longitud r).

(** The tables of the SQLite file this development reads or writes. *)
Record database := mkDatabase {
  paradas : list parada;
  paradas_lineas : list parada_linea;
  tiempos_cache : list tiempos_cache_row;
  direcciones_cache : list direcciones_cache_row
}.

Definition with_paradas (f : list parada -> list parada) (d : database) :=
  mkDatabase (f (paradas d)) (paradas_lineas d) (tiempos_cache d)
             (direcciones_cache d).
Definition with_paradas_lineas
    (f : list parada_linea -> list parada_linea) (d : database) :=
  mkDatabase (paradas d) (f (paradas_lineas d)) (tiempos_cache d)
             (direcciones_cache d).
Definition with_tiempos_cache
    (f : list tiempos_cache_row -> list tiempos_cache_row) (d : database) :=
  mkDatabase (paradas d) (paradas_lineas d) (f (tiempos_cache d))
             (direcciones_cache d).
Definition with_direcciones_cache
    (f : list direcciones_cache_row -> list direcciones_cache_row)
    (d : database) :=
  mkDatabase (paradas d) (paradas_lineas d) (tiempos_cache d)
             (f (direcciones_cache d)).

(** ** The world around the code *)

Inductive level := INFO | WARNING | ERROR.

(** A response of the transit API to the [tiempos] request, after
    [response.json()] and the [.get(..., default)] calls of the source. *)
Record estimacion := mkEstimacion {
  e_segundos : Z;
  e_destino : string;
  e_distancia : Z
}.

Record linea_coincidente := mkLineaCoincidente {
  lc_labelLinea : string;
  lc_color : string;
  lc_estimaciones : list estimacion
}.

Record tiempos_body := mkTiemposBody {
  b_descripcion : string;
  b_posicion : option (Z * Z);          (* latitudE6, longitudE6 *)
  b_lineasCoincidentes : list linea_coincidente
}.

Record response := mkResponse {
  status_code : Z;
  body : json_text tiempos_body
}.

(** What one [client.get] yields: a response, or a transport failure. *)
Inductive http_result :=
  | Responds (r : response)
  | Fails.

(** The exceptions the code meets. [CancelledError] stands for those that
    derive from [BaseException] and not from [Exception], as
    [asyncio.CancelledError] does; the others are [Exception]s. *)
Inductive exn :=
  | KeyError (k : string)
  | HTTPStatusError (status : Z)
  | ConnectError
  | JSONDecodeError
  | UnboundLocalError (name : string)
  | ValueError (msg : string)
  | CancelledError.

Definition is_Exception (e : exn) : bool :=
  match e with
  | CancelledError => false
  | _ => true
  end.

Record world := mkWorld {
  db_file : database;            (* the committed content of the file *)
  db_conn : option database;     (* what the open connection sees *)
  clock : Z;                     (* [datetime.now()], in microseconds *)
  logs : list (level * string);
  upstream : list http_result;   (* what the next requests will yield *)
  requested : list string;       (* the URLs requested so far *)
  slept : list Z                 (* the [asyncio.sleep] calls, in seconds *)
}.

Inductive result (A : Type) : Type :=
  | Ok (a : A)
  | Raise (e : exn).
Arguments Ok {A} a.
Arguments Raise {A} e.

Definition M (A : Type) : Type := world -> result A * world.

#[global] Instance M_ret : MRet M := fun A a w => (Ok a, w).
#[global] Instance M_bind : MBind M := fun A B k m w =>
  match m w with
  | (Ok a, w') => k a w'
  | (Raise e, w') => (Raise e, w')
  end.

Definition raise {A : Type} (e : exn) : M A := fun w => (Raise e, w).

(** [try: m except Exception as e: h e]; what is not an [Exception]
    passes through. *)
Definition try_except {A : Type} (m : M A) (h : exn -> M A) : M A := fun w =>
  match m w with
  | (Ok a, w') => (Ok a, w')
  | (Raise e, w') => if is_Exception e then h e w' else (Raise e, w')
  end.

(** [for x in xs: body x] *)
Fixpoint for_each {A : Type} (xs : list A) (body : A -> M unit) : M unit :=
  match xs with
  | [] => mret tt
  | x :: xs' => body x ;; for_each xs' body
  end.

(** [logger.warning(...)] and the like. *)
Definition log (l : level) (msg : string) : M unit := fun w =>
  (Ok tt, mkWorld (db_file w) (db_conn w) (clock w) (logs w ++ [(l, msg)])
                  (upstream w) (requested w) (slept w)).

(** [datetime.now()] *)
Definition datetime_now : M Z := fun w => (Ok (clock w), w).

(** [timedelta(minutes=m)] and [timedelta(days=d)], in microseconds. *)
Definition timedelta_minutes (m : Z) : Z := m * 60 * 1000000.
Definition timedelta_days (d : Z) : Z := d * 86400 * 1000000.

(** [await asyncio.sleep(seconds)]: the clock moves on. *)
Definition sleep (seconds : Z) : M unit := fun w =>
  (Ok tt, mkWorld (db_file w) (db_conn w) (clock w + seconds * 1000000)
                  (logs w) (upstream w) (requested w) (slept w ++ [seconds])).

(** [await self.client.get(url)] *)
Definition client_get (url : string) : M response := fun w =>
  let w' rest := mkWorld (db_file w) (db_conn w) (clock w) (logs w) rest
                         (requested w ++ [url]) (slept w) in
  match upstream w with
  | Responds r :: rest => (Ok r, w' rest)
  | Fails :: rest => (Raise ConnectError, w' rest)
  | [] => (Raise ConnectError, w' [])
  end.

(** [json.loads(text)] and [response.json()] *)
Definition json_loads {A : Type} (text : json_text A) : M A :=
  match text with
  | Encoded v => mret v
  | Corrupt _ => raise JSONDecodeError
  end.

(** *** The connection

    A connection works on its own copy of the tables; [commit] writes the
    copy to the file, [rollback] and closing discard what was not
    committed. *)

Definition set_conn (c : option database) (w : world) : world :=
  mkWorld (db_file w) c (clock w) (logs w) (upstream w) (requested w)
          (slept w).

Definition conn_view (w : world) : database :=
  match db_conn w with
  | Some d => d
  | None => db_file w
  end.

(** [async with aiosqlite.connect(DATABASE_URL) as db: m] *)
Definition with_connection {A : Type} (m : M A) : M A := fun w =>
  let (r, w') := m (set_conn (Some (db_file w)) w) in
  (r, set_conn None w').

(** [await db.execute(stmt)] for a statement that changes the tables. *)
Definition db_execute (stmt : database -> database) : M unit := fun w =>
  (Ok tt, set_conn (Some (stmt (conn_view w))) w).

(** [await db.execute(query)] followed by a fetch. *)
Definition db_query {A : Type} (query : database -> A) : M A := fun w =>
  (Ok (query (conn_view w)), w).

(** [await db.commit()] *)
Definition db_commit : M unit := fun w =>
  (Ok tt, mkWorld (conn_view w) (db_conn w) (clock w) (logs w) (upstream w)
                  (requested w) (slept w)).

(** [await db.rollback()] *)
Definition db_rollback : M unit := fun w =>
  (Ok tt, set_conn (Some (db_file w)) w).

(** ** [app/database.py] *)

Definition CACHE_TTL_MINUTES : Z := 1.
Definition CACHE_DIRECCIONES_TTL_DIAS : Z := 30.

(** [SELECT * FROM paradas ORDER BY codigo] *)
Definition get_all_paradas_from_db : M (list parada) :=
  with_connection
    (db_query (fun d =>
       stable_sort (fun a b => String.leb (p_codigo a) (p_codigo b))
                   (paradas d))).

(** [SELECT * FROM paradas WHERE codigo = ?] *)
Definition get_parada_by_codigo (codigo : string) : M (option parada) :=
  with_connection
    (db_query (fun d => select_by_pk p_codigo codigo (paradas d))).

(** The two statements of [save_paradas_batch]. With a street, the row
    written on a fresh code carries [calle] and [numero]; on a conflict
    the name, the coordinates, [calle], [numero] and the timestamp are
    set. Without one, the address columns are left out of both parts. *)
Definition upsert_con_direccion (p : parada_dict) (now : Z) :=
  upsert p_codigo
    (mkParada (d_codigo p) (d_nombre p) (d_latitud p) (d_longitud p)
              (d_calle p) (d_numero p) None None None None None now)
    (fun old =>
       mkParada (p_codigo old) (d_nombre p) (d_latitud p) (d_longitud p)
                (d_calle p) (d_numero p) (p_codigo_postal old)
                (p_municipio old) (p_provincia old)
                (p_comunidad_autonoma old) (p_direccion_completa old) now).

Definition upsert_sin_direccion (p : parada_dict) (now : Z) :=
  upsert p_codigo
    (mkParada (d_codigo p) (d_nombre p) (d_latitud p) (d_longitud p)
              None None None None None None None now)
    (fun old =>
       mkParada (p_codigo old) (d_nombre p) (d_latitud p) (d_longitud p)
                (p_calle old) (p_numero old) (p_codigo_postal old)
                (p_municipio old) (p_provincia old)
                (p_comunidad_autonoma old) (p_direccion_completa old) now).

(** The body of the loop of [save_paradas_batch]. *)
Definition guardar_parada (p : parada_dict) : M unit :=
  let calle := d_calle p in
  now ← datetime_now;
  if Py.truthy calle
  then db_execute (with_paradas (upsert_con_direccion p now))
  else db_execute (with_paradas (upsert_sin_direccion p now)).

(** [save_paradas_batch] *)
Definition save_paradas_batch (paradas : list parada_dict) : M unit :=
  with_connection (for_each paradas guardar_parada ;; db_commit).

(** [get_cached_tiempos] *)
Definition get_cached_tiempos (parada_codigo : string)
  : M (option tiempos_parada) :=
  with_connection
    (row ← db_query (fun d =>
              select_by_pk tc_parada_codigo parada_codigo (tiempos_cache d));
     match row with
     | Some row =>
         let cached_at := tc_cached_at row in
         now ← datetime_now;
         if decide (now - cached_at < timedelta_minutes CACHE_TTL_MINUTES)
         then
           try_except
             (v ← json_loads (tc_tiempos_json row); mret (Some v))
             (fun e =>
                match e with
                | JSONDecodeError =>
                    log ERROR "Cache corrupto para parada %s, eliminando" ;;
                    db_execute (with_tiempos_cache
                                  (delete_by_pk tc_parada_codigo parada_codigo)) ;;
                    db_commit ;;
                    mret None
                | _ => raise e
                end)
         else mret None
     | None => mret None
     end).

(** [save_tiempos_cache] *)
Definition save_tiempos_cache (parada_codigo : string)
    (tiempos : tiempos_parada) : M unit :=
  with_connection
    (now ← datetime_now;
     db_execute (with_tiempos_cache
                   (insert_or_replace tc_parada_codigo
                      (mkTiemposCacheRow parada_codigo (json_dumps tiempos)
                                         now))) ;;
     db_commit).

(** [get_cached_direccion] *)
Definition get_cached_direccion (lat lon : R) : M (option direccion) :=
  let lat_r := Py.round_ndigits lat 4 in
  let lon_r := Py.round_ndigits lon 4 in
  with_connection
    (row ← db_query (fun d =>
              select_by_pk dc_key (lat_r, lon_r) (direcciones_cache d));
     match row with
     | Some row =>
         let cached_at := dc_cached_at row in
         now ← datetime_now;
         if decide (now - cached_at
                    < timedelta_days CACHE_DIRECCIONES_TTL_DIAS)
         then
           try_except
             (v ← json_loads (dc_direccion_json row); mret (Some v))
             (fun e =>
                match e with
                | JSONDecodeError =>
                    log ERROR
                      "Cache dirección corrupto para (%f, %f), eliminando" ;;
                    db_execute (with_direcciones_cache
                                  (delete_by_pk dc_key (lat_r, lon_r))) ;;
                    db_commit ;;
                    mret None
                | _ => raise e
                end)
         else mret None
     | None => mret None
     end).

(** [save_direccion_cache] *)
Definition save_direccion_cache (lat lon : R) (direccion : direccion)
  : M unit :=
  let lat_r := Py.round_ndigits lat 4 in
  let lon_r := Py.round_ndigits lon 4 in
  with_connection
    (now ← datetime_now;
     db_execute (with_direcciones_cache
                   (insert_or_replace dc_key
                      (mkDireccionesCacheRow lat_r lon_r
                                             (json_dumps direccion) now))) ;;
     db_commit).

(** [r[k]] on a membership dict: [KeyError] when the key is missing. *)
Definition getitem {A : Type} (k : string) (v : option A) : M A :=
  match v with
  | Some a => mret a
  | None => raise (KeyError k)
  end.

(** The body of the loop of [save_paradas_lineas_batch]: the four values
    are read from the dict, then the row is inserted. *)
Definition insertar_relacion (r : relacion_dict) : M unit :=
  parada_codigo ← getitem "parada_codigo" (r_parada_codigo r);
  linea_numero ← getitem "linea_numero" (r_linea_numero r);
  sentido ← getitem "sentido" (r_sentido r);
  orden ← getitem "orden" (r_orden r);
  db_execute (with_paradas_lineas
                (insert_or_ignore pl_key
                   (mkParadaLinea parada_codigo linea_numero sentido orden))).

(** [save_paradas_lineas_batch] *)
Definition save_paradas_lineas_batch (relaciones : list relacion_dict)
  : M unit :=
  match relaciones with
  | [] =>
      log WARNING
        "save_paradas_lineas_batch llamado con lista vacía, no se borra nada"
  | _ =>
      with_connection
        (try_except
           (db_execute (with_paradas_lineas (fun _ => [])) ;;
            for_each relaciones insertar_relacion ;;
            db_commit)
           (fun e =>
              db_rollback ;;
              log ERROR "Error guardando paradas_lineas, rollback ejecutado" ;;
              raise e))
  end.

(** The order of [ORDER BY linea_numero, sentido]. *)
Definition linea_sentido_leb (a b : parada_linea) : bool :=
  String.ltb (pl_linea_numero a) (pl_linea_numero b)
  || (String.eqb (pl_linea_numero a) (pl_linea_numero b)
      && (pl_sentido a <=? pl_sentido b)%Z).

(** [get_sentidos_for_parada]: the rows of the stop, ordered, grouped by
    line with [result.setdefault(linea, []).append(sentido)]. *)
Definition get_sentidos_for_parada (parada_codigo : string)
  : M (gmap string (list Z)) :=
  with_connection
    (rows ← db_query (fun d =>
               stable_sort linea_sentido_leb
                 (filter (fun r => pl_parada_codigo r = parada_codigo)
                         (paradas_lineas d)));
     mret (foldl (fun (result : gmap string (list Z)) row =>
                    let linea := pl_linea_numero row in
                    let sentido := pl_sentido row in
                    <[linea := default [] (result !! linea) ++ [sentido]]>
                      result)
                 ∅ rows)).

(** *** The other statements of [app/database.py] *)

(** [UPDATE t SET ... WHERE pk = k]: every row that holds the key is
    changed by [upd]; the others, and the number of rows, stay. *)
Definition update_by_pk {row key : Type} `{EqDecision key} (pk : row -> key)
    (k : key) (upd : row -> row) (t : list row) : list row :=
  map (fun r => if decide (pk r = k) then upd r else r) t.

(** [save_parada]: one [INSERT OR REPLACE]; the address columns that the
    statement does not name are NULL in the row it writes. *)
Definition save_parada (codigo nombre : string) (latitud longitud : R)
    (calle numero : option string) : M unit :=
  with_connection
    (now ← datetime_now;
     db_execute (with_paradas
                   (insert_or_replace p_codigo
                      (mkParada codigo nombre latitud longitud calle numero
                                None None None None None now))) ;;
     db_commit).

(** A row of the answer of [get_paradas_sin_direccion]: the four columns
    of its [SELECT]. *)
Record parada_resumen := mkParadaResumen {
  s_codigo : string;
  s_nombre : string;
  s_latitud : R;
  s_longitud : R
}.

Definition resumen_de (p : parada) : parada_resumen :=
  mkParadaResumen (p_codigo p) (p_nombre p) (p_latitud p) (p_longitud p).

(** [get_paradas_sin_direccion]:
    [... FROM paradas WHERE calle IS NULL OR calle = ''] *)
Definition get_paradas_sin_direccion : M (list parada_resumen) :=
  with_connection
    (db_query (fun d =>
       map resumen_de
           (filter (fun p => p_calle p = None \/ p_calle p = Some "")
                   (paradas d)))).

(** [update_parada_direccion]: the seven address columns of the stop are
    set; nothing else of the row is. *)
Definition update_parada_direccion
    (codigo calle numero codigo_postal municipio provincia
     comunidad_autonoma direccion_completa : string) : M unit :=
  with_connection
    (db_execute (with_paradas
                   (update_by_pk p_codigo codigo (fun p =>
                      mkParada (p_codigo p) (p_nombre p) (p_latitud p)
                               (p_longitud p) (Some calle) (Some numero)
                               (Some codigo_postal) (Some municipio)
                               (Some provincia) (Some comunidad_autonoma)
                               (Some direccion_completa) (p_updated_at p)))) ;;
     db_commit).

(** [get_lineas_de_parada]:
    [SELECT DISTINCT linea_numero ... WHERE parada_codigo = ?
     ORDER BY linea_numero] *)
Definition get_lineas_de_parada (parada_codigo : string) : M (list string) :=
  with_connection
    (db_query (fun d =>
       stable_sort String.leb
         (remove_dups
            (map pl_linea_numero
                 (filter (fun r => pl_parada_codigo r = parada_codigo)
                         (paradas_lineas d)))))).




(** ** [app/services/tussam.py] *)

Definition BASE_URL : string := "https://reddelineas.tussam.es".

(** A stop of the answer of [get_paradas_cercanas]: the copy of the row
    with the keys [distancia] and, when a bearing was given, [bearing] and
    [bearing_diff]. *)
Record parada_cercana := mkParadaCercana {
  pc_parada : parada;
  pc_distancia : Z;
  pc_bearing : option Z;
  pc_bearing_diff : option Z
}.

(** The loop of [get_paradas_cercanas] that fills [cercanas]; [None]
    when [haversine] raises for one of the stops. *)
Fixpoint cercanas_de (lat lon : R) (radio : Z) (bearing : option R)
    (all_paradas : list parada) : option (list parada_cercana) :=
  match all_paradas with
  | [] => Some []
  | parada :: rest =>
      match Geo.haversine lat lon (p_latitud parada) (p_longitud parada) with
      | Some distancia =>
          if decide (distancia <= IZR radio)%R then
            let parada_copy :=
              match bearing with
              | Some bearing =>
                  let parada_bearing :=
                    Geo._calculate_bearing lat lon (p_latitud parada)
                                           (p_longitud parada) in
                  mkParadaCercana parada (Py.round distancia)
                    (Some (Py.round parada_bearing))
                    (Some (Py.round
                             (Geo._bearing_diff bearing parada_bearing)))
              | None => mkParadaCercana parada (Py.round distancia) None None
              end in
            match cercanas_de lat lon radio bearing rest with
            | Some cercanas => Some (parada_copy :: cercanas)
            | None => None
            end
          else cercanas_de lat lon radio bearing rest
      | None => None
      end
  end.

(** [TussamService.get_paradas_cercanas]. The error of [haversine] is not
    caught: it ends the search. *)
Definition get_paradas_cercanas (lat lon : R) (radio : Z)
    (bearing : option R) (bearing_tolerance : R)
  : M (list parada_cercana) :=
  all_paradas ← get_all_paradas_from_db;
  match cercanas_de lat lon radio bearing all_paradas with
  | Some cercanas =>
      match bearing with
      | Some _ =>
          mret (sorted (fun x => default 999 (pc_bearing_diff x)) cercanas)
      | None => mret (sorted pc_distancia cercanas)
      end
  | None => raise (ValueError "math domain error")
  end.

(** [resp.raise_for_status()]: an error unless the status is 2xx. *)
Definition raise_for_status (resp : response) : M unit :=
  if (200 <=? status_code resp) && (status_code resp <=? 299)
  then mret tt
  else raise (HTTPStatusError (status_code resp)).

Definition retryable : list Z := [429; 500; 502; 503].

(** The [for attempt in range(max_retries)] loop of [_get_with_retry] and
    the statements after it; [last] is the variable [resp], unbound until
    the first request has answered. *)
Fixpoint _get_with_retry_loop (url : string) (attempts : list Z)
    (last : option response) : M response :=
  match attempts with
  | attempt :: rest =>
      resp ← client_get url;
      if bool_decide (status_code resp ∈ retryable) then
        let wait := 2 ^ (attempt + 1) in
        log WARNING "HTTP %d de %s, reintentando en %ds (%d/%d)" ;;
        sleep wait ;;
        _get_with_retry_loop url rest (Some resp)
      else
        raise_for_status resp ;;
        mret resp
  | [] =>
      match last with
      | Some resp =>
          log ERROR "Reintentos agotados para %s (último: %d)" ;;
          raise_for_status resp ;;
          mret resp
      | None => raise (UnboundLocalError "resp")
      end
  end.

(** [range(n)] *)
Definition range (n : Z) : list Z := map Z.of_nat (seq 0 (Z.to_nat n)).

(** [TussamService._get_with_retry] *)
Definition _get_with_retry (url : string) (max_retries : Z) : M response :=
  _get_with_retry_loop url (range max_retries) None.

(** [sentidos[0] if len(sentidos) == 1 else None] *)
Definition sentido_unico (sentidos : list Z) : option Z :=
  match sentidos with
  | [s] => Some s
  | _ => None
  end.

(** The two nested loops of [get_tiempos_parada] that fill [tiempos]. *)
Definition tiempos_de (sentidos_map : gmap string (list Z))
    (lineas : list linea_coincidente) : list tiempo :=
  flat_map (fun linea =>
    let label := lc_labelLinea linea in
    let color := lc_color linea in
    let estimaciones := lc_estimaciones linea in
    let sentidos := default [] (sentidos_map !! label) in
    let sentido := sentido_unico sentidos in
    map (fun est =>
           let tiempo_min := e_segundos est / 60 in
           let destino := e_destino est in
           mkTiempo label color tiempo_min destino (e_distancia est) sentido)
        estimaciones) lineas.

(** [TussamService.get_tiempos_parada]. A cached answer is a dict with
    five keys, hence true in [if cached:]. *)
Definition get_tiempos_parada (codigo_parada : string) (force_refresh : bool)
  : M tiempos_parada :=
  cached ← (if negb force_refresh then get_cached_tiempos codigo_parada
            else mret None);
  match cached with
  | Some cached =>
      log INFO "Returning cached tiempos for parada" ;;
      mret cached
  | None =>
      let url :=
        (BASE_URL ++ "/API/infotus-ui/tiempos/" ++ codigo_parada)%string in
      response ← _get_with_retry url 3;
      result ← json_loads (body response);
      let parada_info := b_descripcion result in
      let posicion := b_posicion result in
      let lineas := b_lineasCoincidentes result in
      sentidos_map ← get_sentidos_for_parada codigo_parada;
      let tiempos := tiempos_de sentidos_map lineas in
      let result_data :=
        mkTiemposParada codigo_parada parada_info
          (fmap (fun p => IZR (fst p) / 1000000)%R posicion)
          (fmap (fun p => IZR (snd p) / 1000000)%R posicion)
          (take 10 (sorted t_tiempo_minutos tiempos)) in
      save_tiempos_cache codigo_parada result_data ;;
      mret result_data
  end.

(** *** The synchronisation of [app/services/tussam.py]

    A node of a [nodosLinea] response, after the [.get(..., default)]
    calls of the source: [str(nodo.get("codigo", ""))], the two integers
    of [posicion] (0 when absent) and the text of [descripcion]. *)
Record nodo := mkNodo {
  n_codigo : string;
  n_latitudE6 : Z;
  n_longitudE6 : Z;
  n_texto : string
}.

(** The body of the loop [for nodo in nodos] of [sync_paradas_from_api].
    [todas_paradas] is the dict of the stops found so far, in the order of
    their insertion. *)
Definition recoger_nodo (todas_paradas : list (string * parada_dict))
    (nodo : nodo) : list (string * parada_dict) :=
  let codigo := n_codigo nodo in
  if bool_decide (codigo = "" \/ codigo ∈ map fst todas_paradas)
  then todas_paradas
  else
    let lat := (IZR (n_latitudE6 nodo) / 1000000)%R in
    let lon := (IZR (n_longitudE6 nodo) / 1000000)%R in
    if bool_decide (lat <> 0%R /\ lon <> 0%R)
    then todas_paradas
         ++ [(codigo, mkParadaDict codigo (n_texto nodo) lat lon None None)]
    else todas_paradas.

(** The loops of [sync_paradas_from_api] over the node lists of the
    requests that were answered, in the order of the requests; a request
    that fails is logged and adds nothing. *)
Definition todas_paradas_de (respuestas : list (list nodo))
  : list (string * parada_dict) :=
  foldl (fun todas_paradas nodos => foldl recoger_nodo todas_paradas nodos)
        [] respuestas.


(** The loop [for orden, nodo in enumerate(nodos)] of
    [sync_paradas_lineas_from_api] for one line and one direction. *)
Definition relaciones_de_nodos (label : string) (sentido : Z)
    (nodos : list nodo) : list relacion_dict :=
  mjoin (imap (fun orden nodo =>
                 let codigo := n_codigo nodo in
                 if bool_decide (codigo = "") then []
                 else [mkRelacionDict (Some codigo) (Some label)
                                      (Some sentido) (Some (Z.of_nat orden))])
              nodos).

(** The memberships [sync_paradas_lineas_from_api] builds from the node
    lists of the requests that were answered, each with the label of its
    line and its direction, and the end of the function. *)
Definition relaciones_de (respuestas : list (string * Z * list nodo))
  : list relacion_dict :=
  flat_map (fun r => relaciones_de_nodos (fst (fst r)) (snd (fst r)) (snd r))
           respuestas.

Definition sync_paradas_lineas_guardar
    (respuestas : list (string * Z * list nodo)) : M Z :=
  let relaciones := relaciones_de respuestas in
  save_paradas_lineas_batch relaciones ;;
  log INFO "Synced %d parada-linea relations" ;;
  mret (Z.of_nat (length relaciones)).

(** ** [app/main.py]

    The part of [get_paradas_cercanas_con_tiempos] that chooses the stops,
    after the validation of the query: the search, the filter on
    [bearing_diff] and the cut to [max_paradas] (at least 1). *)
Definition get_paradas_cercanas_con_tiempos_paradas (lat lon : R) (radio : Z)
    (max_paradas : Z) (bearing : option R) (bearing_tolerance : R)
  : M (list parada_cercana) :=
  paradas ← get_paradas_cercanas lat lon radio bearing bearing_tolerance;
  let paradas :=
    match bearing with
    | Some _ =>
        filter (fun p => (IZR (default 999%Z (pc_bearing_diff p))
                          <= bearing_tolerance)%R) paradas
    | None => paradas
    end in
  mret (take (Z.to_nat max_paradas) paradas).


(** The three filters on the arrivals of a stop. [lineas_filtro] is
    [lineas.upper().split(",")], or [None] without the parameter. *)
Definition filtrar_tiempos (tiempo_max : option Z)
    (lineas_filtro : option (list string)) (sentido : option Z)
    (tiempos : list tiempo) : list tiempo :=
  let tiempos_filtrados := tiempos in
  let tiempos_filtrados :=
    match tiempo_max with
    | Some tiempo_max =>
        filter (fun t => 0 <= t_tiempo_minutos t
                         /\ t_tiempo_minutos t <= tiempo_max)
               tiempos_filtrados
    | None => tiempos_filtrados
    end in
  let tiempos_filtrados :=
    match lineas_filtro with
    | Some ((_ :: _) as lineas_filtro) =>
        filter (fun t => t_linea t ∈ lineas_filtro) tiempos_filtrados
    | _ => tiempos_filtrados
    end in
  match sentido with
  | Some sentido =>
      filter (fun t => t_sentido t = Some sentido) tiempos_filtrados
  | None => tiempos_filtrados
  end.




(** *** Rate limiting *)

Definition DEVICE_RATE_LIMIT : Z := 60.
Definition IP_RATE_LIMIT : Z := 300.
Definition MAX_DEVICE_ID_LEN : Z := 64.
Definition MAX_BUCKETS : Z := 50000.

(** What the middleware reads of a request: the header [X-Device-ID] and
    the host of the client, when there is one. *)
Record request := mkRequest {
  x_device_id : option string;
  client_host : option string
}.

(** The state of a [RateLimitMiddleware]; [time.time()] is a real number
    of seconds. *)
Record RateLimitMiddleware := mkRateLimitMiddleware {
  device_limit : Z;
  ip_limit : Z;
  window : Z;
  buckets : gmap string (list R);
  last_cleanup : R
}.

(** [RateLimitMiddleware.__init__] at the time [now]. *)
Definition RateLimitMiddleware_init (device_limit ip_limit window : Z)
    (now : R) : RateLimitMiddleware :=
  mkRateLimitMiddleware device_limit ip_limit window ∅ now.

(** [RateLimitMiddleware._get_key_and_limit] *)
Definition _get_key_and_limit (self : RateLimitMiddleware)
    (request : request) : string * Z :=
  let por_ip :=
    let client_ip := match client_host request with
                     | Some host => host
                     | None => "unknown"
                     end in
    (("ip:" ++ client_ip)%string, ip_limit self) in
  match x_device_id request with
  | Some device_id =>
      if negb (String.eqb device_id "")
         && (Z.of_nat (String.length device_id) <=? MAX_DEVICE_ID_LEN)
      then (("device:" ++ device_id)%string, device_limit self)
      else por_ip
  | None => por_ip
  end.

(** [not ts or now - ts[-1] > self.window] *)
Definition stale (now : R) (window : Z) (ts : list R) : bool :=
  match last ts with
  | None => true
  | Some t => bool_decide (now - t > IZR window)%R
  end.

(** [self.buckets[key]] on the [defaultdict(list)]. *)
Definition bucket_of (buckets : gmap string (list R)) (key : string)
  : list R :=
  match buckets !! key with
  | Some ts => ts
  | None => []
  end.

(** The answer of [dispatch]: the 429 response, or what [call_next]
    gives. *)
Inductive dispatch_answer :=
  | JSONResponse_429 (limit : Z)
  | call_next.

#[global] Instance dispatch_answer_eq_dec : EqDecision dispatch_answer.
Proof. solve_decision. Defined.

(** [RateLimitMiddleware.dispatch] at the time [now]. *)
Definition dispatch (self : RateLimitMiddleware) (request : request)
    (now : R) : dispatch_answer * RateLimitMiddleware :=
  let key := fst (_get_key_and_limit self request) in
  let limit := snd (_get_key_and_limit self request) in
  let cleaned :=
    if bool_decide (now - last_cleanup self > 300)%R
       || (MAX_BUCKETS <? Z.of_nat (size (buckets self)))
    then mkRateLimitMiddleware (device_limit self) (ip_limit self)
           (window self)
           (filter (fun kv => stale now (window self) (snd kv) = false)
                   (buckets self))
           now
    else self in
  let bucket :=
    filter (fun t => (now - t < IZR (window cleaned))%R)
           (bucket_of (buckets cleaned) key) in
  if limit <=? Z.of_nat (length bucket)
  then (JSONResponse_429 limit,
        mkRateLimitMiddleware (device_limit cleaned) (ip_limit cleaned)
          (window cleaned) (<[key := bucket]> (buckets cleaned))
          (last_cleanup cleaned))
  else (call_next,
        mkRateLimitMiddleware (device_limit cleaned) (ip_limit cleaned)
          (window cleaned) (<[key := bucket ++ [now]]> (buckets cleaned))
          (last_cleanup cleaned)).

(** ** [app/scheduler.py]

    [_run_weekly_sync] over the four calls of the service it makes. *)
Section WeeklySync.

Variables (sync_paradas_from_api sync_lineas_from_api
           sync_paradas_lineas_from_api : M Z).
Variable sync_direcciones_all : M (Z * Z * Z).

Definition _run_weekly_sync : M unit :=
  log INFO "Iniciando sincronización semanal programada..." ;;
  seguir ← try_except
             (count_paradas ← sync_paradas_from_api;
              log INFO "Sync paradas OK: %d" ;;
              mret true)
             (fun _ =>
                log ERROR "Error syncing paradas — abortando sync semanal" ;;
                mret false);
  if seguir : bool then
    try_except
      (count_lineas ← sync_lineas_from_api;
       log INFO "Sync líneas OK: %d")
      (fun _ =>
         log ERROR "Error syncing líneas — continuando con relaciones") ;;
    try_except
      (count_relaciones ← sync_paradas_lineas_from_api;
       log INFO "Sync relaciones OK: %d")
      (fun _ => log ERROR "Error syncing relaciones parada-línea") ;;
    try_except
      (result ← sync_direcciones_all;
       log INFO "Geocodificación OK: %d total, %d ok, %d errores")
      (fun _ => log ERROR "Error en geocodificación: %s") ;;
    log INFO "Sincronización semanal completada."
  else mret tt.

End WeeklySync.

(** ** Vocabulary of the statements *)

(** The value [a] that [haversine] hands to [math.sqrt]. *)
Definition a_de (lat1 lon1 lat2 lon2 : R) : R :=
  (sin (Py.radians (lat2 - lat1) / 2) ^ 2
   + cos (Py.radians lat1) * cos (Py.radians lat2)
     * sin (Py.radians (lon2 - lon1) / 2) ^ 2)%R.

(** The distance of a stored stop from the query point can be computed:
    [haversine] returns. *)
Definition medible (lat lon : R) (p : parada) : Prop :=
  is_Some (Geo.haversine lat lon (p_latitud p) (p_longitud p)).

#[global] Instance medible_dec (lat lon : R) (p : parada)
  : Decision (medible lat lon p).
Proof. unfold medible. apply _. Defined.

(** The distance of a stored stop from the query point, as the formula of
    [haversine] gives it; it is what [haversine] returns when it
    returns. *)
Definition distancia_a (lat lon : R) (p : parada) : R :=
  (2 * 6371000
   * asin (sqrt (a_de lat lon (p_latitud p) (p_longitud p))))%R.

(** The bearing difference of a stored stop for the query bearing [b]. *)
Definition diferencia_a (lat lon : R) (b : R) (p : parada) : R :=
  Geo._bearing_diff b
    (Geo._calculate_bearing lat lon (p_latitud p) (p_longitud p)).

(** The integer the answer of the search is ordered by: the rounded
    distance, or the rounded bearing difference when a bearing is given. *)
Definition clave_de (lat lon : R) (bearing : option R) (p : parada) : Z :=
  match bearing with
  | Some b => Py.round (diferencia_a lat lon b p)
  | None => Py.round (distancia_a lat lon p)
  end.

(** The annotated copy of a stop in the answer of the search. *)
Definition anotada (lat lon : R) (bearing : option R) (p : parada)
  : parada_cercana :=
  match bearing with
  | Some b =>
      mkParadaCercana p (Py.round (distancia_a lat lon p))
        (Some (Py.round
                 (Geo._calculate_bearing lat lon (p_latitud p) (p_longitud p))))
        (Some (Py.round (diferencia_a lat lon b p)))
  | None => mkParadaCercana p (Py.round (distancia_a lat lon p)) None None
  end.

(** Time passing between two calls. *)
Definition pasa (micros : Z) (w : world) : world :=
  mkWorld (db_file w) (db_conn w) (clock w + micros) (logs w) (upstream w)
          (requested w) (slept w).

(** A world with an empty store, at time 0, with nothing logged. *)
Definition mundo_vacio : world :=
  mkWorld (mkDatabase [] [] [] []) None 0 [] [] [] [].

(** The row a membership dict stands for, when it has its four keys. *)
Definition fila_de (r : relacion_dict) : option parada_linea :=
  parada_codigo ← r_parada_codigo r;
  linea_numero ← r_linea_numero r;
  sentido ← r_sentido r;
  orden ← r_orden r;
  Some (mkParadaLinea parada_codigo linea_numero sentido orden).

(** The table that [INSERT OR IGNORE] builds from rows, one by one. *)
Definition insertar_filas (filas : list parada_linea)
    (t : list parada_linea) : list parada_linea :=
  foldl (fun t fila => insert_or_ignore pl_key fila t) t filas.

(** What one stop of a batch does to the table of stops. *)
Definition upsert_parada (now : Z) (p : parada_dict)
    (t : list parada) : list parada :=
  if Py.truthy (d_calle p) then upsert_con_direccion p now t
  else upsert_sin_direccion p now t.

(** What a batch does to the table of stops. *)
Definition upsert_paradas (now : Z) (ps : list parada_dict)
    (t : list parada) : list parada :=
  foldl (fun t p => upsert_parada now p t) t ps.

(** The row a stored stop becomes when a batch carries its code. *)
Definition actualizada (now : Z) (p : parada_dict) (old : parada) : parada :=
  if Py.truthy (d_calle p)
  then mkParada (p_codigo old) (d_nombre p) (d_latitud p) (d_longitud p)
         (d_calle p) (d_numero p) (p_codigo_postal old) (p_municipio old)
         (p_provincia old) (p_comunidad_autonoma old)
         (p_direccion_completa old) now
  else mkParada (p_codigo old) (d_nombre p) (d_latitud p) (d_longitud p)
         (p_calle old) (p_numero old) (p_codigo_postal old) (p_municipio old)
         (p_provincia old) (p_comunidad_autonoma old)
         (p_direccion_completa old) now.

(** The grouping of [get_sentidos_for_parada]: every row adds its
    direction to the list of its line. *)
Definition agrupar_sentidos (rows : list parada_linea)
  : gmap string (list Z) :=
  foldl (fun (result : gmap string (list Z)) row =>
           let linea := pl_linea_numero row in
           let sentido := pl_sentido row in
           <[linea := default [] (result !! linea) ++ [sentido]]> result)
        ∅ rows.

(** The directions [get_sentidos_for_parada] lists for a line at a stop:
    [sentidos_map.get(label, [])]. *)
Definition sentidos_de (t : list parada_linea) (codigo label : string)
  : list Z :=
  default []
    (agrupar_sentidos
       (stable_sort linea_sentido_leb
          (filter (fun r => pl_parada_codigo r = codigo) t)) !! label).

(** The membership table records direction [d] for a line at a stop. *)
Definition registrado (t : list parada_linea) (codigo linea : string)
    (d : Z) : Prop :=
  exists row, row ∈ t /\ pl_parada_codigo row = codigo
              /\ pl_linea_numero row = linea /\ pl_sentido row = d.

(** An arrival without its direction, and the arrivals a response of the
    transit API announces, in its order. *)
Definition sin_sentido (t : tiempo) : string * string * Z * string * Z :=
  (t_linea t, t_color t, t_tiempo_minutos t, t_destino t,
   t_distancia_metros t).

Definition llegadas_de (lineas : list linea_coincidente)
  : list (string * string * Z * string * Z) :=
  flat_map (fun linea =>
              map (fun est => (lc_labelLinea linea, lc_color linea,
                               e_segundos est / 60, e_destino est,
                               e_distancia est))
                  (lc_estimaciones linea)) lineas.

(** A step of the weekly job is cancelled, and the world a step that is
    not cancelled leaves: that of the step, with the record of its
    outcome in the log. *)
Definition cancelado {A : Type} (m : M A) (w : world) : Prop :=
  fst (m w) = Raise CancelledError.

Definition tras_paso {A : Type} (m : M A) (ok err : string) (w : world)
  : world :=
  match m w with
  | (Ok _, w') => snd (log INFO ok w')
  | (Raise _, w') => snd (log ERROR err w')
  end.

(** A stop of the synchronisation is kept when it has a code and two
    coordinates that are not 0. *)
Definition nodo_valido (n : nodo) : Prop :=
  n_codigo n <> "" /\ n_latitudE6 n <> 0 /\ n_longitudE6 n <> 0.

(** The dict [sync_paradas_from_api] makes of a node. *)
Definition dict_de_nodo (n : nodo) : parada_dict :=
  mkParadaDict (n_codigo n) (n_texto n)
    (IZR (n_latitudE6 n) / 1000000)%R (IZR (n_longitudE6 n) / 1000000)%R
    None None.

#[global] Instance nodo_valido_dec (n : nodo) : Decision (nodo_valido n).
Proof. unfold nodo_valido. apply _. Defined.

(** The first node of a list that is kept for the code [k]. *)
Definition primer_nodo (k : string) (nodos : list nodo) : option nodo :=
  head (filter (fun n => nodo_valido n /\ n_codigo n = k) nodos).



(** A sequence of requests, each with the time of its arrival, served one
    after the other by a middleware: the answers, and the state left. *)
Definition atender_una
    (st : list (request * R * dispatch_answer) * RateLimitMiddleware)
    (p : request * R)
  : list (request * R * dispatch_answer) * RateLimitMiddleware :=
  (fst st ++ [(fst p, snd p, fst (dispatch (snd st) (fst p) (snd p)))],
   snd (dispatch (snd st) (fst p) (snd p))).

Definition atender (self : RateLimitMiddleware)
    (peticiones : list (request * R))
  : list (request * R * dispatch_answer) * RateLimitMiddleware :=
  foldl atender_una ([], self) peticiones.

(** The times of the requests of a key that were let through, and those
    among them less than [window] seconds before [now]. *)
Definition admitidas (self : RateLimitMiddleware) (key : string)
    (historial : list (request * R * dispatch_answer)) : list R :=
  map (fun h => snd (fst h))
      (filter (fun h => fst (_get_key_and_limit self (fst (fst h))) = key
                        /\ snd h = call_next)
              historial).

Definition recientes (now : R) (window : Z) (ts : list R) : list R :=
  filter (fun t => (now - t < IZR window)%R) ts.

(** The state of a middleware agrees with the requests served so far: its
    limits and its window are the initial ones, and each bucket is
    ascending, holds times of earlier requests only and, seen from any
    later time, the same recent times as the requests of its key that were
    let through. *)
Definition coherente (self0 self : RateLimitMiddleware)
    (historial : list (request * R * dispatch_answer)) : Prop :=
  device_limit self = device_limit self0
  /\ ip_limit self = ip_limit self0
  /\ window self = window self0
  /\ forall key,
       StronglySorted Rle (bucket_of (buckets self) key)
       /\ (forall t, t ∈ bucket_of (buckets self) key ->
                     t ∈ map (fun h => snd (fst h)) historial)
       /\ (forall now,
             Forall (fun h => (snd (fst h) <= now)%R) historial ->
             recientes now (window self0) (bucket_of (buckets self) key)
             = recientes now (window self0)
                         (admitidas self0 key historial)).

(** ** Example data *)

(** Two stops on the meridian of the point (37.3897, -5.9843): "43" about
    120.42 m to the north of it, "44" about 119.65 m to the south. *)
Definition parada_norte : parada :=
  mkParada "43" "Recaredo" 37.390783 (-5.9843)
           None None None None None None None 0.
Definition parada_sur : parada :=
  mkParada "44" "San Esteban" 37.388624 (-5.9843)
           None None None None None None None 0.

Definition mundo_meridiano : world :=
  mkWorld (mkDatabase [parada_norte; parada_sur] [] [] []) None 0 [] [] [] [].

Definition direccion_ejemplo : direccion :=
  mkDireccion "Calle Sierpes" "10" "41004" "Sevilla" "Sevilla" ""
              "Calle Sierpes 10".

Definition tiempos_ejemplo : tiempos_parada :=
  mkTiemposParada "43" "Recaredo (Puerta Carmona)" None None
    [mkTiempo "01" "#f54129" 5 "Plg. Norte" 1200 (Some 1)].

(** The stop "43" with a full address, as the geocoding left it, and a
    batch entry for the same code that carries another street. *)
Definition parada_43 : parada :=
  mkParada "43" "Recaredo (Puerta Carmona)" 37.389663 (-5.984265)
    (Some "Calle Recaredo") (Some "5") (Some "41003") (Some "Sevilla")
    (Some "Sevilla") (Some "Andalucia") (Some "Calle Recaredo 5") 0.

Definition entrada_43_con_calle : parada_dict :=
  mkParadaDict "43" "Recaredo" 37.3897 (-5.9843)
    (Some "Avenida Menendez Pelayo") (Some "7").

Definition entrada_43_sin_calle : parada_dict :=
  mkParadaDict "43" "Recaredo" 37.3897 (-5.9843) None None.

Definition mundo_paradas : world :=
  mkWorld (mkDatabase [parada_43] [] [] []) None 1000000 [] [] [] [].

(** The memberships of the stop "43": line "01" in both directions, line
    "C4" in direction 1 only; and an answer of the transit API for that
    stop with one arrival of each line. *)
Definition relaciones_ejemplo : list parada_linea :=
  [mkParadaLinea "43" "01" 1 5; mkParadaLinea "43" "01" 2 8;
   mkParadaLinea "43" "C4" 1 12; mkParadaLinea "44" "01" 1 6;
   mkParadaLinea "252" "01" 1 0].

Definition cuerpo_ejemplo : tiempos_body :=
  mkTiemposBody "Recaredo (Puerta Carmona)" None
    [mkLineaCoincidente "01" "#f54129"
       [mkEstimacion 300 "Plg. Norte" 1200];
     mkLineaCoincidente "C4" "#008431"
       [mkEstimacion 125 "Circular" 400]].

Definition mundo_tiempos : world :=
  mkWorld (mkDatabase [] relaciones_ejemplo [] []) None 0 []
          [Responds (mkResponse 200 (Encoded cuerpo_ejemplo))] [] [].

(** A world whose next two responses are 429 and 200. *)
Definition respuesta_429 : response := mkResponse 429 (Corrupt "").
Definition respuesta_200 : response := mkResponse 200 (Encoded cuerpo_ejemplo).

Definition mundo_429_200 : world :=
  mkWorld (mkDatabase [] [] [] []) None 0 []
          [Responds respuesta_429; Responds respuesta_200] [] [].

(** A new membership list for a store that holds [relaciones_ejemplo]. *)
Definition relacion_nueva : relacion_dict :=
  mkRelacionDict (Some "44") (Some "C4") (Some 2) (Some 0).

Definition relacion_sin_orden : relacion_dict :=
  mkRelacionDict (Some "43") (Some "01") (Some 1) None.

Definition mundo_relaciones : world :=
  mkWorld (mkDatabase [] relaciones_ejemplo [] []) None 0 [] [] [] [].

(** A store whose two caches hold an unreadable entry each, and one whose
    two caches hold a readable entry each, 30 seconds old. *)
Definition mundo_cache_corrupto : world :=
  mkWorld
    (mkDatabase [] []
       [mkTiemposCacheRow "43" (Corrupt "{") 0]
       [mkDireccionesCacheRow (Py.round_ndigits 37.3896 4)
          (Py.round_ndigits (-5.9843) 4) (Corrupt "{") 0])
    None 30000000 [] [] [] [].

Definition mundo_cache_fresco : world :=
  mkWorld
    (mkDatabase [] []
       [mkTiemposCacheRow "43" (Encoded tiempos_ejemplo) 0]
       [mkDireccionesCacheRow (Py.round_ndigits 37.3896 4)
          (Py.round_ndigits (-5.9843) 4) (Encoded direccion_ejemplo) 0])
    None 30000000 [] [] [] [].

(** A world whose next request fails to connect. *)
Definition mundo_sin_red : world :=
  mkWorld (mkDatabase [parada_43] relaciones_ejemplo [] []) None 0 []
          [Fails; Responds respuesta_200] [] [].

(** The stop "43" while the table records line "01" in direction 1 only,
    with an answer of the transit API to come; the new memberships of a
    synchronisation, with line "01" in both directions; and the world 30
    seconds after the arrivals were fetched and the memberships were
    replaced. *)
Definition mundo_un_sentido : world :=
  mkWorld (mkDatabase [] [mkParadaLinea "43" "01" 1 5] [] []) None 0 []
          [Responds respuesta_200] [] [].

Definition relaciones_dos_sentidos : list relacion_dict :=
  [mkRelacionDict (Some "43") (Some "01") (Some 1) (Some 5);
   mkRelacionDict (Some "43") (Some "01") (Some 2) (Some 8)].

Definition mundo_cache_rancio : world :=
  pasa 30000000
    (snd (save_paradas_lineas_batch relaciones_dos_sentidos
            (snd (get_tiempos_parada "43" false mundo_un_sentido)))).

(** A request of a watch that sends its device id. *)
Definition peticion_reloj : request :=
  mkRequest (Some "6F9619FF-8B86-D011-B42D-00CF4FC964FF") (Some "10.0.0.7").

(** Two arrivals at the stop "43". *)
Definition llegada_01 : tiempo :=
  mkTiempo "01" "#f54129" 5 "Plg. Norte" 1200 None.
Definition llegada_C4 : tiempo :=
  mkTiempo "C4" "#008431" 2 "Circular" 400 (Some 1).

(** * Properties *)

(** ** Rounding *)

Section RoundFacts.

Local Open Scope R_scope.

Lemma floor_bounds (x : R) : IZR (Py.floor x) <= x < IZR (Py.floor x) + 1.
Proof.
  unfold Py.floor. destruct (base_Int_part x) as [H1 H2]. lra.
Qed.

Lemma floor_unique (x : R) (z : Z) : IZR z <= x < IZR z + 1 -> Py.floor x = z.
Proof.
  intros [H1 H2]. unfold Py.floor. symmetry. apply Int_part_spec. lra.
Qed.

(** Away from a tie, [round] is the integer within one half. *)
Lemma round_near (x : R) (z : Z) :
  IZR z - 1 / 2 < x < IZR z + 1 / 2 -> Py.round x = z.
Proof.
  intros [H1 H2]. unfold Py.round.
  destruct (Rle_or_gt (IZR z) x) as [Hge | Hlt].
  - rewrite (floor_unique x z) by lra.
    rewrite decide_True by lra. reflexivity.
  - assert (Hf : Py.floor x = (z - 1)%Z).
    { apply floor_unique. rewrite minus_IZR. lra. }
    rewrite Hf. rewrite minus_IZR.
    rewrite decide_False by lra. rewrite decide_True by lra. lia.
Qed.

(** [round] never moves a number by more than one half. *)
Lemma round_error (x : R) :
  IZR (Py.round x) - 1 / 2 <= x <= IZR (Py.round x) + 1 / 2.
Proof.
  unfold Py.round. pose proof (floor_bounds x) as [H1 H2].
  repeat case_decide; try destruct (Z.even _);
    rewrite ?plus_IZR; lra.
Qed.

(** [round] is monotone. *)
Lemma round_mono (x y : R) : x <= y -> (Py.round x <= Py.round y)%Z.
Proof.
  intros Hxy.
  destruct (Z_le_gt_dec (Py.round x) (Py.round y)) as [H | H]; [exact H |].
  exfalso.
  assert (Hz : (Py.round y + 1 <= Py.round x)%Z) by lia.
  apply IZR_le in Hz. rewrite plus_IZR in Hz.
  pose proof (round_error x) as Ex. pose proof (round_error y) as Ey.
  (* squeezed between the two roundings, x and y coincide *)
  assert (E : x = y) by lra.
  subst y. lia.
Qed.

(** [round(x, 4)] through the integer within one half of [x * 10^4]. *)
Lemma round_ndigits_4 (x : R) (z : Z) :
  IZR z - 1 / 2 < x * 10000 < IZR z + 1 / 2 ->
  Py.round_ndigits x 4 = IZR z / 10000.
Proof.
  intros H. unfold Py.round_ndigits.
  replace (10 ^ 4) with 10000 by (simpl; lra).
  now rewrite (round_near _ z H).
Qed.

End RoundFacts.

(** ** Bearings *)

Section BearingFacts.

Local Open Scope R_scope.

Lemma bearing_diff_cases (b1 b2 : R) :
  let d := Rabs (b1 - b2) in
  (d <= 360 - d /\ Geo._bearing_diff b1 b2 = d)
  \/ (360 - d < d /\ Geo._bearing_diff b1 b2 = 360 - d).
Proof.
  unfold Geo._bearing_diff, Py.min. cbv zeta.
  case_decide; [right | left]; split; lra.
Qed.

(** C9. For bearings in [0, 360) the bearing difference lies in [0, 180]
    and is the least of the distances |b1 - b2 + 360 k| between the two
    bearings around the circle; the difference of 350 and 10 is 20, that
    of 0 and 180 is 180. *)
Theorem bearing_diff_minimal (b1 b2 : R) :
  0 <= b1 < 360 -> 0 <= b2 < 360 ->
  (0 <= Geo._bearing_diff b1 b2 <= 180
   /\ (exists k : Z, Geo._bearing_diff b1 b2 = Rabs (b1 - b2 + 360 * IZR k))
   /\ (forall k : Z, Geo._bearing_diff b1 b2 <= Rabs (b1 - b2 + 360 * IZR k)))
  /\ Geo._bearing_diff 350 10 = 20
  /\ Geo._bearing_diff 0 180 = 180.
Proof.
  intros Hb1 Hb2. split; [| split].
  - destruct (bearing_diff_cases b1 b2) as [[Hle ->] | [Hlt ->]];
      cbv zeta in *.
    + split; [| split].
      * pose proof (Rabs_pos (b1 - b2)). lra.
      * exists 0%Z. f_equal. lra.
      * intros k. destruct (Z.lt_trichotomy k 0) as [Hk | [-> | Hk]].
        -- assert (IZR k <= -1) by (apply IZR_le; lia).
           revert Hle. unfold Rabs.
           repeat destruct (Rcase_abs _); lra.
        -- right. f_equal. lra.
        -- assert (1 <= IZR k) by (apply IZR_le; lia).
           revert Hle. unfold Rabs.
           repeat destruct (Rcase_abs _); lra.
    + split; [| split].
      * revert Hlt. unfold Rabs. destruct (Rcase_abs _); lra.
      * destruct (Rle_or_gt 0 (b1 - b2)) as [Hd | Hd].
        -- exists (-1)%Z. rewrite Rabs_right by lra.
           rewrite Rabs_left by lra. lra.
        -- exists 1%Z. rewrite Rabs_left by lra.
           rewrite Rabs_right by lra. lra.
      * intros k. destruct (Z.lt_trichotomy k 0) as [Hk | [-> | Hk]].
        -- assert (IZR k <= -1) by (apply IZR_le; lia).
           unfold Rabs. repeat destruct (Rcase_abs _); lra.
        -- replace (b1 - b2 + 360 * 0) with (b1 - b2) by lra. lra.
        -- assert (1 <= IZR k) by (apply IZR_le; lia).
           unfold Rabs. repeat destruct (Rcase_abs _); lra.
  - unfold Geo._bearing_diff, Py.min.
    replace (350 - 10) with 340 by lra.
    rewrite Rabs_right by lra. rewrite decide_True by lra. lra.
  - unfold Geo._bearing_diff, Py.min.
    replace (0 - 180) with (- 180) by lra.
    rewrite Rabs_left by lra. rewrite decide_False by lra. lra.
Qed.

Lemma bearing_diff_minimal_witness :
  (0 <= 350 < 360 /\ 0 <= 10 < 360)
  /\ 0 <= Geo._bearing_diff 350 10 <= 180.
Proof.
  assert (H1 : 0 <= 350 < 360) by lra.
  assert (H2 : 0 <= 10 < 360) by lra.
  split; [split; assumption |].
  exact (proj1 (proj1 (bearing_diff_minimal 350 10 H1 H2))).
Defined.

End BearingFacts.

(** ** Stable sorting *)

Section SortFacts.

Context {A : Type}.

Lemma insert_sorted_Permutation (leb : A -> A -> bool) (x : A) (l : list A) :
  insert_sorted leb x l ≡ₚ x :: l.
Proof.
  induction l as [| y l IH]; simpl; [reflexivity |].
  destruct (leb x y); [reflexivity |].
  rewrite IH. apply Permutation_swap.
Qed.

Lemma stable_sort_Permutation (leb : A -> A -> bool) (l : list A) :
  stable_sort leb l ≡ₚ l.
Proof.
  induction l as [| x l IH]; simpl; [reflexivity |].
  rewrite insert_sorted_Permutation. now rewrite IH.
Qed.

Variable key : A -> Z.

Lemma insert_sorted_key_sorted (x : A) (l : list A) :
  StronglySorted (fun a b => key a <= key b) l ->
  StronglySorted (fun a b => key a <= key b)
                 (insert_sorted (fun a b => key a <=? key b) x l).
Proof.
  induction 1 as [| y l Hl IH Hy]; simpl.
  - repeat constructor.
  - destruct (Z.leb_spec (key x) (key y)) as [Hxy | Hxy].
    + constructor; [constructor; assumption |].
      constructor; [exact Hxy |].
      eapply Forall_impl; [exact Hy |].
      intros z Hz. simpl in *. lia.
    + constructor; [exact IH |].
      rewrite insert_sorted_Permutation.
      constructor; [lia | exact Hy].
Qed.

Lemma sorted_StronglySorted (l : list A) :
  StronglySorted (fun a b => key a <= key b) (sorted key l).
Proof.
  unfold sorted. induction l as [| x l IH]; simpl.
  - constructor.
  - apply insert_sorted_key_sorted. exact IH.
Qed.

Lemma sorted_Permutation (l : list A) : sorted key l ≡ₚ l.
Proof. apply stable_sort_Permutation. Qed.



Lemma sorted_length (l : list A) : length (sorted key l) = length l.
Proof. apply Permutation_length, sorted_Permutation. Qed.

End SortFacts.

(** [sorted] commutes with an annotation that the key factors through. *)
Lemma sorted_map {A B : Type} (f : A -> B) (key : B -> Z) (l : list A) :
  sorted key (map f l) = map f (sorted (fun a => key (f a)) l).
Proof.
  unfold sorted. induction l as [| x l IH]; simpl; [reflexivity |].
  rewrite IH. generalize (stable_sort (fun a b => key (f a) <=? key (f b)) l).
  intros s. induction s as [| y s IHs]; simpl; [reflexivity |].
  destruct (key (f x) <=? key (f y)); simpl; [reflexivity |].
  now rewrite IHs.
Qed.

(** ** Proximity search *)

Section Proximity.

Local Open Scope R_scope.

(** [haversine] returns exactly when the value handed to [math.sqrt] is
    not negative and the one handed to [math.asin] is at most 1; what it
    returns is the value of the formula. *)
Lemma haversine_Some (lat1 lon1 lat2 lon2 d : R) :
  Geo.haversine lat1 lon1 lat2 lon2 = Some d
  <-> 0 <= a_de lat1 lon1 lat2 lon2
      /\ sqrt (a_de lat1 lon1 lat2 lon2) <= 1
      /\ d = 2 * 6371000 * asin (sqrt (a_de lat1 lon1 lat2 lon2)).
Proof.
  unfold Geo.haversine, Py.sqrt, Py.asin. cbv zeta.
  fold (a_de lat1 lon1 lat2 lon2).
  pose proof (sqrt_pos (a_de lat1 lon1 lat2 lon2)) as Hpos.
  destruct (decide (0 <= a_de lat1 lon1 lat2 lon2)) as [Ha | Ha].
  - destruct (decide (-1 <= sqrt (a_de lat1 lon1 lat2 lon2)
                      /\ sqrt (a_de lat1 lon1 lat2 lon2) <= 1)) as [Hs | Hs].
    + split.
      * intros [= <-]. tauto.
      * intros [_ [_ ->]]. reflexivity.
    + split; [discriminate |]. intros [_ [H1 _]]. exfalso. apply Hs.
      split; lra.
  - split; [discriminate |]. tauto.
Qed.


(** In exact arithmetic the value that [haversine] hands to [math.sqrt]
    lies between 0 and 1, so that both checks pass: the math domain error
    of the source comes from the rounding of binary64, which the reals do
    not have. *)
Lemma a_de_exact_range (lat1 lon1 lat2 lon2 : R) :
  0 <= a_de lat1 lon1 lat2 lon2 <= 1.
Proof.
  unfold a_de.
  set (x := Py.radians (lat2 - lat1) / 2).
  set (m := (Py.radians lat1 + Py.radians lat2) / 2).
  set (y := Py.radians (lon2 - lon1) / 2).
  replace (Py.radians lat1) with (m - x) by (unfold m, x, Py.radians; field).
  replace (Py.radians lat2) with (m + x) by (unfold m, x, Py.radians; field).
  rewrite cos_minus, cos_plus.
  pose proof (sin2_cos2 x) as Hx. pose proof (sin2_cos2 m) as Hm.
  pose proof (sin2_cos2 y) as Hy. unfold Rsqr in Hx, Hm, Hy.
  set (sx := sin x) in *. set (cx := cos x) in *.
  set (sm := sin m) in *. set (cm := cos m) in *.
  set (sy := sin y) in *. set (cy := cos y) in *.
  assert (Ht0 : 0 <= sy * sy) by nra.
  assert (Ht1 : sy * sy <= 1) by nra.
  assert (Hs0 : 0 <= sx * sx) by nra.
  assert (Hs1 : sx * sx <= 1) by nra.
  assert (Hc0 : 0 <= cm * cm) by nra.
  assert (Hc1 : cm * cm <= 1) by nra.
  assert (E : (cm * cx + sm * sx) * (cm * cx - sm * sx)
               = cm * cm - sx * sx).
  { transitivity (cm * cm * (cx * cx) - sm * sm * (sx * sx)); [ring |].
    replace (cx * cx) with (1 - sx * sx) by lra.
    replace (sm * sm) with (1 - cm * cm) by lra. ring. }
  rewrite E.
  replace (sx ^ 2 + (cm * cm - sx * sx) * sy ^ 2)
    with (sx * sx * (1 - sy * sy) + cm * cm * (sy * sy)) by ring.
  split; nra.
Qed.

Variables (lat lon : R) (radio : Z) (bearing : option R).


Lemma medible_distancia (p : parada) :
  medible lat lon p ->
  Geo.haversine lat lon (p_latitud p) (p_longitud p)
  = Some (distancia_a lat lon p).
Proof.
  intros [d Hd]. rewrite Hd. apply haversine_Some in Hd as [_ [_ ->]].
  reflexivity.
Qed.

Lemma cercanas_de_filter (l : list parada) :
  Forall (medible lat lon) l ->
  cercanas_de lat lon radio bearing l
  = Some (map (anotada lat lon bearing)
              (filter (fun p => distancia_a lat lon p <= IZR radio) l)).
Proof.
  induction 1 as [| p l Hp _ IH]; [reflexivity |].
  cbn [cercanas_de]. rewrite (medible_distancia p Hp), IH.
  rewrite filter_cons. case_decide; [| reflexivity].
  cbn [map]. unfold anotada, diferencia_a. destruct bearing; reflexivity.
Qed.

Lemma cercanas_de_None (l : list parada) :
  ~ Forall (medible lat lon) l ->
  cercanas_de lat lon radio bearing l = None.
Proof.
  induction l as [| p l IH]; intros Hno; [destruct Hno; constructor |].
  cbn [cercanas_de].
  destruct (Geo.haversine lat lon (p_latitud p) (p_longitud p)) as [d |] eqn:Hd;
    [| reflexivity].
  rewrite IH; [now case_decide |].
  intros Hl. apply Hno. constructor; [| exact Hl]. unfold medible. eauto.
Qed.

Lemma get_all_paradas_from_db_run (w : world) :
  get_all_paradas_from_db w
  = (Ok (stable_sort (fun a b => String.leb (p_codigo a) (p_codigo b))
                     (paradas (db_file w))),
     set_conn None w).
Proof. reflexivity. Qed.

Lemma get_paradas_cercanas_run (tol : R) (w : world) :
  Forall (medible lat lon) (paradas (db_file w)) ->
  get_paradas_cercanas lat lon radio bearing tol w
  = (Ok (map (anotada lat lon bearing)
           (sorted (clave_de lat lon bearing)
              (filter (fun p => distancia_a lat lon p <= IZR radio)
                 (stable_sort
                    (fun a b => String.leb (p_codigo a) (p_codigo b))
                    (paradas (db_file w)))))),
     set_conn None w).
Proof.
  intros Hall. unfold get_paradas_cercanas, mbind, M_bind.
  rewrite get_all_paradas_from_db_run, cercanas_de_filter
    by now rewrite stable_sort_Permutation.
  unfold clave_de, anotada.
  destruct bearing as [b |]; unfold mret, M_ret; rewrite sorted_map;
    reflexivity.
Qed.

Lemma get_paradas_cercanas_fails (tol : R) (w : world) :
  ~ Forall (medible lat lon) (paradas (db_file w)) ->
  get_paradas_cercanas lat lon radio bearing tol w
  = (Raise (ValueError "math domain error"), set_conn None w).
Proof.
  intros Hno. unfold get_paradas_cercanas, mbind, M_bind.
  rewrite get_all_paradas_from_db_run, cercanas_de_None;
    [reflexivity |].
  now rewrite stable_sort_Permutation.
Qed.

End Proximity.


(** Without a bearing the answer is ascending in the haversine distance up
    to the rounding: a stop is never more than one metre farther than a
    stop listed after it. *)
Lemma clave_sorted_within_one (lat lon : R) (stops : list parada) :
  StronglySorted
    (fun p q => clave_de lat lon None p <= clave_de lat lon None q) stops ->
  StronglySorted
    (fun p q => (distancia_a lat lon p <= distancia_a lat lon q + 1)%R) stops.
Proof.
  induction 1 as [| p stops Hs IH Hp]; constructor; [exact IH |].
  eapply Forall_impl; [exact Hp |].
  intros q Hq. cbn in Hq. apply IZR_le in Hq.
  pose proof (round_error (distancia_a lat lon p)).
  pose proof (round_error (distancia_a lat lon q)). lra.
Qed.

(** C10. The outcome of the search is the same for any two tolerances: the
    argument is not read. The search returns when the distance of every
    stored stop can be computed. The endpoint applies its tolerance
    afterwards: when the search returns, it keeps the stops of that answer whose
    [bearing_diff] is at most the tolerance, before it cuts the list to
    [max_paradas]; when the search raises, so does the endpoint. *)
Theorem get_paradas_cercanas_ignores_tolerance
    (lat lon : R) (radio : Z) (bearing : option R) (tol1 tol2 : R)
    (max_paradas : Z) (w : world) :
  get_paradas_cercanas lat lon radio bearing tol1 w
  = get_paradas_cercanas lat lon radio bearing tol2 w
  /\ (Forall (medible lat lon) (paradas (db_file w)) ->
      exists res : list parada_cercana,
        get_paradas_cercanas lat lon radio bearing tol2 w
        = (Ok res, set_conn None w))
  /\ (forall (res : list parada_cercana) (w' : world),
        get_paradas_cercanas lat lon radio bearing tol2 w = (Ok res, w') ->
        w' = set_conn None w
        /\ get_paradas_cercanas_con_tiempos_paradas
             lat lon radio max_paradas bearing tol1 w
           = (Ok (take (Z.to_nat max_paradas)
                    (match bearing with
                     | Some _ =>
                         filter (fun p =>
                                   (IZR (default 999%Z (pc_bearing_diff p))
                                    <= tol1)%R) res
                     | None => res
                     end)),
              set_conn None w))
  /\ (forall (e : exn) (w' : world),
        get_paradas_cercanas lat lon radio bearing tol2 w = (Raise e, w') ->
        get_paradas_cercanas_con_tiempos_paradas
          lat lon radio max_paradas bearing tol1 w
        = (Raise e, w')).
Proof.
  split; [reflexivity |]. split; [| split].
  - intros Hall. eexists. now apply get_paradas_cercanas_run.
  - intros res w' Hres.
    assert (Hw : w' = set_conn None w).
    { destruct (decide (Forall (medible lat lon) (paradas (db_file w))))
        as [Hall | Hno].
      - rewrite (get_paradas_cercanas_run lat lon radio bearing tol2 w Hall)
          in Hres. congruence.
      - rewrite (get_paradas_cercanas_fails lat lon radio bearing tol2 w Hno)
          in Hres. discriminate. }
    split; [exact Hw |]. subst w'.
    unfold get_paradas_cercanas_con_tiempos_paradas, mbind, M_bind.
    change (get_paradas_cercanas lat lon radio bearing tol1 w)
      with (get_paradas_cercanas lat lon radio bearing tol2 w).
    rewrite Hres. reflexivity.
  - intros e w' Hres.
    unfold get_paradas_cercanas_con_tiempos_paradas, mbind, M_bind.
    change (get_paradas_cercanas lat lon radio bearing tol1 w)
      with (get_paradas_cercanas lat lon radio bearing tol2 w).
    rewrite Hres. reflexivity.
Qed.

(** *** Two stops within the same metre *)

Section Meridian.

Local Open Scope R_scope.











End Meridian.

(** ** The relational store *)

Section SqlFacts.

Context {row key : Type} `{EqDecision key} (pk : row -> key).

Lemma filter_pk_delete_eq (k : key) (t : list row) :
  filter (fun r => pk r = k) (delete_by_pk pk k t) = [].
Proof.
  unfold delete_by_pk. induction t as [| x t IH]; [reflexivity |].
  rewrite (filter_cons (fun r => pk r <> k)).
  case_decide; [| exact IH].
  rewrite filter_cons_False by assumption. exact IH.
Qed.

Lemma filter_pk_delete_ne (k k' : key) (t : list row) :
  k <> k' ->
  filter (fun r => pk r = k) (delete_by_pk pk k' t)
  = filter (fun r => pk r = k) t.
Proof.
  intros Hne. unfold delete_by_pk. induction t as [| x t IH]; [reflexivity |].
  rewrite (filter_cons (fun r => pk r <> k')), (filter_cons (fun r => pk r = k)).
  repeat case_decide; rewrite ?filter_cons_True, ?filter_cons_False by assumption;
    try (now rewrite IH); congruence.
Qed.

Lemma select_insert_or_replace_eq (r : row) (t : list row) :
  select_by_pk pk (pk r) (insert_or_replace pk r t) = Some r.
Proof.
  unfold select_by_pk, insert_or_replace.
  rewrite filter_app, filter_pk_delete_eq. simpl.
  now rewrite filter_cons_True, filter_nil by reflexivity.
Qed.

Lemma select_insert_or_replace_ne (k : key) (r : row) (t : list row) :
  k <> pk r ->
  select_by_pk pk k (insert_or_replace pk r t) = select_by_pk pk k t.
Proof.
  intros Hne. unfold select_by_pk, insert_or_replace.
  rewrite filter_app, filter_pk_delete_ne by assumption.
  rewrite filter_cons_False, filter_nil by congruence.
  now rewrite app_nil_r.
Qed.

Lemma select_by_pk_Some (k : key) (t : list row) (r : row) :
  select_by_pk pk k t = Some r -> r ∈ t /\ pk r = k.
Proof.
  unfold select_by_pk. intros Hh.
  apply head_Some_elem_of in Hh. now apply list_elem_of_filter in Hh as [? ?].
Qed.

Lemma select_by_pk_None (k : key) (t : list row) :
  select_by_pk pk k t = None <-> forall r, r ∈ t -> pk r <> k.
Proof.
  unfold select_by_pk. rewrite head_None. split.
  - intros Hnil r Hr Hk.
    assert (Hin : r ∈ filter (fun r => pk r = k) t)
      by (apply list_elem_of_filter; auto).
    rewrite Hnil in Hin. inversion Hin.
  - intros Hall. induction t as [| x t IH]; [reflexivity |].
    rewrite filter_cons_False by (apply Hall; left).
    apply IH. intros r Hr. apply Hall. now right.
Qed.

End SqlFacts.

(** ** The two caches *)

(** Unfolds the plumbing of a run: binds, the connection, the clock. *)
Ltac run_step :=
  unfold with_connection, try_except, mbind, M_bind, mret, M_ret, db_query,
    db_execute, db_commit, db_rollback, datetime_now, json_loads, json_dumps,
    log, raise, conn_view, set_conn;
  cbn [db_file db_conn clock logs upstream requested slept fst snd].

Section CacheFacts.

Lemma save_tiempos_cache_run (code : string) (v : tiempos_parada) (w : world) :
  save_tiempos_cache code v w
  = (Ok tt,
     mkWorld
       (with_tiempos_cache
          (insert_or_replace tc_parada_codigo
             (mkTiemposCacheRow code (Encoded v) (clock w)))
          (db_file w))
       None (clock w) (logs w) (upstream w) (requested w) (slept w)).
Proof. reflexivity. Qed.

Lemma save_direccion_cache_run (lat lon : R) (d : direccion) (w : world) :
  save_direccion_cache lat lon d w
  = (Ok tt,
     mkWorld
       (with_direcciones_cache
          (insert_or_replace dc_key
             (mkDireccionesCacheRow (Py.round_ndigits lat 4)
                (Py.round_ndigits lon 4) (Encoded d) (clock w)))
          (db_file w))
       None (clock w) (logs w) (upstream w) (requested w) (slept w)).
Proof. reflexivity. Qed.

(** A read of the arrival cache, case by case. *)
Lemma get_cached_tiempos_absent (code : string) (w : world) :
  select_by_pk tc_parada_codigo code (tiempos_cache (db_file w)) = None ->
  get_cached_tiempos code w = (Ok None, set_conn None w).
Proof.
  intros Hsel. unfold get_cached_tiempos. run_step. now rewrite Hsel.
Qed.

Lemma get_cached_tiempos_expired (code : string) (w : world)
    (row : tiempos_cache_row) :
  select_by_pk tc_parada_codigo code (tiempos_cache (db_file w)) = Some row ->
  timedelta_minutes CACHE_TTL_MINUTES <= clock w - tc_cached_at row ->
  get_cached_tiempos code w = (Ok None, set_conn None w).
Proof.
  intros Hsel Hage. unfold get_cached_tiempos. run_step. rewrite Hsel.
  run_step. now rewrite decide_False by lia.
Qed.

Lemma get_cached_tiempos_fresh (code : string) (w : world)
    (row : tiempos_cache_row) (v : tiempos_parada) :
  select_by_pk tc_parada_codigo code (tiempos_cache (db_file w)) = Some row ->
  clock w - tc_cached_at row < timedelta_minutes CACHE_TTL_MINUTES ->
  tc_tiempos_json row = Encoded v ->
  get_cached_tiempos code w = (Ok (Some v), set_conn None w).
Proof.
  intros Hsel Hage Hjson. unfold get_cached_tiempos. run_step. rewrite Hsel.
  run_step. rewrite decide_True by lia. now rewrite Hjson.
Qed.

Lemma get_cached_tiempos_hit (code : string) (w : world)
    (v : tiempos_parada) :
  fst (get_cached_tiempos code w) = Ok (Some v) ->
  (exists row,
     select_by_pk tc_parada_codigo code (tiempos_cache (db_file w)) = Some row
     /\ tc_tiempos_json row = Encoded v
     /\ clock w - tc_cached_at row < timedelta_minutes CACHE_TTL_MINUTES)
  /\ get_cached_tiempos code w = (Ok (Some v), set_conn None w).
Proof.
  destruct (select_by_pk tc_parada_codigo code (tiempos_cache (db_file w)))
    as [row |] eqn:Hsel.
  - destruct (Z_lt_le_dec (clock w - tc_cached_at row)
                          (timedelta_minutes CACHE_TTL_MINUTES))
      as [Hage | Hage].
    + destruct (tc_tiempos_json row) as [v' | raw] eqn:Hjson.
      * rewrite (get_cached_tiempos_fresh code w row v' Hsel Hage Hjson).
        cbn [fst]. intros [= ->]. split; [| reflexivity].
        exists row. auto.
      * unfold get_cached_tiempos. run_step. rewrite Hsel. run_step.
        rewrite decide_True by lia. rewrite Hjson. discriminate.
    + rewrite (get_cached_tiempos_expired code w row Hsel Hage).
      discriminate.
  - rewrite (get_cached_tiempos_absent code w Hsel). discriminate.
Qed.

Lemma get_cached_tiempos_never_raises (codigo : string) (w : world) :
  exists o, fst (get_cached_tiempos codigo w) = Ok o.
Proof.
  unfold get_cached_tiempos. run_step.
  destruct (select_by_pk tc_parada_codigo codigo _) as [row |]; [| eauto].
  run_step. case_decide; [| eauto].
  destruct (tc_tiempos_json row); eauto.
Qed.

(** A read of the address cache, case by case. *)
Lemma get_cached_direccion_absent (lat lon : R) (w : world) :
  select_by_pk dc_key (Py.round_ndigits lat 4, Py.round_ndigits lon 4)
               (direcciones_cache (db_file w)) = None ->
  get_cached_direccion lat lon w = (Ok None, set_conn None w).
Proof.
  intros Hsel. unfold get_cached_direccion. run_step. now rewrite Hsel.
Qed.

Lemma get_cached_direccion_expired (lat lon : R) (w : world)
    (row : direcciones_cache_row) :
  select_by_pk dc_key (Py.round_ndigits lat 4, Py.round_ndigits lon 4)
               (direcciones_cache (db_file w)) = Some row ->
  timedelta_days CACHE_DIRECCIONES_TTL_DIAS <= clock w - dc_cached_at row ->
  get_cached_direccion lat lon w = (Ok None, set_conn None w).
Proof.
  intros Hsel Hage. unfold get_cached_direccion. run_step. rewrite Hsel.
  run_step. now rewrite decide_False by lia.
Qed.

Lemma get_cached_direccion_fresh (lat lon : R) (w : world)
    (row : direcciones_cache_row) (v : direccion) :
  select_by_pk dc_key (Py.round_ndigits lat 4, Py.round_ndigits lon 4)
               (direcciones_cache (db_file w)) = Some row ->
  clock w - dc_cached_at row < timedelta_days CACHE_DIRECCIONES_TTL_DIAS ->
  dc_direccion_json row = Encoded v ->
  get_cached_direccion lat lon w = (Ok (Some v), set_conn None w).
Proof.
  intros Hsel Hage Hjson. unfold get_cached_direccion. run_step. rewrite Hsel.
  run_step. rewrite decide_True by lia. now rewrite Hjson.
Qed.

End CacheFacts.

(** C6. The time to live is applied when the cache is read. An arrival
    entry older than one minute is a miss, and the read leaves the row in
    the table; an arrival entry stored 30 seconds ago is returned as it
    was stored. An address entry stored 29 days ago is returned; one
    stored 31 days ago is a miss, and the read leaves the row in the
    table. *)
Theorem cache_reads_apply_ttl
    (w : world) (code : string) (v : tiempos_parada)
    (lat lon : R) (d : direccion) (age : Z) :
  timedelta_minutes 1 < age ->
  let wt := snd (save_tiempos_cache code v w) in
  let wd := snd (save_direccion_cache lat lon d w) in
  let old_t := get_cached_tiempos code (pasa age wt) in
  let old_d := get_cached_direccion lat lon (pasa (timedelta_days 31) wd) in
  (fst old_t = Ok None
   /\ select_by_pk tc_parada_codigo code (tiempos_cache (db_file (snd old_t)))
      = Some (mkTiemposCacheRow code (Encoded v) (clock w))
   /\ db_file (snd old_t) = db_file wt)
  /\ fst (get_cached_tiempos code (pasa (30 * 1000000) wt)) = Ok (Some v)
  /\ fst (get_cached_direccion lat lon (pasa (timedelta_days 29) wd))
     = Ok (Some d)
  /\ (fst old_d = Ok None
      /\ select_by_pk dc_key
           (Py.round_ndigits lat 4, Py.round_ndigits lon 4)
           (direcciones_cache (db_file (snd old_d)))
         = Some (mkDireccionesCacheRow (Py.round_ndigits lat 4)
                   (Py.round_ndigits lon 4) (Encoded d) (clock w))
      /\ db_file (snd old_d) = db_file wd).
Proof.
  intros Hage wt wd old_t old_d.
  pose (rt := mkTiemposCacheRow code (Encoded v) (clock w)).
  pose (rd := mkDireccionesCacheRow (Py.round_ndigits lat 4)
                (Py.round_ndigits lon 4) (Encoded d) (clock w)).
  assert (Hst : forall t, select_by_pk tc_parada_codigo code
                  (tiempos_cache (db_file (pasa t wt))) = Some rt).
  { intros t. subst wt. rewrite save_tiempos_cache_run. cbn.
    apply (select_insert_or_replace_eq tc_parada_codigo rt). }
  assert (Hsd : forall t, select_by_pk dc_key
                  (Py.round_ndigits lat 4, Py.round_ndigits lon 4)
                  (direcciones_cache (db_file (pasa t wd))) = Some rd).
  { intros t. subst wd. rewrite save_direccion_cache_run. cbn.
    apply (select_insert_or_replace_eq dc_key rd). }
  assert (Hct : forall t, clock (pasa t wt) - tc_cached_at rt = t).
  { intros t. subst wt. rewrite save_tiempos_cache_run. cbn. lia. }
  assert (Hcd : forall t, clock (pasa t wd) - dc_cached_at rd = t).
  { intros t. subst wd. rewrite save_direccion_cache_run. cbn. lia. }
  repeat split.
  - subst old_t.
    rewrite (get_cached_tiempos_expired code _ rt (Hst age)); [reflexivity |].
    rewrite Hct. unfold timedelta_minutes, CACHE_TTL_MINUTES in *. lia.
  - subst old_t.
    rewrite (get_cached_tiempos_expired code _ rt (Hst age)); [apply (Hst age) |].
    rewrite Hct. unfold timedelta_minutes, CACHE_TTL_MINUTES in *. lia.
  - subst old_t.
    rewrite (get_cached_tiempos_expired code _ rt (Hst age)); [reflexivity |].
    rewrite Hct. unfold timedelta_minutes, CACHE_TTL_MINUTES in *. lia.
  - rewrite (get_cached_tiempos_fresh code _ rt v (Hst _)); [reflexivity | | reflexivity].
    rewrite Hct. unfold timedelta_minutes, CACHE_TTL_MINUTES. lia.
  - rewrite (get_cached_direccion_fresh lat lon _ rd d (Hsd _));
      [reflexivity | | reflexivity].
    rewrite Hcd. unfold timedelta_days, CACHE_DIRECCIONES_TTL_DIAS. lia.
  - subst old_d.
    rewrite (get_cached_direccion_expired lat lon _ rd (Hsd _)); [reflexivity |].
    rewrite Hcd. unfold timedelta_days, CACHE_DIRECCIONES_TTL_DIAS. lia.
  - subst old_d.
    rewrite (get_cached_direccion_expired lat lon _ rd (Hsd _)); [apply (Hsd _) |].
    rewrite Hcd. unfold timedelta_days, CACHE_DIRECCIONES_TTL_DIAS. lia.
  - subst old_d.
    rewrite (get_cached_direccion_expired lat lon _ rd (Hsd _)); [reflexivity |].
    rewrite Hcd. unfold timedelta_days, CACHE_DIRECCIONES_TTL_DIAS. lia.
Qed.

Lemma cache_reads_apply_ttl_witness :
  timedelta_minutes 1 < timedelta_minutes 5
  /\ fst (get_cached_tiempos "43"
            (pasa (timedelta_minutes 5)
                  (snd (save_tiempos_cache "43" tiempos_ejemplo mundo_vacio))))
     = Ok None.
Proof.
  assert (H : timedelta_minutes 1 < timedelta_minutes 5) by reflexivity.
  split; [exact H |].
  exact (proj1 (proj1 (cache_reads_apply_ttl mundo_vacio "43" tiempos_ejemplo
                         0 0 direccion_ejemplo _ H))).
Defined.

(** *** The key of the address cache *)

Section AddressKey.

Local Open Scope R_scope.

Lemma round4_37_38961 : Py.round_ndigits 37.38961 4 = 37.3896.
Proof. rewrite (round_ndigits_4 _ 373896) by lra. lra. Qed.

Lemma round4_37_38959 : Py.round_ndigits 37.38959 4 = 37.3896.
Proof. rewrite (round_ndigits_4 _ 373896) by lra. lra. Qed.

Lemma round4_5_98427 : Py.round_ndigits (-5.98427) 4 = -5.9843.
Proof. rewrite (round_ndigits_4 _ (-59843)) by lra. lra. Qed.

Lemma round4_5_98424 : Py.round_ndigits (-5.98424) 4 = -5.9842.
Proof. rewrite (round_ndigits_4 _ (-59842)) by lra. lra. Qed.

Lemma round4_5_98426 : Py.round_ndigits (-5.98426) 4 = -5.9843.
Proof. rewrite (round_ndigits_4 _ (-59843)) by lra. lra. Qed.

(** A read that looks under another key than the one just written sees
    what it saw before the write. *)
Lemma get_cached_direccion_other_key
    (w : world) (lat lon lat' lon' : R) (d : direccion) :
  (Py.round_ndigits lat' 4, Py.round_ndigits lon' 4)
  <> (Py.round_ndigits lat 4, Py.round_ndigits lon 4) ->
  fst (get_cached_direccion lat' lon' (snd (save_direccion_cache lat lon d w)))
  = fst (get_cached_direccion lat' lon' w).
Proof.
  intros Hne. rewrite save_direccion_cache_run.
  unfold get_cached_direccion. run_step.
  cbn [with_direcciones_cache direcciones_cache].
  rewrite (select_insert_or_replace_ne dc_key) by exact Hne.
  destruct (select_by_pk dc_key _ (direcciones_cache (db_file w)))
    as [row |]; [| reflexivity].
  run_step. case_decide; [| reflexivity].
  destruct (dc_direccion_json row); reflexivity.
Qed.

(** C8, as amended. An address entry is written under the coordinates
    rounded to 4 decimals and a read looks under the coordinates rounded
    the same way: a read finds the entry just written exactly when the
    rounded pairs agree. The pairs (37.38961, -5.98427) and
    (37.38959, -5.98424) round to (37.3896, -5.9843) and
    (37.3896, -5.9842), two keys; (37.38959, -5.98426) rounds to the first
    of them. *)
Theorem direccion_cache_keyed_by_rounded_coordinates
    (w : world) (lat lon lat' lon' : R) (d : direccion) :
  let w1 := snd (save_direccion_cache lat lon d w) in
  let key := (Py.round_ndigits lat 4, Py.round_ndigits lon 4) in
  let key' := (Py.round_ndigits lat' 4, Py.round_ndigits lon' 4) in
  select_by_pk dc_key key (direcciones_cache (db_file w1))
  = Some (mkDireccionesCacheRow (Py.round_ndigits lat 4)
            (Py.round_ndigits lon 4) (Encoded d) (clock w))
  /\ (key' = key -> get_cached_direccion lat' lon' w1 = (Ok (Some d), w1))
  /\ (key' <> key ->
      fst (get_cached_direccion lat' lon' w1)
      = fst (get_cached_direccion lat' lon' w))
  /\ (Py.round_ndigits 37.38961 4, Py.round_ndigits (-5.98427) 4)
     = (37.3896, -5.9843)
  /\ (Py.round_ndigits 37.38959 4, Py.round_ndigits (-5.98424) 4)
     = (37.3896, -5.9842)
  /\ (Py.round_ndigits 37.38959 4, Py.round_ndigits (-5.98426) 4)
     = (37.3896, -5.9843)
  /\ -5.9843 <> -5.9842.
Proof.
  intros w1 key key'.
  assert (Hsel : select_by_pk dc_key key (direcciones_cache (db_file w1))
                 = Some (mkDireccionesCacheRow (Py.round_ndigits lat 4)
                           (Py.round_ndigits lon 4) (Encoded d) (clock w))).
  { subst w1 key. rewrite save_direccion_cache_run. cbn.
    apply (select_insert_or_replace_eq dc_key
             (mkDireccionesCacheRow _ _ _ _)). }
  split; [exact Hsel |]. split; [| split].
  - intros Hk. subst key'.
    rewrite (get_cached_direccion_fresh lat' lon' w1
               (mkDireccionesCacheRow (Py.round_ndigits lat 4)
                  (Py.round_ndigits lon 4) (Encoded d) (clock w)) d).
    + subst w1. rewrite save_direccion_cache_run. reflexivity.
    + rewrite Hk. exact Hsel.
    + subst w1. rewrite save_direccion_cache_run. cbn.
      unfold timedelta_days, CACHE_DIRECCIONES_TTL_DIAS. lia.
    + reflexivity.
  - intros Hne. apply get_cached_direccion_other_key. exact Hne.
  - rewrite round4_37_38961, round4_37_38959, round4_5_98427, round4_5_98424,
      round4_5_98426.
    repeat split. lra.
Qed.

Lemma direccion_cache_keyed_by_rounded_coordinates_witness :
  (Py.round_ndigits 37.38959 4, Py.round_ndigits (-5.98426) 4)
  = (Py.round_ndigits 37.38961 4, Py.round_ndigits (-5.98427) 4)
  /\ fst (get_cached_direccion 37.38959 (-5.98426)
            (snd (save_direccion_cache 37.38961 (-5.98427) direccion_ejemplo
                    mundo_vacio)))
     = Ok (Some direccion_ejemplo).
Proof.
  assert (H : (Py.round_ndigits 37.38959 4, Py.round_ndigits (-5.98426) 4)
              = (Py.round_ndigits 37.38961 4, Py.round_ndigits (-5.98427) 4)).
  { now rewrite round4_37_38961, round4_37_38959, round4_5_98427,
      round4_5_98426. }
  split; [exact H |].
  rewrite (proj1 (proj2 (direccion_cache_keyed_by_rounded_coordinates
                           mundo_vacio 37.38961 (-5.98427) 37.38959 (-5.98426)
                           direccion_ejemplo)) H).
  reflexivity.
Defined.

(** C8 as stated fails. The longitudes -5.98427 and -5.98424 round to
    -5.9843 and -5.9842, so the two pairs of the specification are two
    keys: an address written for the first pair is not found by a read at
    the second. *)
Lemma direccion_cache_pairs_have_two_keys :
  (Py.round_ndigits 37.38961 4, Py.round_ndigits (-5.98427) 4)
  <> (Py.round_ndigits 37.38959 4, Py.round_ndigits (-5.98424) 4)
  /\ fst (get_cached_direccion 37.38959 (-5.98424)
            (snd (save_direccion_cache 37.38961 (-5.98427) direccion_ejemplo
                    mundo_vacio)))
     = Ok None.
Proof.
  assert (Hne : (Py.round_ndigits 37.38959 4, Py.round_ndigits (-5.98424) 4)
                <> (Py.round_ndigits 37.38961 4,
                    Py.round_ndigits (-5.98427) 4)).
  { rewrite round4_37_38961, round4_37_38959, round4_5_98427, round4_5_98424.
    intros E. injection E as E. lra. }
  split; [congruence |].
  rewrite get_cached_direccion_other_key by exact Hne.
  now rewrite get_cached_direccion_absent.
Qed.

End AddressKey.

(** ** Replacing the memberships *)

Section InsertOrIgnore.

Context {row key : Type} `{EqDecision key} (pk : row -> key).

Lemma insert_or_ignore_elem_of (r x : row) (t : list row) :
  x ∈ insert_or_ignore pk r t -> x ∈ t \/ x = r.
Proof.
  unfold insert_or_ignore. destruct (select_by_pk pk (pk r) t); [auto |].
  rewrite elem_of_app, list_elem_of_singleton. auto.
Qed.

Lemma insert_or_ignore_keeps (r x : row) (t : list row) :
  x ∈ t -> x ∈ insert_or_ignore pk r t.
Proof.
  unfold insert_or_ignore. destruct (select_by_pk pk (pk r) t); [auto |].
  rewrite elem_of_app. auto.
Qed.

Lemma insert_or_ignore_has_key (r : row) (t : list row) :
  exists r', r' ∈ insert_or_ignore pk r t /\ pk r' = pk r.
Proof.
  unfold insert_or_ignore.
  destruct (select_by_pk pk (pk r) t) as [r' |] eqn:Hsel.
  - apply select_by_pk_Some in Hsel as [? ?]. eauto.
  - exists r. rewrite elem_of_app, list_elem_of_singleton. auto.
Qed.

Lemma insert_or_ignore_NoDup (r : row) (t : list row) :
  NoDup (map pk t) -> NoDup (map pk (insert_or_ignore pk r t)).
Proof.
  intros Hnd. unfold insert_or_ignore.
  destruct (select_by_pk pk (pk r) t) as [r' |] eqn:Hsel; [exact Hnd |].
  rewrite map_app. apply NoDup_app. split; [exact Hnd |]. split.
  - intros k Hk Hk'. simpl in Hk'. apply list_elem_of_singleton in Hk'.
    subst k. apply list_elem_of_fmap in Hk as [x [Hx Hin]].
    rewrite select_by_pk_None in Hsel. apply (Hsel x Hin). now symmetry.
  - simpl. apply NoDup_singleton.
Qed.

End InsertOrIgnore.

Section Memberships.

Lemma insertar_filas_elem_of (filas t : list parada_linea) (x : parada_linea) :
  x ∈ insertar_filas filas t -> x ∈ t \/ x ∈ filas.
Proof.
  revert t. induction filas as [| f filas IH]; intros t; simpl; [auto |].
  intros Hx. apply IH in Hx as [Hx | Hx].
  - apply insert_or_ignore_elem_of in Hx as [Hx | ->]; [auto |].
    right. left.
  - right. now right.
Qed.

Lemma insertar_filas_keeps (filas t : list parada_linea) (x : parada_linea) :
  x ∈ t -> x ∈ insertar_filas filas t.
Proof.
  revert t. induction filas as [| f filas IH]; intros t Hx; simpl; [exact Hx |].
  apply IH. now apply insert_or_ignore_keeps.
Qed.

Lemma insertar_filas_has_key (filas t : list parada_linea) (x : parada_linea) :
  x ∈ filas ->
  exists x', x' ∈ insertar_filas filas t /\ pl_key x' = pl_key x.
Proof.
  revert t. induction filas as [| f filas IH]; intros t Hx.
  - inversion Hx.
  - simpl. apply elem_of_cons in Hx as [-> | Hx]; [| now apply IH].
    destruct (insert_or_ignore_has_key pl_key f t) as [x' [Hin Hk]].
    exists x'. split; [| exact Hk]. now apply insertar_filas_keeps.
Qed.

Lemma insertar_filas_NoDup (filas t : list parada_linea) :
  NoDup (map pl_key t) -> NoDup (map pl_key (insertar_filas filas t)).
Proof.
  revert t. induction filas as [| f filas IH]; intros t Hnd; simpl;
    [exact Hnd |].
  apply IH. now apply insert_or_ignore_NoDup.
Qed.

Lemma insertar_relacion_run (r : relacion_dict) (w : world) :
  match fila_de r with
  | Some fila =>
      insertar_relacion r w
      = (Ok tt,
         set_conn
           (Some (with_paradas_lineas (insert_or_ignore pl_key fila)
                    (conn_view w))) w)
  | None => exists k, insertar_relacion r w = (Raise (KeyError k), w)
  end.
Proof.
  unfold fila_de, insertar_relacion.
  destruct r as [[pc |] [ln |] [s |] [o |]]; simpl; eauto.
Qed.

Lemma for_each_cons_run {A : Type} (x : A) (xs : list A) (body : A -> M unit)
    (w : world) :
  for_each (x :: xs) body w
  = match body x w with
    | (Ok _, w') => for_each xs body w'
    | (Raise e, w') => (Raise e, w')
    end.
Proof. reflexivity. Qed.

(** The loop: every dict complete, or a [KeyError] at the first that is
    not, with nothing committed. *)
Lemma for_each_insertar_run (relaciones : list relacion_dict) (w : world)
    (d : database) :
  db_conn w = Some d ->
  match mapM fila_de relaciones with
  | Some filas =>
      for_each relaciones insertar_relacion w
      = (Ok tt,
         set_conn (Some (with_paradas_lineas (insertar_filas filas) d)) w)
  | None =>
      exists k w',
        for_each relaciones insertar_relacion w = (Raise (KeyError k), w')
        /\ db_file w' = db_file w /\ logs w' = logs w
        /\ clock w' = clock w /\ upstream w' = upstream w
        /\ requested w' = requested w /\ slept w' = slept w
  end.
Proof.
  revert w d. induction relaciones as [| r rel IH]; intros w d Hd.
  - simpl. destruct w, d; simpl in *. now subst.
  - cbn [mapM]. rewrite !for_each_cons_run.
    pose proof (insertar_relacion_run r w) as Hr.
    destruct (fila_de r) as [fila |]; simpl.
    + rewrite Hr. unfold conn_view. rewrite Hd.
      specialize (IH (set_conn
                        (Some (with_paradas_lineas
                                 (insert_or_ignore pl_key fila) d)) w)
                     _ eq_refl).
      destruct (mapM fila_de rel) as [filas |]; simpl.
      * etrans; [apply IH | reflexivity].
      * destruct IH as [k [w' [IH Hw']]]. exists k, w'.
        split; [etrans; [apply IH | reflexivity] | exact Hw'].
    + destruct Hr as [k Hr]. exists k, w. rewrite Hr. repeat split.
Qed.

End Memberships.

(** C3. With an empty list the call returns at once: a warning is logged
    and the store, its membership table included, is what it was. *)
Theorem save_paradas_lineas_batch_empty_is_noop (w : world) :
  let r := save_paradas_lineas_batch [] w in
  fst r = Ok tt
  /\ db_file (snd r) = db_file w
  /\ paradas_lineas (db_file (snd r)) = paradas_lineas (db_file w)
  /\ db_conn (snd r) = db_conn w
  /\ logs (snd r)
     = logs w
       ++ [(WARNING,
            "save_paradas_lineas_batch llamado con lista vacía, no se borra nada")].
Proof. repeat split. Qed.

(** C2. With a non-empty list the call is all or nothing. When every dict
    has its four keys, the membership table afterwards holds rows of the
    input only (no earlier row survives, whatever its stop), one row for
    each key of the input, the first given; the other tables are
    unchanged. When a dict lacks a key, the [KeyError] is raised to the
    caller and the store is what it was before the call: the deletion is
    rolled back. *)
Theorem save_paradas_lineas_batch_all_or_nothing
    (relaciones : list relacion_dict) (w : world) :
  relaciones <> [] ->
  let r := save_paradas_lineas_batch relaciones w in
  let t' := paradas_lineas (db_file (snd r)) in
  match mapM fila_de relaciones with
  | Some filas =>
      fst r = Ok tt
      /\ t' = insertar_filas filas []
      /\ (forall x, x ∈ t' -> x ∈ filas)
      /\ (forall x, x ∈ filas -> exists x', x' ∈ t' /\ pl_key x' = pl_key x)
      /\ NoDup (map pl_key t')
      /\ (forall x, x ∈ paradas_lineas (db_file w) -> x ∉ filas -> x ∉ t')
      /\ paradas (db_file (snd r)) = paradas (db_file w)
      /\ tiempos_cache (db_file (snd r)) = tiempos_cache (db_file w)
      /\ direcciones_cache (db_file (snd r)) = direcciones_cache (db_file w)
  | None =>
      (exists k, fst r = Raise (KeyError k))
      /\ db_file (snd r) = db_file w
      /\ paradas_lineas (db_file (snd r)) = paradas_lineas (db_file w)
  end.
Proof.
  intros Hne r t'.
  destruct relaciones as [| r0 rel]; [congruence |].
  set (rels := r0 :: rel) in *.
  set (w1 := set_conn (Some (with_paradas_lineas (fun _ => []) (db_file w)))
                      w).
  pose proof (for_each_insertar_run rels w1
                (with_paradas_lineas (fun _ => []) (db_file w)) eq_refl) as Hloop.
  assert (Hr : r = match for_each rels insertar_relacion w1 with
                   | (Ok _, w2) =>
                       (Ok tt,
                        mkWorld (conn_view w2) None (clock w2) (logs w2)
                                (upstream w2) (requested w2) (slept w2))
                   | (Raise e, w2) =>
                       (Raise e,
                        mkWorld (db_file w2) None (clock w2)
                          (if is_Exception e
                           then logs w2
                                ++ [(ERROR,
                                     "Error guardando paradas_lineas, rollback ejecutado")]
                           else logs w2)
                          (upstream w2) (requested w2) (slept w2))
                   end).
  { subst r rels w1. unfold save_paradas_lineas_batch. run_step.
    destruct (for_each (r0 :: rel) insertar_relacion _) as [[[] | e] w2];
      [reflexivity |]. destruct e; reflexivity. }
  destruct (mapM fila_de rels) as [filas |].
  - rewrite Hloop in Hr. subst t'. rewrite Hr. cbn.
    split; [reflexivity |]. split; [reflexivity |].
    split; [| split; [| split; [| split]]].
    + intros x Hx. apply insertar_filas_elem_of in Hx as [Hx | Hx];
        [inversion Hx | exact Hx].
    + intros x Hx. now apply insertar_filas_has_key.
    + apply insertar_filas_NoDup. constructor.
    + intros x _ Hnot Hx.
      apply insertar_filas_elem_of in Hx as [Hx | Hx];
        [inversion Hx | contradiction].
    + repeat split.
  - destruct Hloop as [k [w2 [Hrun [Hdb _]]]].
    rewrite Hrun in Hr. subst t'. rewrite Hr. cbn.
    split; [eauto |]. rewrite Hdb. split; reflexivity.
Qed.

(** ** Upserting stops *)

Section UpsertFacts.

Context {row key : Type} `{EqDecision key} (pk : row -> key).
Variables (r : row) (upd : row -> row).
Hypothesis upd_pk : forall x, pk (upd x) = pk x.

Lemma select_upsert_eq (t : list row) (old : row) :
  select_by_pk pk (pk r) t = Some old ->
  select_by_pk pk (pk r) (upsert pk r upd t) = Some (upd old).
Proof.
  unfold select_by_pk. induction t as [| x t IH]; simpl; [discriminate |].
  rewrite filter_cons. case_decide as Hx.
  - simpl. intros [= ->]. rewrite filter_cons_True by now rewrite upd_pk.
    reflexivity.
  - intros Hsel. rewrite filter_cons_False by exact Hx. now apply IH.
Qed.

Lemma select_upsert_fresh (t : list row) :
  select_by_pk pk (pk r) t = None ->
  upsert pk r upd t = t ++ [r].
Proof.
  unfold select_by_pk. induction t as [| x t IH]; simpl; [reflexivity |].
  rewrite filter_cons. case_decide as Hx; [discriminate |].
  intros Hsel. now rewrite IH.
Qed.

Lemma select_upsert_ne (k : key) (t : list row) :
  k <> pk r ->
  select_by_pk pk k (upsert pk r upd t) = select_by_pk pk k t.
Proof.
  intros Hne. unfold select_by_pk.
  induction t as [| x t IH]; simpl.
  - now rewrite filter_cons_False by congruence.
  - case_decide as Hx.
    + rewrite !filter_cons.
      rewrite (decide_False (P := pk x = k)) by congruence.
      rewrite (decide_False (P := pk (upd x) = k));
        [reflexivity | rewrite upd_pk; congruence].
    + rewrite !filter_cons. case_decide; simpl; [reflexivity | exact IH].
Qed.

Lemma upsert_length_stored (t : list row) (old : row) :
  select_by_pk pk (pk r) t = Some old ->
  length (upsert pk r upd t) = length t.
Proof.
  unfold select_by_pk. induction t as [| x t IH]; simpl; [discriminate |].
  rewrite filter_cons. case_decide as Hx; simpl; [reflexivity |].
  intros Hsel. now rewrite IH.
Qed.

Lemma upsert_keeps_stored (k : key) (t : list row) :
  is_Some (select_by_pk pk k t) ->
  is_Some (select_by_pk pk k (upsert pk r upd t)).
Proof.
  intros [old Hold]. destruct (decide (k = pk r)) as [-> | Hne].
  - rewrite (select_upsert_eq t old Hold). eauto.
  - rewrite select_upsert_ne by exact Hne. eauto.
Qed.

End UpsertFacts.

Section StopsBatch.

Variable now : Z.

Lemma upsert_parada_select_eq (p : parada_dict) (t : list parada)
    (old : parada) :
  select_by_pk p_codigo (d_codigo p) t = Some old ->
  select_by_pk p_codigo (d_codigo p) (upsert_parada now p t)
  = Some (actualizada now p old).
Proof.
  intros Hold. unfold upsert_parada, actualizada,
    upsert_con_direccion, upsert_sin_direccion.
  destruct (Py.truthy (d_calle p));
    (erewrite (select_upsert_eq p_codigo (mkParada (d_codigo p) _ _ _ _ _ _ _ _ _ _ _));
     [reflexivity | reflexivity | exact Hold]).
Qed.

Lemma upsert_parada_select_ne (k : string) (p : parada_dict)
    (t : list parada) :
  k <> d_codigo p ->
  select_by_pk p_codigo k (upsert_parada now p t) = select_by_pk p_codigo k t.
Proof.
  intros Hne. unfold upsert_parada, upsert_con_direccion, upsert_sin_direccion.
  destruct (Py.truthy (d_calle p));
    (apply (select_upsert_ne p_codigo
              (mkParada (d_codigo p) _ _ _ _ _ _ _ _ _ _ _));
     [reflexivity | exact Hne]).
Qed.

Lemma upsert_parada_length (p : parada_dict) (t : list parada) :
  is_Some (select_by_pk p_codigo (d_codigo p) t) ->
  length (upsert_parada now p t) = length t.
Proof.
  intros [old Hold]. unfold upsert_parada, upsert_con_direccion,
    upsert_sin_direccion.
  destruct (Py.truthy (d_calle p));
    exact (upsert_length_stored p_codigo
             (mkParada (d_codigo p) _ _ _ _ _ _ _ _ _ _ _) _ t old Hold).
Qed.

Lemma upsert_parada_keeps_stored (k : string) (p : parada_dict)
    (t : list parada) :
  is_Some (select_by_pk p_codigo k t) ->
  is_Some (select_by_pk p_codigo k (upsert_parada now p t)).
Proof.
  intros Hk. unfold upsert_parada, upsert_con_direccion, upsert_sin_direccion.
  destruct (Py.truthy (d_calle p));
    (apply (upsert_keeps_stored p_codigo
              (mkParada (d_codigo p) _ _ _ _ _ _ _ _ _ _ _));
     [reflexivity | exact Hk]).
Qed.

Lemma upsert_paradas_select_ne (k : string) (ps : list parada_dict)
    (t : list parada) :
  Forall (fun q => d_codigo q <> k) ps ->
  select_by_pk p_codigo k (upsert_paradas now ps t) = select_by_pk p_codigo k t.
Proof.
  intros Hps. revert t. induction Hps as [| q ps Hq _ IH]; intros t;
    [reflexivity |].
  simpl. rewrite IH. apply upsert_parada_select_ne. congruence.
Qed.

Lemma upsert_paradas_length (ps : list parada_dict) (t : list parada) :
  Forall (fun q => is_Some (select_by_pk p_codigo (d_codigo q) t)) ps ->
  length (upsert_paradas now ps t) = length t.
Proof.
  revert t. induction ps as [| q ps IH]; intros t Hps; [reflexivity |].
  apply Forall_cons in Hps as [Hq Hps]. simpl.
  rewrite IH; [now apply upsert_parada_length |].
  eapply Forall_impl; [exact Hps |].
  intros q' Hq'. now apply upsert_parada_keeps_stored.
Qed.

Lemma upsert_paradas_app (ps qs : list parada_dict) (t : list parada) :
  upsert_paradas now (ps ++ qs) t
  = upsert_paradas now qs (upsert_paradas now ps t).
Proof. apply foldl_app. Qed.

End StopsBatch.

Lemma for_each_guardar_run (ps : list parada_dict) (w : world)
    (d : database) :
  db_conn w = Some d ->
  for_each ps guardar_parada w
  = (Ok tt, set_conn (Some (with_paradas (upsert_paradas (clock w) ps) d)) w).
Proof.
  revert w d. induction ps as [| p ps IH]; intros w d Hd.
  - simpl. destruct w, d; simpl in *. now subst.
  - rewrite for_each_cons_run.
    assert (Hp : guardar_parada p w
                 = (Ok tt,
                    set_conn (Some (with_paradas (upsert_parada (clock w) p) d))
                             w)).
    { unfold guardar_parada, upsert_parada. run_step.
      destruct (Py.truthy (d_calle p)); run_step; rewrite Hd; reflexivity. }
    rewrite Hp.
    etrans;
      [apply (IH (set_conn (Some (with_paradas (upsert_parada (clock w) p) d))
                           w) _ eq_refl)
      | reflexivity].
Qed.

Lemma save_paradas_batch_run (ps : list parada_dict) (w : world) :
  save_paradas_batch ps w
  = (Ok tt,
     mkWorld (with_paradas (upsert_paradas (clock w) ps) (db_file w)) None
             (clock w) (logs w) (upstream w) (requested w) (slept w)).
Proof.
  unfold save_paradas_batch, with_connection. unfold mbind at 1, M_bind.
  rewrite (for_each_guardar_run ps (set_conn (Some (db_file w)) w)
             (db_file w) eq_refl).
  reflexivity.
Qed.

(** C5, as amended. A batch that carries a stored stop's code once updates
    that stop in place: the name and the coordinates take the values of
    the batch entry. Without a street in the entry, the seven address
    fields (street, number, postal code, municipality, province, region,
    full address) keep their values; with a street, the street and the
    number take the values of the entry. When every code of the batch is
    stored already, the number of stops is unchanged. *)
Theorem save_paradas_batch_upsert_fields
    (w : world) (pre post : list parada_dict) (p : parada_dict)
    (old : parada) :
  select_by_pk p_codigo (d_codigo p) (paradas (db_file w)) = Some old ->
  Forall (fun q => d_codigo q <> d_codigo p) (pre ++ post) ->
  let r := save_paradas_batch (pre ++ p :: post) w in
  fst r = Ok tt
  /\ (exists new,
        select_by_pk p_codigo (d_codigo p) (paradas (db_file (snd r)))
        = Some new
        /\ p_codigo new = d_codigo p
        /\ p_nombre new = d_nombre p
        /\ p_latitud new = d_latitud p
        /\ p_longitud new = d_longitud p
        /\ (Py.truthy (d_calle p) = false ->
            p_calle new = p_calle old
            /\ p_numero new = p_numero old
            /\ p_codigo_postal new = p_codigo_postal old
            /\ p_municipio new = p_municipio old
            /\ p_provincia new = p_provincia old
            /\ p_comunidad_autonoma new = p_comunidad_autonoma old
            /\ p_direccion_completa new = p_direccion_completa old)
        /\ (Py.truthy (d_calle p) = true ->
            p_calle new = d_calle p /\ p_numero new = d_numero p))
  /\ (Forall (fun q => is_Some (select_by_pk p_codigo (d_codigo q)
                                  (paradas (db_file w)))) (pre ++ post) ->
      length (paradas (db_file (snd r))) = length (paradas (db_file w))).
Proof.
  intros Hold Hothers r. subst r. rewrite save_paradas_batch_run. cbn.
  apply Forall_app in Hothers as [Hpre Hpost].
  split; [reflexivity |]. split.
  - exists (actualizada (clock w) p old).
    rewrite upsert_paradas_app. simpl.
    rewrite upsert_paradas_select_ne by exact Hpost.
    rewrite (upsert_parada_select_eq (clock w) p _ old)
      by (now rewrite upsert_paradas_select_ne by exact Hpre).
    apply select_by_pk_Some in Hold as [_ Hcode].
    unfold actualizada.
    destruct (Py.truthy (d_calle p)); simpl; repeat split;
      auto; discriminate.
  - intros Hstored. apply upsert_paradas_length.
    apply Forall_app in Hstored as [Hspre Hspost].
    apply Forall_app. split; [exact Hspre |].
    constructor; [eauto | exact Hspost].
Qed.

Lemma save_paradas_batch_upsert_fields_witness :
  (select_by_pk p_codigo (d_codigo entrada_43_sin_calle)
     (paradas (db_file mundo_paradas)) = Some parada_43
   /\ Forall (fun q => d_codigo q <> d_codigo entrada_43_sin_calle) ([] ++ []))
  /\ fst (save_paradas_batch ([] ++ entrada_43_sin_calle :: []) mundo_paradas)
     = Ok tt.
Proof.
  assert (H1 : select_by_pk p_codigo (d_codigo entrada_43_sin_calle)
                 (paradas (db_file mundo_paradas)) = Some parada_43)
    by reflexivity.
  assert (H2 : Forall (fun q => d_codigo q <> d_codigo entrada_43_sin_calle)
                 ([] ++ [])) by constructor.
  split; [split; assumption |].
  exact (proj1 (save_paradas_batch_upsert_fields mundo_paradas [] []
                  entrada_43_sin_calle parada_43 H1 H2)).
Defined.

(** C5 as stated fails. The stop "43" is stored with the street "Calle
    Recaredo", the postal code 41003 and the full address "Calle Recaredo
    5"; a batch gives it the street "Avenida Menendez Pelayo", number 7.
    Afterwards the street and the number are those of the batch, and the
    postal code and the full address are the old ones: not every address
    field is overwritten. *)
Lemma save_paradas_batch_keeps_extended_address :
  exists new,
    fst (get_parada_by_codigo "43"
           (snd (save_paradas_batch [entrada_43_con_calle] mundo_paradas)))
    = Ok (Some new)
    /\ p_calle new = Some "Avenida Menendez Pelayo"
    /\ p_numero new = Some "7"
    /\ p_codigo_postal new = Some "41003"
    /\ p_direccion_completa new = Some "Calle Recaredo 5".
Proof.
  eexists. split; [reflexivity |]. repeat split.
Qed.

(** ** Retrying requests *)

Section Retry.

Variable url : string.

Lemma retryable_raises (r : response) :
  status_code r ∈ retryable ->
  raise_for_status r = raise (HTTPStatusError (status_code r)).
Proof.
  unfold retryable, raise_for_status. intros Hin.
  repeat (apply elem_of_cons in Hin as [-> | Hin]); try reflexivity.
  inversion Hin.
Qed.

(** One turn of the loop on a retryable response: warn, sleep, go on. *)
Lemma loop_retry_step (attempt : Z) (attempts : list Z)
    (last : option response) (w : world) (r : response)
    (tail : list http_result) :
  upstream w = Responds r :: tail ->
  status_code r ∈ retryable ->
  _get_with_retry_loop url (attempt :: attempts) last w
  = _get_with_retry_loop url attempts (Some r)
      (mkWorld (db_file w) (db_conn w)
         (clock w + 2 ^ (attempt + 1) * 1000000)
         (logs w ++ [(WARNING, "HTTP %d de %s, reintentando en %ds (%d/%d)")])
         tail (requested w ++ [url]) (slept w ++ [2 ^ (attempt + 1)])).
Proof.
  intros Hup Hin. cbn [_get_with_retry_loop].
  unfold mbind at 1, M_bind, client_get. rewrite Hup.
  cbn [status_code]. rewrite bool_decide_true by exact Hin.
  reflexivity.
Qed.

(** One turn of the loop on any other response: it is the answer, or the
    error of its status. *)
Lemma loop_final_step (attempt : Z) (attempts : list Z)
    (last : option response) (w : world) (r : response)
    (tail : list http_result) :
  upstream w = Responds r :: tail ->
  status_code r ∉ retryable ->
  _get_with_retry_loop url (attempt :: attempts) last w
  = (if (200 <=? status_code r) && (status_code r <=? 299)
     then Ok r else Raise (HTTPStatusError (status_code r)),
     mkWorld (db_file w) (db_conn w) (clock w) (logs w) tail
             (requested w ++ [url]) (slept w)).
Proof.
  intros Hup Hin. cbn [_get_with_retry_loop].
  unfold mbind at 1, M_bind, client_get. rewrite Hup.
  rewrite bool_decide_false by exact Hin.
  unfold raise_for_status, mbind, M_bind.
  destruct ((200 <=? status_code r) && (status_code r <=? 299)); reflexivity.
Qed.

(** After the last turn: the error of the last response. *)
Lemma loop_exhausted (w : world) (r : response) :
  status_code r ∈ retryable ->
  _get_with_retry_loop url [] (Some r) w
  = (Raise (HTTPStatusError (status_code r)),
     mkWorld (db_file w) (db_conn w) (clock w)
       (logs w ++ [(ERROR, "Reintentos agotados para %s (último: %d)")])
       (upstream w) (requested w) (slept w)).
Proof.
  intros Hin. cbn [_get_with_retry_loop].
  rewrite (retryable_raises r Hin). reflexivity.
Qed.

End Retry.

(** C4. With [max_retries] = 3 the waits are 2, 4 and 8 seconds. While the
    responses are retryable (429, 500, 502, 503) each is followed by its
    wait and, up to the third, by a new request. After three retryable
    responses the error raised carries the status of the third. A response
    with another status ends the loop at once: it is returned when its
    status is 2xx, and raised as the error of its status otherwise, with
    no further request. Against 429 then 200, the second response is
    returned. *)
Theorem get_with_retry_backoff
    (url : string) (w : world) (rs : list response)
    (tail : list http_result) :
  Forall (fun x => status_code x ∈ retryable) rs ->
  upstream w = map Responds rs ++ tail ->
  let out := _get_with_retry url 3 w in
  let waits := map (fun attempt => 2 ^ (attempt + 1)) (range 3) in
  waits = [2; 4; 8]
  /\ (length rs = 3%nat ->
      exists r3, last rs = Some r3
        /\ fst out = Raise (HTTPStatusError (status_code r3))
        /\ slept (snd out) = slept w ++ waits
        /\ requested (snd out) = requested w ++ replicate 3 url
        /\ upstream (snd out) = tail)
  /\ ((length rs < 3)%nat ->
      forall (r : response) (rest : list http_result),
        tail = Responds r :: rest ->
        status_code r ∉ retryable ->
        fst out = (if (200 <=? status_code r) && (status_code r <=? 299)
                   then Ok r else Raise (HTTPStatusError (status_code r)))
        /\ slept (snd out) = slept w ++ take (length rs) waits
        /\ requested (snd out)
           = requested w ++ replicate (S (length rs)) url
        /\ upstream (snd out) = rest)
  /\ (forall b1 b2,
        rs = [mkResponse 429 b1] -> tail = [Responds (mkResponse 200 b2)] ->
        fst out = Ok (mkResponse 200 b2)).
Proof.
  intros Hrs Hup out waits.
  split; [reflexivity |].
  assert (Hmain :
    (length rs = 3%nat ->
      exists r3, last rs = Some r3
        /\ fst out = Raise (HTTPStatusError (status_code r3))
        /\ slept (snd out) = slept w ++ waits
        /\ requested (snd out) = requested w ++ replicate 3 url
        /\ upstream (snd out) = tail)
    /\ ((length rs < 3)%nat ->
      forall (r : response) (rest : list http_result),
        tail = Responds r :: rest ->
        status_code r ∉ retryable ->
        fst out = (if (200 <=? status_code r) && (status_code r <=? 299)
                   then Ok r else Raise (HTTPStatusError (status_code r)))
        /\ slept (snd out) = slept w ++ take (length rs) waits
        /\ requested (snd out)
           = requested w ++ replicate (S (length rs)) url
        /\ upstream (snd out) = rest)).
  { subst out waits. unfold _get_with_retry.
    change (range 3) with [0; 1; 2].
    destruct rs as [| r0 [| r1 [| r2 [| r3 rs']]]]; simpl in Hup;
      (split; [intros Hlen; try discriminate Hlen
              | intros Hlen r rest -> Hr; simpl in Hlen; try lia]).
    - erewrite loop_final_step; [| exact Hup | exact Hr]. cbn.
      rewrite app_nil_r. repeat split.
    - apply Forall_cons in Hrs as [H0 _].
      erewrite loop_retry_step; [| exact Hup | exact H0].
      erewrite loop_final_step; [| reflexivity | exact Hr]. cbn.
      rewrite <- !app_assoc. repeat split.
    - apply Forall_cons in Hrs as [H0 Hrs].
      apply Forall_cons in Hrs as [H1 _].
      erewrite loop_retry_step; [| exact Hup | exact H0].
      erewrite loop_retry_step; [| reflexivity | exact H1].
      erewrite loop_final_step; [| reflexivity | exact Hr]. cbn.
      rewrite <- !app_assoc. repeat split.
    - apply Forall_cons in Hrs as [H0 Hrs].
      apply Forall_cons in Hrs as [H1 Hrs].
      apply Forall_cons in Hrs as [H2 _].
      exists r2. split; [reflexivity |].
      erewrite loop_retry_step; [| exact Hup | exact H0].
      erewrite loop_retry_step; [| reflexivity | exact H1].
      erewrite loop_retry_step; [| reflexivity | exact H2].
      rewrite (loop_exhausted url _ r2 H2). cbn.
      rewrite <- !app_assoc. repeat split. }
  destruct Hmain as [Hex Hok]. split; [exact Hex |]. split; [exact Hok |].
  intros b1 b2 -> ->.
  destruct (Hok ltac:(simpl; lia) (mkResponse 200 b2) [] eq_refl) as [Hfst _].
  - unfold retryable. cbn. intros Hin.
    repeat (apply elem_of_cons in Hin as [Hin | Hin]; [discriminate |]).
    inversion Hin.
  - exact Hfst.
Qed.

(** ** Arrival times *)

Section Directions.

Lemma agrupar_lookup_from (m : gmap string (list Z))
    (rows : list parada_linea) (label : string) :
  foldl (fun (result : gmap string (list Z)) row =>
           <[pl_linea_numero row :=
               default [] (result !! pl_linea_numero row) ++ [pl_sentido row]]>
             result) m rows !! label
  = match map pl_sentido
            (filter (fun r => pl_linea_numero r = label) rows) with
    | [] => m !! label
    | ss => Some (default [] (m !! label) ++ ss)
    end.
Proof.
  revert m. induction rows as [| row rows IH]; intros m; [reflexivity |].
  cbn [foldl]. rewrite IH. rewrite filter_cons.
  destruct (decide (pl_linea_numero row = label)) as [<- | Hne].
  - rewrite lookup_insert_eq. cbn [map].
    destruct (map pl_sentido (filter _ rows)) as [| s ss]; simpl;
      [reflexivity |].
    now rewrite <- app_assoc.
  - rewrite lookup_insert_ne by exact Hne. reflexivity.
Qed.

Lemma agrupar_sentidos_lookup (rows : list parada_linea) (label : string) :
  default [] (agrupar_sentidos rows !! label)
  = map pl_sentido (filter (fun r => pl_linea_numero r = label) rows).
Proof.
  unfold agrupar_sentidos. cbv zeta. rewrite agrupar_lookup_from.
  rewrite lookup_empty. now destruct (map pl_sentido _).
Qed.

Lemma get_sentidos_for_parada_run (codigo : string) (w : world) :
  get_sentidos_for_parada codigo w
  = (Ok (agrupar_sentidos
           (stable_sort linea_sentido_leb
              (filter (fun r => pl_parada_codigo r = codigo)
                      (paradas_lineas (db_file w))))),
     set_conn None w).
Proof. reflexivity. Qed.

Variables (t : list parada_linea) (codigo : string).

Lemma sentidos_elem_of (label : string) (d : Z) :
  d ∈ sentidos_de t codigo label <-> registrado t codigo label d.
Proof.
  unfold sentidos_de, registrado. rewrite agrupar_sentidos_lookup.
  rewrite list_elem_of_fmap. split.
  - intros [row [-> Hrow]]. apply list_elem_of_filter in Hrow as [Hl Hrow].
    rewrite stable_sort_Permutation in Hrow.
    apply list_elem_of_filter in Hrow as [Hc Hrow]. eauto.
  - intros [row [Hrow [Hc [Hl Hd]]]]. exists row. split; [now symmetry |].
    apply list_elem_of_filter. split; [exact Hl |].
    rewrite stable_sort_Permutation. apply list_elem_of_filter. auto.
Qed.

Hypothesis pk_unique : NoDup (map pl_key t).

Lemma sentidos_NoDup (label : string) : NoDup (sentidos_de t codigo label).
Proof.
  unfold sentidos_de. rewrite agrupar_sentidos_lookup.
  set (l := filter (fun r => pl_linea_numero r = label)
              (stable_sort linea_sentido_leb
                 (filter (fun r => pl_parada_codigo r = codigo) t))).
  assert (Hl : NoDup (map pl_key l)).
  { apply NoDup_fmap_2_strong.
    - intros x y Hx Hy Hxy. subst l.
      apply list_elem_of_filter in Hx as [_ Hx].
      apply list_elem_of_filter in Hy as [_ Hy].
      rewrite stable_sort_Permutation in Hx, Hy.
      apply list_elem_of_filter in Hx as [_ Hx].
      apply list_elem_of_filter in Hy as [_ Hy].
      apply list_elem_of_lookup in Hx as [i Hi].
      apply list_elem_of_lookup in Hy as [j Hj].
      assert (i = j).
      { eapply NoDup_lookup; [exact pk_unique | |];
          rewrite list_lookup_fmap; [rewrite Hi | rewrite Hj]; simpl;
          [reflexivity | now rewrite Hxy]. }
      subst j. congruence.
    - subst l. apply NoDup_filter.
      rewrite stable_sort_Permutation. apply NoDup_filter.
      eapply NoDup_fmap_1. exact pk_unique. }
  assert (Hkey : map pl_key l
                 = map (fun d => (codigo, label, d)) (map pl_sentido l)).
  { rewrite <- list_fmap_compose. apply list_fmap_ext.
    intros i row Hrow. apply list_elem_of_lookup_2 in Hrow. subst l.
    apply list_elem_of_filter in Hrow as [Hlab Hrow].
    rewrite stable_sort_Permutation in Hrow.
    apply list_elem_of_filter in Hrow as [Hc _].
    unfold pl_key. simpl. now rewrite Hc, Hlab. }
  rewrite Hkey in Hl. eapply NoDup_fmap_1. exact Hl.
Qed.

(** The direction of a line is reported exactly when the table records
    one direction for it at the stop, and it is that direction. *)
Lemma sentido_unico_spec (label : string) (d : Z) :
  sentido_unico (sentidos_de t codigo label) = Some d
  <-> (forall d', registrado t codigo label d' <-> d' = d).
Proof.
  pose proof (sentidos_NoDup label) as Hnd.
  pose proof (sentidos_elem_of label) as Hin.
  destruct (sentidos_de t codigo label) as [| s [| s' ss]]; simpl.
  - split; [discriminate |]. intros Hall.
    exfalso. pose proof (proj2 (Hall d) eq_refl) as Hd.
    apply Hin in Hd. inversion Hd.
  - split.
    + intros [= ->] d'. rewrite <- Hin. apply list_elem_of_singleton.
    + intros Hall. f_equal. apply Hall, Hin. left.
  - split; [discriminate |]. intros Hall. exfalso.
    assert (Hs : s = d) by (apply Hall, Hin; left).
    assert (Hs' : s' = d) by (apply Hall, Hin; right; left).
    subst s s'. apply NoDup_cons in Hnd as [Hnot _]. apply Hnot. left.
Qed.

End Directions.

Section ArrivalTimes.

(** The requests and the waits leave the store alone. *)
Lemma get_with_retry_loop_db (url : string) (attempts : list Z)
    (last : option response) (w : world) :
  db_file (snd (_get_with_retry_loop url attempts last w)) = db_file w.
Proof.
  revert last w. induction attempts as [| a attempts IH]; intros last w.
  - destruct last as [r |]; [| reflexivity].
    cbn [_get_with_retry_loop]. unfold raise_for_status. run_step.
    destruct ((200 <=? status_code r) && (status_code r <=? 299));
      reflexivity.
  - cbn [_get_with_retry_loop]. unfold client_get. run_step.
    destruct (upstream w) as [| [r |] tail]; try reflexivity.
    cbn [status_code]. case_bool_decide.
    + unfold sleep. run_step. rewrite IH. reflexivity.
    + unfold raise_for_status. run_step.
      destruct ((200 <=? status_code r) && (status_code r <=? 299));
        reflexivity.
Qed.

(** A read of the arrival cache leaves the membership table alone. *)
Lemma get_cached_tiempos_paradas_lineas (codigo : string) (w : world) :
  paradas_lineas (db_file (snd (get_cached_tiempos codigo w)))
  = paradas_lineas (db_file w).
Proof.
  unfold get_cached_tiempos. run_step.
  destruct (select_by_pk tc_parada_codigo codigo _) as [row |];
    [| reflexivity].
  run_step. case_decide; [| reflexivity].
  destruct (tc_tiempos_json row); reflexivity.
Qed.

Lemma tiempos_de_sin_sentido (m : gmap string (list Z))
    (lineas : list linea_coincidente) :
  map sin_sentido (tiempos_de m lineas) = llegadas_de lineas.
Proof.
  unfold tiempos_de, llegadas_de.
  induction lineas as [| l lineas IH]; [reflexivity |].
  cbn [flat_map]. rewrite map_app, IH. f_equal.
  rewrite map_map. reflexivity.
Qed.

Lemma tiempos_de_sentido (m : gmap string (list Z))
    (lineas : list linea_coincidente) (x : tiempo) :
  x ∈ tiempos_de m lineas ->
  t_sentido x = sentido_unico (default [] (m !! t_linea x)).
Proof.
  unfold tiempos_de. induction lineas as [| l lineas IH]; cbn [flat_map].
  - inversion 1.
  - rewrite elem_of_app. intros [Hx | Hx]; [| now apply IH].
    apply list_elem_of_fmap in Hx as [est [-> _]]. reflexivity.
Qed.

End ArrivalTimes.

(** C7, as amended. A retrieval of the arrival times of a stop is served
    from the cache or fetched. When it is fetched (a forced refresh, or no
    readable entry of less than a minute) and the transit API answers, the
    answer of [get_tiempos_parada] carries for each arrival the direction of its
    line exactly when the membership table records one direction for that
    line at the stop, and no direction when it records none or several;
    its arrivals are ascending in the minutes until arrival, and they are
    the soonest of all the arrivals announced, 10 of them at most. When it
    is served from the cache, the answer is the stored one as it is: no
    direction is resolved, nothing is sorted or cut, and the membership
    table is not read. When the request fails or the body of the response
    does not parse, the retrieval raises that error. *)
Theorem get_tiempos_parada_directions_sorted_capped
    (w : world) (codigo : string) (force_refresh : bool) :
  NoDup (map pl_key (paradas_lineas (db_file w))) ->
  let check :=
    (if negb force_refresh then get_cached_tiempos codigo else mret None) w in
  let url := (BASE_URL ++ "/API/infotus-ui/tiempos/" ++ codigo)%string in
  (exists cached, fst check = Ok cached)
  /\ (forall cached : tiempos_parada,
        fst check = Ok (Some cached) ->
        force_refresh = false
        /\ (exists row,
              select_by_pk tc_parada_codigo codigo (tiempos_cache (db_file w))
              = Some row
              /\ tc_tiempos_json row = Encoded cached
              /\ clock w - tc_cached_at row < 60 * 1000000)
        /\ get_tiempos_parada codigo force_refresh w
           = (Ok cached,
              snd (log INFO "Returning cached tiempos for parada"
                       (set_conn None w))))
  /\ (fst check = Ok None ->
      forall (w2 : world) (resp : response) (cuerpo : tiempos_body),
        _get_with_retry url 3 (snd check) = (Ok resp, w2) ->
        body resp = Encoded cuerpo ->
        exists (r : tiempos_parada) (w3 : world) (resto : list tiempo),
          get_tiempos_parada codigo force_refresh w = (Ok r, w3)
          /\ (forall x d,
                x ∈ tp_tiempos r ->
                (t_sentido x = Some d
                 <-> (forall d',
                        registrado (paradas_lineas (db_file w)) codigo
                                   (t_linea x) d'
                        <-> d' = d)))
          /\ StronglySorted
               (fun a b => t_tiempo_minutos a <= t_tiempo_minutos b)
               (tp_tiempos r ++ resto)
          /\ map sin_sentido (tp_tiempos r ++ resto)
             ≡ₚ llegadas_de (b_lineasCoincidentes cuerpo)
          /\ length (tp_tiempos r)
             = Nat.min 10 (length (llegadas_de (b_lineasCoincidentes cuerpo))))
  /\ (fst check = Ok None ->
      (forall (e : exn) (w2 : world),
         _get_with_retry url 3 (snd check) = (Raise e, w2) ->
         get_tiempos_parada codigo force_refresh w = (Raise e, w2))
      /\ (forall (resp : response) (w2 : world) (raw : string),
            _get_with_retry url 3 (snd check) = (Ok resp, w2) ->
            body resp = Corrupt raw ->
            get_tiempos_parada codigo force_refresh w
            = (Raise JSONDecodeError, w2))).
Proof.
  intros Hpk check url. split; [| split; [| split]].
  - subst check. destruct force_refresh; cbn [negb].
    + now exists None.
    + apply get_cached_tiempos_never_raises.
  - intros cached Hhit. subst check.
    destruct force_refresh; cbn [negb] in *; [discriminate Hhit |].
    destruct (get_cached_tiempos_hit codigo w cached Hhit)
      as [[row [Hsel [Hjson Hage]]] Hrun].
    split; [reflexivity |]. split.
    + exists row. unfold timedelta_minutes, CACHE_TTL_MINUTES in Hage.
      repeat split; auto; lia.
    + unfold get_tiempos_parada. cbn [negb]. unfold mbind at 1, M_bind.
      rewrite Hrun. reflexivity.
  - intros Hmiss w2 resp cuerpo Hretry Hbody.
    assert (Htable : paradas_lineas (db_file w2) = paradas_lineas (db_file w)).
    { pose proof (get_with_retry_loop_db url (range 3) None (snd check))
        as Hdb.
      unfold _get_with_retry in Hretry. rewrite Hretry in Hdb. simpl in Hdb.
      rewrite Hdb. subst check. destruct force_refresh; simpl; [reflexivity |].
      apply get_cached_tiempos_paradas_lineas. }
    set (rows := stable_sort linea_sentido_leb
                   (filter (fun r => pl_parada_codigo r = codigo)
                           (paradas_lineas (db_file w)))).
    set (todos := tiempos_de (agrupar_sentidos rows)
                             (b_lineasCoincidentes cuerpo)).
    set (ordenados := sorted t_tiempo_minutos todos).
    eexists (mkTiemposParada codigo (b_descripcion cuerpo) _ _
               (take 10 ordenados)), _, (drop 10 ordenados).
    split; [| split; [| split; [| split]]].
    + unfold get_tiempos_parada. unfold mbind at 1, M_bind.
      fold check. fold url. destruct check as [res w1].
      simpl in Hmiss, Hretry. subst res.
      unfold mbind at 1, M_bind. rewrite Hretry.
      unfold mbind at 1, M_bind. rewrite Hbody. cbn [json_loads].
      unfold mret at 1, M_ret at 1.
      unfold mbind at 1, M_bind. rewrite get_sentidos_for_parada_run.
      rewrite Htable. fold rows. fold todos. fold ordenados.
      unfold mbind at 1, M_bind. rewrite save_tiempos_cache_run.
      reflexivity.
    + cbn [tp_tiempos]. intros x d Hx.
      apply elem_of_take in Hx as [i [Hx _]].
      apply list_elem_of_lookup_2 in Hx.
      subst ordenados. rewrite sorted_Permutation in Hx.
      rewrite (tiempos_de_sentido _ _ x Hx).
      apply sentido_unico_spec. exact Hpk.
    + cbn [tp_tiempos]. rewrite take_drop. apply sorted_StronglySorted.
    + cbn [tp_tiempos]. rewrite take_drop. subst ordenados.
      rewrite sorted_Permutation. subst todos.
      now rewrite tiempos_de_sin_sentido.
    + cbn [tp_tiempos]. rewrite length_take. subst ordenados.
      rewrite sorted_length. subst todos.
      rewrite <- (tiempos_de_sin_sentido (agrupar_sentidos rows)).
      now rewrite length_map.
  - intros Hmiss. split.
    + intros e w2 Hretry. unfold get_tiempos_parada.
      unfold mbind at 1, M_bind. fold check. fold url.
      destruct check as [res w1]. simpl in Hmiss, Hretry. subst res.
      unfold mbind at 1, M_bind. now rewrite Hretry.
    + intros resp w2 raw Hretry Hbody. unfold get_tiempos_parada.
      unfold mbind at 1, M_bind. fold check. fold url.
      destruct check as [res w1]. simpl in Hmiss, Hretry. subst res.
      unfold mbind at 1, M_bind. rewrite Hretry.
      unfold mbind at 1, M_bind. now rewrite Hbody.
Qed.

(** The example of the specification: at the stop "43" line "01" has the
    directions 1 and 2 and line "C4" the direction 1 only. *)
Lemma get_tiempos_parada_directions_sorted_capped_witness :
  (NoDup (map pl_key (paradas_lineas (db_file mundo_tiempos)))
   /\ body respuesta_200 = Encoded cuerpo_ejemplo)
  /\ exists (r : tiempos_parada) (w3 : world) (resto : list tiempo),
       get_tiempos_parada "43" true mundo_tiempos = (Ok r, w3)
       /\ (forall x d,
             x ∈ tp_tiempos r ->
             (t_sentido x = Some d
              <-> (forall d',
                     registrado (paradas_lineas (db_file mundo_tiempos))
                                "43" (t_linea x) d'
                     <-> d' = d)))
       /\ StronglySorted
            (fun a b => t_tiempo_minutos a <= t_tiempo_minutos b)
            (tp_tiempos r ++ resto)
       /\ map sin_sentido (tp_tiempos r ++ resto)
          ≡ₚ llegadas_de (b_lineasCoincidentes cuerpo_ejemplo)
       /\ length (tp_tiempos r)
          = Nat.min 10 (length (llegadas_de
                                  (b_lineasCoincidentes cuerpo_ejemplo))).
Proof.
  assert (Hpk : NoDup (map pl_key (paradas_lineas (db_file mundo_tiempos)))).
  { apply (bool_decide_unpack (NoDup _)). vm_compute. exact I. }
  split; [split; [exact Hpk | reflexivity] |].
  destruct (get_tiempos_parada_directions_sorted_capped mundo_tiempos "43"
              true Hpk) as [_ [_ [Hfetch _]]].
  eapply (Hfetch eq_refl _ respuesta_200 cuerpo_ejemplo); reflexivity.
Defined.

(** C7 as stated fails for a retrieval served from the cache. The
    arrivals of the stop "43" are fetched while the table records line
    "01" in direction 1 only; the memberships are then replaced, with
    line "01" in both directions. A retrieval 30 seconds later is served
    from the cache: its arrival of line "01" carries the direction 1,
    although the table records two directions for that line at the
    stop. *)
Lemma get_tiempos_parada_serves_stale_directions :
  fst (get_tiempos_parada "43" false mundo_un_sentido)
  = Ok (mkTiemposParada "43" "Recaredo (Puerta Carmona)" None None
          [mkTiempo "C4" "#008431" 2 "Circular" 400 None;
           mkTiempo "01" "#f54129" 5 "Plg. Norte" 1200 (Some 1)])
  /\ paradas_lineas (db_file mundo_cache_rancio)
     = [mkParadaLinea "43" "01" 1 5; mkParadaLinea "43" "01" 2 8]
  /\ NoDup (map pl_key (paradas_lineas (db_file mundo_cache_rancio)))
  /\ registrado (paradas_lineas (db_file mundo_cache_rancio)) "43" "01" 1
  /\ registrado (paradas_lineas (db_file mundo_cache_rancio)) "43" "01" 2
  /\ exists r : tiempos_parada,
       fst (get_tiempos_parada "43" false mundo_cache_rancio) = Ok r
       /\ mkTiempo "01" "#f54129" 5 "Plg. Norte" 1200 (Some 1) ∈ tp_tiempos r
       /\ ~ (forall x d,
               x ∈ tp_tiempos r ->
               (t_sentido x = Some d
                <-> (forall d',
                       registrado (paradas_lineas (db_file mundo_cache_rancio))
                                  "43" (t_linea x) d'
                       <-> d' = d))).
Proof.
  assert (Htabla : paradas_lineas (db_file mundo_cache_rancio)
                   = [mkParadaLinea "43" "01" 1 5; mkParadaLinea "43" "01" 2 8])
    by (vm_compute; reflexivity).
  assert (H1 : registrado (paradas_lineas (db_file mundo_cache_rancio))
                          "43" "01" 1).
  { rewrite Htabla. exists (mkParadaLinea "43" "01" 1 5).
    split; [left | repeat split]. }
  assert (H2 : registrado (paradas_lineas (db_file mundo_cache_rancio))
                          "43" "01" 2).
  { rewrite Htabla. exists (mkParadaLinea "43" "01" 2 8).
    split; [right; left | repeat split]. }
  split; [vm_compute; reflexivity |]. split; [exact Htabla |].
  split; [apply (bool_decide_unpack (NoDup _)); vm_compute; exact I |].
  split; [exact H1 |]. split; [exact H2 |].
  exists (mkTiemposParada "43" "Recaredo (Puerta Carmona)" None None
            [mkTiempo "C4" "#008431" 2 "Circular" 400 None;
             mkTiempo "01" "#f54129" 5 "Plg. Norte" 1200 (Some 1)]).
  split; [vm_compute; reflexivity |]. cbn [tp_tiempos].
  split; [right; left |].
  intros Hall.
  specialize (Hall (mkTiempo "01" "#f54129" 5 "Plg. Norte" 1200 (Some 1)) 1).
  cbn [t_sentido t_linea] in Hall.
  assert (Hin : mkTiempo "01" "#f54129" 5 "Plg. Norte" 1200 (Some 1)
                ∈ [mkTiempo "C4" "#008431" 2 "Circular" 400 None;
                   mkTiempo "01" "#f54129" 5 "Plg. Norte" 1200 (Some 1)])
    by (right; left).
  destruct (Hall Hin) as [Hdir _].
  specialize (Hdir eq_refl 2). apply Hdir in H2. discriminate H2.
Qed.

Example get_tiempos_parada_ejemplo :
  fst (get_tiempos_parada "43" true mundo_tiempos)
  = Ok (mkTiemposParada "43" "Recaredo (Puerta Carmona)" None None
          [mkTiempo "C4" "#008431" 2 "Circular" 400 (Some 1);
           mkTiempo "01" "#f54129" 5 "Plg. Norte" 1200 None]).
Proof. vm_compute. reflexivity. Qed.

(** The sequence 429, 200 of the specification. *)
Lemma get_with_retry_backoff_witness :
  (Forall (fun x => status_code x ∈ retryable) [respuesta_429]
   /\ upstream mundo_429_200
      = map Responds [respuesta_429] ++ [Responds respuesta_200])
  /\ fst (_get_with_retry "http://test.com" 3 mundo_429_200)
     = Ok respuesta_200.
Proof.
  assert (H1 : Forall (fun x => status_code x ∈ retryable) [respuesta_429]).
  { repeat constructor. }
  assert (H2 : upstream mundo_429_200
               = map Responds [respuesta_429] ++ [Responds respuesta_200])
    by reflexivity.
  split; [split; assumption |].
  exact (proj2 (proj2 (proj2 (get_with_retry_backoff "http://test.com"
                                mundo_429_200 [respuesta_429]
                                [Responds respuesta_200] H1 H2)))
           _ _ eq_refl eq_refl).
Defined.

Example get_with_retry_429_200_sleeps :
  slept (snd (_get_with_retry "http://test.com" 3 mundo_429_200)) = [2]
  /\ requested (snd (_get_with_retry "http://test.com" 3 mundo_429_200))
     = ["http://test.com"; "http://test.com"].
Proof. vm_compute. split; reflexivity. Qed.

(** The replacement of the test suite: one new row for the stop "44", and
    the rows of the stops "43" and "252" are gone. *)
Lemma save_paradas_lineas_batch_all_or_nothing_witness :
  [relacion_nueva] <> []
  /\ paradas_lineas
       (db_file (snd (save_paradas_lineas_batch [relacion_nueva]
                        mundo_relaciones)))
     = [mkParadaLinea "44" "C4" 2 0].
Proof.
  assert (H : [relacion_nueva] <> []) by discriminate.
  split; [exact H |].
  exact (proj1 (proj2 (save_paradas_lineas_batch_all_or_nothing
                         [relacion_nueva] mundo_relaciones H))).
Defined.

Example save_paradas_lineas_batch_key_error :
  fst (save_paradas_lineas_batch [relacion_nueva; relacion_sin_orden]
         mundo_relaciones) = Raise (KeyError "orden")
  /\ paradas_lineas
       (db_file (snd (save_paradas_lineas_batch
                        [relacion_nueva; relacion_sin_orden]
                        mundo_relaciones)))
     = relaciones_ejemplo.
Proof. vm_compute. split; reflexivity. Qed.

(** * Further properties of the code *)

(** ** Distances and bearings *)

Section GeoFacts.

Local Open Scope R_scope.


Lemma a_de_sym (lat1 lon1 lat2 lon2 : R) :
  a_de lat1 lon1 lat2 lon2 = a_de lat2 lon2 lat1 lon1.
Proof.
  unfold a_de, Py.radians.
  replace ((lat2 - lat1) * (PI / 180) / 2)
    with (- ((lat1 - lat2) * (PI / 180) / 2)) by lra.
  replace ((lon2 - lon1) * (PI / 180) / 2)
    with (- ((lon1 - lon2) * (PI / 180) / 2)) by lra.
  rewrite !sin_neg. simpl. lra.
Qed.

(** X1. The outcome of [haversine] does not depend on the order of the two
    points, and the distance from a point to itself is 0. *)
Theorem haversine_symmetric_zero (lat1 lon1 lat2 lon2 : R) :
  Geo.haversine lat1 lon1 lat2 lon2 = Geo.haversine lat2 lon2 lat1 lon1
  /\ Geo.haversine lat1 lon1 lat1 lon1 = Some 0.
Proof.
  split.
  - unfold Geo.haversine. cbv zeta.
    fold (a_de lat1 lon1 lat2 lon2). fold (a_de lat2 lon2 lat1 lon1).
    now rewrite (a_de_sym lat1 lon1 lat2 lon2).
  - apply haversine_Some.
    assert (Ha : a_de lat1 lon1 lat1 lon1 = 0).
    { unfold a_de, Py.radians.
      replace ((lat1 - lat1) * (PI / 180) / 2) with 0 by lra.
      replace ((lon1 - lon1) * (PI / 180) / 2) with 0 by lra.
      rewrite sin_0. simpl. lra. }
    rewrite Ha, sqrt_0, asin_0. lra.
Qed.


(** X3. The bearing of [_calculate_bearing] lies in [0, 360), whatever the
    coordinates. *)
Theorem calculate_bearing_range (lat1 lon1 lat2 lon2 : R) :
  0 <= Geo._calculate_bearing lat1 lon1 lat2 lon2 < 360.
Proof.
  unfold Geo._calculate_bearing, Py.fmod. cbv zeta.
  set (b := Py.degrees _ + 360).
  pose proof (floor_bounds (b / 360)) as [Hlo Hhi].
  split; lra.
Qed.

(** X4. The bearing difference does not depend on the order of the two
    bearings, and it is 0 between a bearing and itself. *)
Theorem bearing_diff_symmetric_zero (b1 b2 : R) :
  Geo._bearing_diff b1 b2 = Geo._bearing_diff b2 b1
  /\ Geo._bearing_diff b1 b1 = 0.
Proof.
  unfold Geo._bearing_diff. cbv zeta. split.
  - now rewrite (Rabs_minus_sym b1 b2).
  - replace (b1 - b1) with 0 by lra. rewrite Rabs_R0.
    unfold Py.min. rewrite decide_False by lra. reflexivity.
Qed.

(** X5. Rounding a coordinate to 4 decimals moves it by at most 0.00005, and
    a rounded coordinate rounds to itself: the key of an address entry is
    its own key. *)
Theorem round_ndigits_4_close_idempotent (x : R) :
  Rabs (Py.round_ndigits x 4 - x) <= 5 / 100000
  /\ Py.round_ndigits (Py.round_ndigits x 4) 4 = Py.round_ndigits x 4.
Proof.
  unfold Py.round_ndigits.
  replace (10 ^ 4) with 10000 by (simpl; lra).
  pose proof (round_error (x * 10000)) as [Hlo Hhi].
  split.
  - apply Rabs_le. lra.
  - replace (IZR (Py.round (x * 10000)) / 10000 * 10000)
      with (IZR (Py.round (x * 10000))) by lra.
    rewrite (round_near _ (Py.round (x * 10000))) by lra.
    reflexivity.
Qed.

End GeoFacts.

(** ** The table of stops *)

Section KeyFacts.

Context {row key : Type} `{EqDecision key} (pk : row -> key).

Lemma delete_by_pk_elem_of (k : key) (t : list row) (x : row) :
  x ∈ delete_by_pk pk k t <-> x ∈ t /\ pk x <> k.
Proof. unfold delete_by_pk. rewrite list_elem_of_filter. tauto. Qed.

Lemma delete_by_pk_NoDup (k : key) (t : list row) :
  NoDup (map pk t) -> NoDup (map pk (delete_by_pk pk k t)).
Proof.
  unfold delete_by_pk. induction t as [| x t IH]; simpl; [auto |].
  intros Hnd. apply NoDup_cons in Hnd as [Hx Hnd].
  rewrite filter_cons. case_decide; [| auto].
  simpl. apply NoDup_cons. split; [| auto].
  intros Hin. apply Hx. apply list_elem_of_fmap in Hin as [y [Hy Hin]].
  apply list_elem_of_filter in Hin as [_ Hin].
  apply list_elem_of_fmap. eauto.
Qed.

Lemma insert_or_replace_NoDup (r : row) (t : list row) :
  NoDup (map pk t) -> NoDup (map pk (insert_or_replace pk r t)).
Proof.
  intros Hnd. unfold insert_or_replace. rewrite map_app.
  apply NoDup_app. split; [now apply delete_by_pk_NoDup |]. split.
  - intros k Hk Hk'. simpl in Hk'. apply list_elem_of_singleton in Hk'.
    subst k. apply list_elem_of_fmap in Hk as [x [Hx Hin]].
    apply delete_by_pk_elem_of in Hin as [_ Hne]. congruence.
  - simpl. apply NoDup_singleton.
Qed.

Lemma delete_by_pk_length_stored (k : key) (t : list row) :
  NoDup (map pk t) -> is_Some (select_by_pk pk k t) ->
  S (length (delete_by_pk pk k t)) = length t.
Proof.
  unfold delete_by_pk, select_by_pk.
  induction t as [| x t IH]; simpl; intros Hnd [old Hold]; [discriminate |].
  apply NoDup_cons in Hnd as [Hx Hnd].
  rewrite filter_cons in Hold. rewrite filter_cons.
  destruct (decide (pk x = k)) as [Hk | Hk].
  - rewrite decide_False by tauto. f_equal.
    clear IH Hold. induction t as [| y t IHt]; [reflexivity |].
    simpl in Hx. apply not_elem_of_cons in Hx as [Hxy Hx].
    simpl in Hnd. apply NoDup_cons in Hnd as [_ Hnd].
    rewrite filter_cons_True by congruence. simpl. f_equal. now apply IHt.
  - rewrite decide_True by exact Hk. simpl. f_equal. apply IH; eauto.
Qed.

Lemma upsert_keys (r : row) (upd : row -> row) (t : list row) :
  (forall x, pk (upd x) = pk x) ->
  map pk (upsert pk r upd t)
  = match select_by_pk pk (pk r) t with
    | Some _ => map pk t
    | None => map pk t ++ [pk r]
    end.
Proof.
  intros Hupd. unfold select_by_pk.
  induction t as [| x t IH]; simpl; [reflexivity |].
  rewrite filter_cons. case_decide as Hx; simpl.
  - now rewrite Hupd.
  - rewrite IH. now destruct (head _).
Qed.

Lemma upsert_NoDup (r : row) (upd : row -> row) (t : list row) :
  (forall x, pk (upd x) = pk x) ->
  NoDup (map pk t) -> NoDup (map pk (upsert pk r upd t)).
Proof.
  intros Hupd Hnd. rewrite upsert_keys by exact Hupd.
  destruct (select_by_pk pk (pk r) t) eqn:Hsel; [exact Hnd |].
  apply NoDup_app. split; [exact Hnd |]. split.
  - intros k Hk Hk'. simpl in Hk'. apply list_elem_of_singleton in Hk'.
    subst k. apply list_elem_of_fmap in Hk as [x [Hx Hin]].
    rewrite select_by_pk_None in Hsel. apply (Hsel x Hin). now symmetry.
  - simpl. apply NoDup_singleton.
Qed.

Lemma select_is_Some_keys (k : key) (t : list row) :
  is_Some (select_by_pk pk k t) <-> k ∈ map pk t.
Proof.
  split.
  - intros [x Hx]. apply select_by_pk_Some in Hx as [Hin <-].
    apply list_elem_of_fmap. eauto.
  - intros Hin. apply list_elem_of_fmap in Hin as [x [-> Hin]].
    destruct (select_by_pk pk (pk x) t) eqn:Hsel; [eauto |].
    rewrite select_by_pk_None in Hsel. now destruct (Hsel x Hin).
Qed.

Lemma select_update_eq (k : key) (upd : row -> row) (t : list row) (old : row) :
  (forall x, pk (upd x) = pk x) ->
  select_by_pk pk k t = Some old ->
  select_by_pk pk k (update_by_pk pk k upd t) = Some (upd old).
Proof.
  intros Hupd. unfold select_by_pk, update_by_pk.
  induction t as [| x t IH]; simpl; [discriminate |].
  rewrite !filter_cons. destruct (decide (pk x = k)) as [Hx | Hx].
  - rewrite decide_True by (now rewrite Hupd). simpl. congruence.
  - rewrite decide_False by exact Hx. exact IH.
Qed.

Lemma select_update_ne (k k' : key) (upd : row -> row) (t : list row) :
  (forall x, pk (upd x) = pk x) -> k' <> k ->
  select_by_pk pk k' (update_by_pk pk k upd t) = select_by_pk pk k' t.
Proof.
  intros Hupd Hne. unfold select_by_pk, update_by_pk. f_equal.
  induction t as [| x t IH]; simpl; [reflexivity |].
  rewrite !filter_cons. destruct (decide (pk x = k)) as [Hx | Hx].
  - rewrite !decide_False by (rewrite ?Hupd; congruence). exact IH.
  - case_decide; [f_equal |]; exact IH.
Qed.

Lemma update_by_pk_absent (k : key) (upd : row -> row) (t : list row) :
  select_by_pk pk k t = None -> update_by_pk pk k upd t = t.
Proof.
  rewrite select_by_pk_None. intros Hnone. unfold update_by_pk.
  induction t as [| x t IH]; simpl; [reflexivity |].
  rewrite decide_False by (apply Hnone; left). f_equal.
  apply IH. intros y Hy. apply Hnone. now right.
Qed.

End KeyFacts.

Section StopsTable.

Lemma save_parada_run (codigo nombre : string) (latitud longitud : R)
    (calle numero : option string) (w : world) :
  save_parada codigo nombre latitud longitud calle numero w
  = (Ok tt,
     mkWorld
       (with_paradas
          (insert_or_replace p_codigo
             (mkParada codigo nombre latitud longitud calle numero
                       None None None None None (clock w)))
          (db_file w))
       None (clock w) (logs w) (upstream w) (requested w) (slept w)).
Proof. reflexivity. Qed.

(** X6. [save_parada] replaces the whole row of its code: afterwards the
    stop has the given name, coordinates, street and number, and no postal
    code, municipality, province, region or full address, whatever was
    stored. The other stops are as they were, the codes stay unique, and
    saving a stored code does not change the number of stops. *)
Theorem save_parada_replaces_row (codigo nombre : string)
    (latitud longitud : R) (calle numero : option string) (w : world) :
  let r := save_parada codigo nombre latitud longitud calle numero w in
  fst r = Ok tt
  /\ fst (get_parada_by_codigo codigo (snd r))
     = Ok (Some (mkParada codigo nombre latitud longitud calle numero
                          None None None None None (clock w)))
  /\ (forall k, k <> codigo ->
        fst (get_parada_by_codigo k (snd r)) = fst (get_parada_by_codigo k w))
  /\ (NoDup (map p_codigo (paradas (db_file w))) ->
      NoDup (map p_codigo (paradas (db_file (snd r))))
      /\ (is_Some (select_by_pk p_codigo codigo (paradas (db_file w))) ->
          length (paradas (db_file (snd r))) = length (paradas (db_file w)))).
Proof.
  intros r. subst r. rewrite save_parada_run. cbn.
  split; [reflexivity |]. split; [| split].
  - unfold get_parada_by_codigo. run_step. cbn. f_equal.
    apply (select_insert_or_replace_eq p_codigo (mkParada codigo _ _ _ _ _ _ _ _ _ _ _)).
  - intros k Hk. unfold get_parada_by_codigo. run_step. cbn. f_equal.
    now apply (select_insert_or_replace_ne p_codigo).
  - intros Hnd. split; [now apply insert_or_replace_NoDup |].
    intros Hst. unfold insert_or_replace. rewrite length_app. simpl.
    rewrite <- (delete_by_pk_length_stored p_codigo codigo _ Hnd Hst).
    simpl. lia.
Qed.

Lemma upsert_parada_keys (now : Z) (p : parada_dict) (t : list parada) :
  map p_codigo (upsert_parada now p t)
  = match select_by_pk p_codigo (d_codigo p) t with
    | Some _ => map p_codigo t
    | None => map p_codigo t ++ [d_codigo p]
    end.
Proof.
  unfold upsert_parada, upsert_con_direccion, upsert_sin_direccion.
  destruct (Py.truthy (d_calle p));
    apply (upsert_keys p_codigo (mkParada (d_codigo p) _ _ _ _ _ _ _ _ _ _ _));
    reflexivity.
Qed.

Lemma upsert_paradas_codes (now : Z) (ps : list parada_dict)
    (t : list parada) :
  (NoDup (map p_codigo t) -> NoDup (map p_codigo (upsert_paradas now ps t)))
  /\ (forall k, k ∈ map p_codigo (upsert_paradas now ps t)
                <-> k ∈ map p_codigo t \/ k ∈ map d_codigo ps).
Proof.
  revert t. induction ps as [| p ps IH]; intros t.
  - simpl. split; [auto |]. intros k. rewrite elem_of_nil. tauto.
  - cbn [upsert_paradas foldl]. fold (upsert_paradas now ps (upsert_parada now p t)).
    destruct (IH (upsert_parada now p t)) as [IHnd IHin].
    assert (Hk : forall k, k ∈ map p_codigo (upsert_parada now p t)
                           <-> k ∈ map p_codigo t \/ k = d_codigo p).
    { intros k. rewrite upsert_parada_keys.
      destruct (select_by_pk p_codigo (d_codigo p) t) as [old |] eqn:Hsel.
      - split; [auto |]. intros [Hin | ->]; [exact Hin |].
        apply (select_is_Some_keys p_codigo). eauto.
      - rewrite elem_of_app, list_elem_of_singleton. tauto. }
    split.
    + intros Hnd. apply IHnd. rewrite upsert_parada_keys.
      destruct (select_by_pk p_codigo (d_codigo p) t) as [old |] eqn:Hsel;
        [exact Hnd |].
      apply NoDup_app. split; [exact Hnd |]. split; [| apply NoDup_singleton].
      intros k Hin Hin'. apply list_elem_of_singleton in Hin'. subst k.
      apply (select_is_Some_keys p_codigo) in Hin as [x Hx]. congruence.
    + intros k. rewrite IHin, Hk. simpl. rewrite elem_of_cons. tauto.
Qed.

(** X7. A batch upsert of stops never removes a stop and never duplicates a
    code: afterwards the stored codes are those stored before together
    with those of the batch, and codes that were unique are unique. *)
Theorem save_paradas_batch_codes (ps : list parada_dict) (w : world) :
  let t := paradas (db_file w) in
  let t' := paradas (db_file (snd (save_paradas_batch ps w))) in
  (forall k, k ∈ map p_codigo t' <-> k ∈ map p_codigo t \/ k ∈ map d_codigo ps)
  /\ (NoDup (map p_codigo t) -> NoDup (map p_codigo t')).
Proof.
  intros t t'. subst t t'. rewrite save_paradas_batch_run. cbn.
  destruct (upsert_paradas_codes (clock w) ps (paradas (db_file w)))
    as [Hnd Hin].
  split; assumption.
Qed.

Lemma update_parada_direccion_run
    (codigo calle numero cp muni prov ccaa completa : string) (w : world) :
  update_parada_direccion codigo calle numero cp muni prov ccaa completa w
  = (Ok tt,
     mkWorld
       (with_paradas
          (update_by_pk p_codigo codigo (fun p =>
             mkParada (p_codigo p) (p_nombre p) (p_latitud p) (p_longitud p)
                      (Some calle) (Some numero) (Some cp) (Some muni)
                      (Some prov) (Some ccaa) (Some completa)
                      (p_updated_at p)))
          (db_file w))
       None (clock w) (logs w) (upstream w) (requested w) (slept w)).
Proof. reflexivity. Qed.

(** X8. [update_parada_direccion] sets the seven address fields of the
    stored stop and leaves its name, coordinates and timestamp; the other
    stops and the number of stops are unchanged. For a code that is not
    stored it changes nothing: no stop is created. *)
Theorem update_parada_direccion_sets_address
    (codigo calle numero cp muni prov ccaa completa : string) (w : world) :
  let r := update_parada_direccion codigo calle numero cp muni prov ccaa
                                   completa w in
  let t := paradas (db_file w) in
  let t' := paradas (db_file (snd r)) in
  fst r = Ok tt
  /\ length t' = length t
  /\ (forall k, k <> codigo ->
        select_by_pk p_codigo k t' = select_by_pk p_codigo k t)
  /\ (forall old, select_by_pk p_codigo codigo t = Some old ->
        select_by_pk p_codigo codigo t'
        = Some (mkParada codigo (p_nombre old) (p_latitud old)
                  (p_longitud old) (Some calle) (Some numero) (Some cp)
                  (Some muni) (Some prov) (Some ccaa) (Some completa)
                  (p_updated_at old)))
  /\ (select_by_pk p_codigo codigo t = None -> t' = t).
Proof.
  intros r t t'. subst r t t'. rewrite update_parada_direccion_run. cbn.
  split; [reflexivity |]. split; [| split; [| split]].
  - unfold update_by_pk. apply length_map.
  - intros k Hk. now apply (select_update_ne p_codigo).
  - intros old Hold.
    rewrite (select_update_eq p_codigo codigo _ _ old) by (auto; reflexivity).
    apply select_by_pk_Some in Hold as [_ ->]. reflexivity.
  - apply update_by_pk_absent.
Qed.

(** X9. Once [update_parada_direccion] has given a stop a non-empty street,
    [get_paradas_sin_direccion] does not list that stop any more, and it
    lists the other stops exactly as before. *)
Theorem update_parada_direccion_leaves_pending
    (codigo calle numero cp muni prov ccaa completa : string) (w : world)
    (s : parada_resumen) :
  calle <> "" ->
  let w' := snd (update_parada_direccion codigo calle numero cp muni prov
                                         ccaa completa w) in
  forall pendientes pendientes',
    fst (get_paradas_sin_direccion w) = Ok pendientes ->
    fst (get_paradas_sin_direccion w') = Ok pendientes' ->
    (s ∈ pendientes' <-> s ∈ pendientes /\ s_codigo s <> codigo).
Proof.
  intros Hcalle w' pend pend'. subst w'.
  rewrite update_parada_direccion_run.
  unfold get_paradas_sin_direccion. run_step. cbn.
  intros [= <-] [= <-].
  rewrite !list_elem_of_fmap. unfold update_by_pk. split.
  - intros [p' [-> Hp']]. apply list_elem_of_filter in Hp' as [Hsin Hp'].
    apply list_elem_of_fmap in Hp' as [p [-> Hp]].
    destruct (decide (p_codigo p = codigo)) as [Hc | Hc].
    + exfalso. simpl in Hsin. destruct Hsin as [Hs | Hs]; congruence.
    + split; [| exact Hc]. exists p. split; [reflexivity |].
      apply list_elem_of_filter. auto.
  - intros [[p [-> Hp]] Hc]. apply list_elem_of_filter in Hp as [Hsin Hp].
    exists p. split; [reflexivity |]. apply list_elem_of_filter.
    split; [exact Hsin |]. apply list_elem_of_fmap. exists p.
    split; [| exact Hp]. simpl in Hc. now rewrite decide_False by exact Hc.
Qed.

End StopsTable.

(** ** More on the two caches *)

Section CacheMore.

(** X10. A cache entry whose text does not parse is treated as a miss. When
    it is within its time to live the read deletes that entry, and only
    it, and logs an error; when it is past it, the read leaves the store
    as it is. This holds for the arrival cache, whatever the address cache
    holds, and for the address cache, whatever the arrival cache holds. *)
Theorem corrupt_cache_entry_is_dropped (w : world) :
  (forall (code : string) (row : tiempos_cache_row) (raw : string),
     select_by_pk tc_parada_codigo code (tiempos_cache (db_file w))
     = Some row ->
     tc_tiempos_json row = Corrupt raw ->
     let rt := get_cached_tiempos code w in
     fst rt = Ok None
     /\ (clock w - tc_cached_at row < timedelta_minutes CACHE_TTL_MINUTES ->
         select_by_pk tc_parada_codigo code (tiempos_cache (db_file (snd rt)))
         = None
         /\ (forall k, k <> code ->
               select_by_pk tc_parada_codigo k
                            (tiempos_cache (db_file (snd rt)))
               = select_by_pk tc_parada_codigo k (tiempos_cache (db_file w)))
         /\ paradas (db_file (snd rt)) = paradas (db_file w)
         /\ paradas_lineas (db_file (snd rt)) = paradas_lineas (db_file w)
         /\ direcciones_cache (db_file (snd rt))
            = direcciones_cache (db_file w)
         /\ logs (snd rt)
            = logs w ++ [(ERROR, "Cache corrupto para parada %s, eliminando")])
     /\ (timedelta_minutes CACHE_TTL_MINUTES <= clock w - tc_cached_at row ->
         db_file (snd rt) = db_file w /\ logs (snd rt) = logs w))
  /\ (forall (lat lon : R) (drow : direcciones_cache_row) (draw : string),
        select_by_pk dc_key (Py.round_ndigits lat 4, Py.round_ndigits lon 4)
                     (direcciones_cache (db_file w)) = Some drow ->
        dc_direccion_json drow = Corrupt draw ->
        let rd := get_cached_direccion lat lon w in
        fst rd = Ok None
        /\ (clock w - dc_cached_at drow
            < timedelta_days CACHE_DIRECCIONES_TTL_DIAS ->
            select_by_pk dc_key
                         (Py.round_ndigits lat 4, Py.round_ndigits lon 4)
                         (direcciones_cache (db_file (snd rd))) = None
            /\ (forall k,
                  k <> (Py.round_ndigits lat 4, Py.round_ndigits lon 4) ->
                  select_by_pk dc_key k (direcciones_cache (db_file (snd rd)))
                  = select_by_pk dc_key k (direcciones_cache (db_file w)))
            /\ paradas (db_file (snd rd)) = paradas (db_file w)
            /\ paradas_lineas (db_file (snd rd)) = paradas_lineas (db_file w)
            /\ tiempos_cache (db_file (snd rd)) = tiempos_cache (db_file w)
            /\ logs (snd rd)
               = logs w
                 ++ [(ERROR,
                      "Cache dirección corrupto para (%f, %f), eliminando")])
        /\ (timedelta_days CACHE_DIRECCIONES_TTL_DIAS
            <= clock w - dc_cached_at drow ->
            db_file (snd rd) = db_file w /\ logs (snd rd) = logs w)).
Proof.
  split.
  - intros code row raw Hsel Hraw rt.
    subst rt. unfold get_cached_tiempos. run_step. rewrite Hsel. run_step.
    rewrite Hraw. case_decide as Hage; cbn.
    + split; [reflexivity |]. split; [| intros; lia]. intros _.
      split; [| split; [| repeat split]].
      * unfold select_by_pk.
        now rewrite (filter_pk_delete_eq tc_parada_codigo).
      * intros k Hk. unfold select_by_pk.
        now rewrite (filter_pk_delete_ne tc_parada_codigo).
    + split; [reflexivity |]. split; [intros; lia |]. intros _.
      split; reflexivity.
  - intros lat lon drow draw Hdsel Hdraw rd.
    subst rd. unfold get_cached_direccion. run_step. rewrite Hdsel. run_step.
    rewrite Hdraw. case_decide as Hage; cbn.
    + split; [reflexivity |]. split; [| intros; lia]. intros _.
      split; [| split; [| repeat split]].
      * unfold select_by_pk. now rewrite (filter_pk_delete_eq dc_key).
      * intros k Hk. unfold select_by_pk.
        now rewrite (filter_pk_delete_ne dc_key).
    + split; [reflexivity |]. split; [intros; lia |]. intros _.
      split; reflexivity.
Qed.

(** X11. A stored entry whose text parses is served exactly while its age
    is less than the time to live: one minute for arrivals, 30 days for
    addresses. At the age of exactly the time to live it is a miss, and an
    entry stamped in the future is served. Each cache is read on its own:
    what the other one holds plays no part. *)
Theorem cache_hit_iff_younger_than_ttl (w : world) :
  (forall (code : string) (row : tiempos_cache_row) (v : tiempos_parada),
     select_by_pk tc_parada_codigo code (tiempos_cache (db_file w))
     = Some row ->
     tc_tiempos_json row = Encoded v ->
     (fst (get_cached_tiempos code w) = Ok (Some v)
      <-> clock w - tc_cached_at row < 60 * 1000000)
     /\ (fst (get_cached_tiempos code w) = Ok None
         <-> 60 * 1000000 <= clock w - tc_cached_at row))
  /\ (forall (lat lon : R) (drow : direcciones_cache_row) (d : direccion),
        select_by_pk dc_key (Py.round_ndigits lat 4, Py.round_ndigits lon 4)
                     (direcciones_cache (db_file w)) = Some drow ->
        dc_direccion_json drow = Encoded d ->
        (fst (get_cached_direccion lat lon w) = Ok (Some d)
         <-> clock w - dc_cached_at drow < 30 * 86400 * 1000000)
        /\ (fst (get_cached_direccion lat lon w) = Ok None
            <-> 30 * 86400 * 1000000 <= clock w - dc_cached_at drow)).
Proof.
  split.
  - intros code row v Hsel Hv.
    destruct (Z_lt_le_dec (clock w - tc_cached_at row) (60 * 1000000))
      as [Ht | Ht].
    + rewrite (get_cached_tiempos_fresh code w row v Hsel Ht Hv).
      cbn. repeat split; intros; try congruence; lia.
    + rewrite (get_cached_tiempos_expired code w row Hsel Ht).
      cbn. repeat split; intros; try congruence; lia.
  - intros lat lon drow d Hdsel Hd.
    destruct (Z_lt_le_dec (clock w - dc_cached_at drow)
                          (30 * 86400 * 1000000)) as [Hdt | Hdt].
    + rewrite (get_cached_direccion_fresh lat lon w drow d Hdsel Hdt Hd).
      cbn. repeat split; intros; try congruence; lia.
    + rewrite (get_cached_direccion_expired lat lon w drow Hdsel Hdt).
      cbn. repeat split; intros; try congruence; lia.
Qed.

Lemma get_cached_tiempos_other_key (code k : string) (v : tiempos_parada)
    (w : world) (t : Z) :
  k <> code ->
  fst (get_cached_tiempos k (pasa t (snd (save_tiempos_cache code v w))))
  = fst (get_cached_tiempos k (pasa t w)).
Proof.
  intros Hne. rewrite save_tiempos_cache_run.
  unfold get_cached_tiempos, pasa. run_step.
  cbn [with_tiempos_cache tiempos_cache].
  rewrite (select_insert_or_replace_ne tc_parada_codigo) by exact Hne.
  destruct (select_by_pk tc_parada_codigo k (tiempos_cache (db_file w)))
    as [row |]; [| reflexivity].
  run_step. case_decide; [| reflexivity].
  destruct (tc_tiempos_json row); reflexivity.
Qed.

(** X12. The arrival cache holds one entry per stop and the last write
    wins: after [save_tiempos_cache] a read of that stop within the minute
    returns the value just saved, whatever entry (fresh, expired or
    unreadable) the stop had before; the table has exactly one row for
    the stop; reads of the other stops are not affected; and keys that
    were unique are unique. *)
Theorem save_tiempos_cache_last_write_wins
    (w : world) (code : string) (v : tiempos_parada) (t : Z) :
  t < 60 * 1000000 ->
  let w1 := snd (save_tiempos_cache code v w) in
  fst (get_cached_tiempos code (pasa t w1)) = Ok (Some v)
  /\ length (filter (fun r => tc_parada_codigo r = code)
                    (tiempos_cache (db_file w1))) = 1%nat
  /\ (forall k, k <> code ->
        fst (get_cached_tiempos k (pasa t w1))
        = fst (get_cached_tiempos k (pasa t w)))
  /\ (NoDup (map tc_parada_codigo (tiempos_cache (db_file w))) ->
      NoDup (map tc_parada_codigo (tiempos_cache (db_file w1)))).
Proof.
  intros Ht w1. split; [| split; [| split]].
  - rewrite (get_cached_tiempos_fresh code _
               (mkTiemposCacheRow code (Encoded v) (clock w)) v);
      [reflexivity | | | reflexivity].
    + subst w1. rewrite save_tiempos_cache_run. cbn.
      apply (select_insert_or_replace_eq tc_parada_codigo
               (mkTiemposCacheRow code _ _)).
    + subst w1. rewrite save_tiempos_cache_run. cbn.
      unfold timedelta_minutes, CACHE_TTL_MINUTES. lia.
  - subst w1. rewrite save_tiempos_cache_run. cbn.
    unfold insert_or_replace. rewrite filter_app.
    rewrite (filter_pk_delete_eq tc_parada_codigo).
    now rewrite filter_cons_True by reflexivity.
  - intros k Hk. now apply get_cached_tiempos_other_key.
  - intros Hnd. subst w1. rewrite save_tiempos_cache_run. cbn.
    now apply insert_or_replace_NoDup.
Qed.

End CacheMore.

(** ** Orders *)

Section OrderFacts.

Lemma string_compare_lt_trans (a b c : string) :
  String.compare a b = Lt -> String.compare b c = Lt ->
  String.compare a c = Lt.
Proof.
  revert b c. induction a as [| x a IH]; intros [| y b] [| z c]; simpl;
    try discriminate; try reflexivity.
  unfold Ascii.compare.
  destruct (N.compare_spec (N_of_ascii x) (N_of_ascii y)) as [Hxy | Hxy | Hxy];
    try discriminate;
    destruct (N.compare_spec (N_of_ascii y) (N_of_ascii z)) as [Hyz | Hyz | Hyz];
    try discriminate; intros H1 H2.
  - rewrite Hxy, Hyz, N.compare_refl. eauto.
  - rewrite Hxy. now apply N.compare_lt_iff in Hyz as ->.
  - rewrite <- Hyz. now apply N.compare_lt_iff in Hxy as ->.
  - assert (Hxz : (N_of_ascii x < N_of_ascii z)%N) by lia.
    now apply N.compare_lt_iff in Hxz as ->.
Qed.

Lemma string_leb_trans (a b c : string) :
  String.leb a b = true -> String.leb b c = true -> String.leb a c = true.
Proof.
  unfold String.leb.
  destruct (String.compare a b) eqn:Hab; try discriminate;
    destruct (String.compare b c) eqn:Hbc; try discriminate; intros _ _.
  - apply String.compare_eq_iff in Hab. subst b. now rewrite Hbc.
  - apply String.compare_eq_iff in Hab. subst b. now rewrite Hbc.
  - apply String.compare_eq_iff in Hbc. subst c. now rewrite Hab.
  - now rewrite (string_compare_lt_trans a b c Hab Hbc).
Qed.

Lemma string_ltb_leb (a b : string) :
  String.ltb a b = false -> String.leb b a = true.
Proof.
  unfold String.ltb, String.leb. rewrite (String.compare_antisym b a).
  now destruct (String.compare a b).
Qed.

Context {A : Type} (leb : A -> A -> bool).
Hypothesis leb_total : forall a b, leb a b = true \/ leb b a = true.
Hypothesis leb_trans :
  forall a b c, leb a b = true -> leb b c = true -> leb a c = true.

Lemma insert_sorted_StronglySorted (x : A) (l : list A) :
  StronglySorted (fun a b => leb a b = true) l ->
  StronglySorted (fun a b => leb a b = true) (insert_sorted leb x l).
Proof.
  induction 1 as [| y l Hl IH Hy]; simpl.
  - repeat constructor.
  - destruct (leb x y) eqn:Hxy.
    + constructor; [constructor; assumption |].
      constructor; [exact Hxy |].
      eapply Forall_impl; [exact Hy |]. intros z Hz. simpl in Hz.
      now apply (leb_trans x y z).
    + constructor; [exact IH |].
      rewrite insert_sorted_Permutation.
      constructor; [| exact Hy].
      destruct (leb_total x y) as [H | H]; [congruence | exact H].
Qed.

Lemma stable_sort_StronglySorted (l : list A) :
  StronglySorted (fun a b => leb a b = true) (stable_sort leb l).
Proof.
  induction l as [| x l IH]; simpl; [constructor |].
  now apply insert_sorted_StronglySorted.
Qed.

End OrderFacts.

Lemma StronglySorted_filter_list {A : Type} (R : A -> A -> Prop)
    (P : A -> Prop) `{forall x, Decision (P x)} (l : list A) :
  StronglySorted R l -> StronglySorted R (filter P l).
Proof.
  induction 1 as [| x l Hl IH Hx]; [constructor |].
  rewrite filter_cons. case_decide; [| exact IH].
  constructor; [exact IH |].
  apply Forall_forall. intros y Hy. apply list_elem_of_filter in Hy as [_ Hy].
  rewrite Forall_forall in Hx. now apply Hx.
Qed.

Lemma StronglySorted_map {A B : Type} (R : A -> A -> Prop)
    (S : B -> B -> Prop) (f : A -> B) (l : list A) :
  (forall x y, x ∈ l -> y ∈ l -> R x y -> S (f x) (f y)) ->
  StronglySorted R l -> StronglySorted S (map f l).
Proof.
  intros Hf Hl. induction Hl as [| x l Hl IH Hx]; [constructor |].
  simpl. constructor.
  - apply IH. intros a b Ha Hb. apply Hf; now right.
  - apply Forall_forall. intros b Hb.
    apply list_elem_of_fmap in Hb as [y [-> Hy]].
    rewrite Forall_forall in Hx. apply Hf; [left | now right | now apply Hx].
Qed.

Lemma linea_sentido_leb_spec (a b : parada_linea) :
  linea_sentido_leb a b = true
  <-> String.compare (pl_linea_numero a) (pl_linea_numero b) = Lt
      \/ (pl_linea_numero a = pl_linea_numero b
          /\ pl_sentido a <= pl_sentido b).
Proof.
  unfold linea_sentido_leb, String.ltb.
  destruct (String.compare (pl_linea_numero a) (pl_linea_numero b)) eqn:Hab;
    destruct (String.eqb_spec (pl_linea_numero a) (pl_linea_numero b))
      as [E | E];
    simpl; rewrite ?Z.leb_le; split; intros H; auto; try discriminate;
    destruct H as [H | [H1 H2]]; auto; try discriminate; contradiction.
Qed.

Lemma linea_sentido_leb_total (a b : parada_linea) :
  linea_sentido_leb a b = true \/ linea_sentido_leb b a = true.
Proof.
  rewrite !linea_sentido_leb_spec.
  destruct (String.compare (pl_linea_numero a) (pl_linea_numero b)) eqn:Hab.
  - apply String.compare_eq_iff in Hab.
    destruct (Z.le_ge_cases (pl_sentido a) (pl_sentido b)); [left | right];
      right; split; auto.
  - left. now left.
  - right. left. rewrite String.compare_antisym, Hab. reflexivity.
Qed.

Lemma linea_sentido_leb_trans (a b c : parada_linea) :
  linea_sentido_leb a b = true -> linea_sentido_leb b c = true ->
  linea_sentido_leb a c = true.
Proof.
  rewrite !linea_sentido_leb_spec.
  intros [Hab | [Eab Hab]] [Hbc | [Ebc Hbc]].
  - left. eapply string_compare_lt_trans; eassumption.
  - left. now rewrite <- Ebc.
  - left. now rewrite Eab.
  - right. split; [congruence | lia].
Qed.

Lemma string_leb_total (a b : string) :
  String.leb a b = true \/ String.leb b a = true.
Proof.
  unfold String.leb. rewrite (String.compare_antisym a b).
  destruct (String.compare b a); simpl; auto.
Qed.

Lemma string_compare_irrefl (a : string) : String.compare a a <> Lt.
Proof.
  intros H. pose proof (String.compare_antisym a a) as Ha.
  rewrite H in Ha. discriminate.
Qed.



Lemma agrupar_sentidos_lookup_rows (rows : list parada_linea)
    (label : string) :
  agrupar_sentidos rows !! label
  = match map pl_sentido (filter (fun r => pl_linea_numero r = label) rows)
    with
    | [] => None
    | ss => Some ss
    end.
Proof.
  unfold agrupar_sentidos. cbv zeta. rewrite agrupar_lookup_from.
  rewrite lookup_empty. now destruct (map pl_sentido _).
Qed.

(** ** The membership queries *)

(** X13. [get_lineas_de_parada] lists each line of the stop once, in
    ascending order of the line number compared as text; a line is listed
    exactly when the membership table has a row for it at the stop, in
    whatever direction; the store is not changed. *)
Theorem get_lineas_de_parada_distinct_sorted (codigo : string) (w : world) :
  exists lineas,
    fst (get_lineas_de_parada codigo w) = Ok lineas
    /\ db_file (snd (get_lineas_de_parada codigo w)) = db_file w
    /\ NoDup lineas
    /\ StronglySorted (fun a b => String.leb a b = true) lineas
    /\ (forall linea,
          linea ∈ lineas
          <-> exists d, registrado (paradas_lineas (db_file w)) codigo linea d).
Proof.
  eexists. split; [reflexivity |]. split; [reflexivity |].
  unfold conn_view. cbn. split; [| split].
  - rewrite stable_sort_Permutation. apply NoDup_remove_dups.
  - apply stable_sort_StronglySorted;
      [apply string_leb_total | apply string_leb_trans].
  - intros linea. rewrite stable_sort_Permutation, elem_of_remove_dups.
    rewrite list_elem_of_fmap. unfold registrado. split.
    + intros [row [-> Hrow]]. apply list_elem_of_filter in Hrow as [Hc Hrow].
      exists (pl_sentido row), row. auto.
    + intros [d [row [Hrow [Hc [Hl _]]]]]. exists row.
      split; [now symmetry |]. apply list_elem_of_filter. auto.
Qed.

(** X14. [get_sentidos_for_parada] has a key for a line exactly when the
    membership table has a row for that line at the stop. The list of a
    key is never empty, holds exactly the directions recorded for the line
    at the stop and is ascending; when the keys of the table are unique,
    no direction is listed twice. The store is not changed. *)
Theorem get_sentidos_for_parada_groups (codigo : string) (w : world) :
  let t := paradas_lineas (db_file w) in
  exists m,
    fst (get_sentidos_for_parada codigo w) = Ok m
    /\ db_file (snd (get_sentidos_for_parada codigo w)) = db_file w
    /\ (forall linea,
          is_Some (m !! linea) <-> exists d, registrado t codigo linea d)
    /\ (forall linea ss,
          m !! linea = Some ss ->
          ss <> []
          /\ StronglySorted Z.le ss
          /\ (forall d, d ∈ ss <-> registrado t codigo linea d)
          /\ (NoDup (map pl_key t) -> NoDup ss)).
Proof.
  intros t. rewrite get_sentidos_for_parada_run. cbn [fst snd].
  eexists. split; [reflexivity |]. split; [reflexivity |].
  fold t.
  set (rows := stable_sort linea_sentido_leb
                 (filter (fun r => pl_parada_codigo r = codigo) t)).
  assert (Hss : forall linea ss,
            agrupar_sentidos rows !! linea = Some ss ->
            ss <> [] /\ sentidos_de t codigo linea = ss).
  { intros linea ss Hm. unfold sentidos_de. fold rows. rewrite Hm.
    split; [| reflexivity].
    rewrite agrupar_sentidos_lookup_rows in Hm.
    destruct (map pl_sentido _); [discriminate | congruence]. }
  split.
  - intros linea. split.
    + intros [ss Hm]. destruct (Hss linea ss Hm) as [Hne Hde].
      destruct ss as [| d ss]; [congruence |]. exists d.
      apply sentidos_elem_of. rewrite Hde. left.
    + intros [d Hd]. apply sentidos_elem_of in Hd. unfold sentidos_de in Hd.
      fold rows in Hd.
      destruct (agrupar_sentidos rows !! linea) as [ss |]; [eauto |].
      inversion Hd.
  - intros linea ss Hm. destruct (Hss linea ss Hm) as [Hne Hde].
    split; [exact Hne |]. split; [| split].
    + rewrite <- Hde. unfold sentidos_de. rewrite agrupar_sentidos_lookup.
      fold rows.
      apply (StronglySorted_map
               (fun a b => linea_sentido_leb a b = true) Z.le pl_sentido).
      * intros x y Hx Hy Hxy.
        apply list_elem_of_filter in Hx as [Hx _].
        apply list_elem_of_filter in Hy as [Hy _].
        apply linea_sentido_leb_spec in Hxy as [Hlt | [_ Hle]]; [| exact Hle].
        rewrite Hx, Hy in Hlt. now apply string_compare_irrefl in Hlt.
      * apply StronglySorted_filter_list.
        apply stable_sort_StronglySorted;
          [apply linea_sentido_leb_total | apply linea_sentido_leb_trans].
    + intros d. rewrite <- Hde. apply sentidos_elem_of.
    + intros Hpk. rewrite <- Hde. now apply sentidos_NoDup.
Qed.


(** ** More on the retries *)

Ltac bounded_goal Hs :=
  first [ lia | reflexivity | assumption
        | let r := fresh "r" in
          let Hr := fresh "Hr" in
          intros r Hr;
          first [ discriminate Hr
                | injection Hr as <-;
                  let H1 := fresh "H" in
                  let H2 := fresh "H" in
                  apply andb_true_iff in Hs as [H1 H2];
                  apply Z.leb_le in H1, H2; lia ] ].

Lemma loop_fail_step (url : string) (attempt : Z) (attempts : list Z)
    (last : option response) (w : world) :
  match upstream w with
  | Responds _ :: _ => False
  | _ => True
  end ->
  _get_with_retry_loop url (attempt :: attempts) last w
  = (Raise ConnectError,
     mkWorld (db_file w) (db_conn w) (clock w) (logs w) (drop 1 (upstream w))
             (requested w ++ [url]) (slept w)).
Proof.
  intros Hup. cbn [_get_with_retry_loop].
  unfold mbind at 1, M_bind, client_get.
  destruct (upstream w) as [| [r |] tail]; [reflexivity | easy | reflexivity].
Qed.

Lemma get_with_retry_loop_bounded (url : string) (len s : nat)
    (last : option response) (w : world) :
  let out := _get_with_retry_loop url (map Z.of_nat (seq s len)) last w in
  exists k j : nat,
    (k <= len)%nat /\ (k = j \/ k = S j) /\ (0 < len -> 0 < k)%nat
    /\ requested (snd out) = requested w ++ replicate k url
    /\ upstream (snd out) = drop k (upstream w)
    /\ slept (snd out)
       = slept w ++ map (fun a => 2 ^ (Z.of_nat a + 1)) (seq s j)
    /\ db_file (snd out) = db_file w
    /\ db_conn (snd out) = db_conn w
    /\ (forall r, fst out = Ok r -> 200 <= status_code r <= 299).
Proof.
  revert s last w. induction len as [| len IH]; intros s last w out.
  - exists 0%nat, 0%nat. subst out. cbn [seq map _get_with_retry_loop].
    destruct last as [r |].
    + unfold raise_for_status. run_step.
      destruct ((200 <=? status_code r) && (status_code r <=? 299)) eqn:Hs;
        cbn; rewrite !app_nil_r;
        (split; [| split; [| split; [| split; [| split; [| split;
           [| split; [| split]]]]]]]); bounded_goal Hs.
    + cbn. rewrite !app_nil_r.
      (split; [| split; [| split; [| split; [| split; [| split;
         [| split; [| split]]]]]]]); bounded_goal I.
  - subst out. cbn [seq map].
    destruct (upstream w) as [| [r |] tail] eqn:Hup.
    + rewrite loop_fail_step by now rewrite Hup.
      exists 1%nat, 0%nat. cbn. rewrite Hup, app_nil_r.
      (split; [| split; [| split; [| split; [| split; [| split;
         [| split; [| split]]]]]]]); bounded_goal I.
    + destruct (decide (status_code r ∈ retryable)) as [Hret | Hret].
      * rewrite (loop_retry_step url _ _ last w r tail Hup Hret).
        match goal with
        | |- context [_get_with_retry_loop url _ (Some r) ?w1] =>
            destruct (IH (S s) (Some r) w1)
              as [k [j [Hk [Hkj [_ [Hreq [Hups [Hsl [Hdb [Hconn Hok]]]]]]]]]]
        end.
        cbn [requested upstream slept db_file db_conn] in *.
        exists (S k), (S j).
        rewrite Hreq, Hups, Hsl, Hdb, Hconn. cbn [replicate seq map drop].
        rewrite <- !app_assoc. cbn [app].
        (split; [| split; [| split; [| split; [| split; [| split;
           [| split; [| split]]]]]]]); bounded_goal I.
      * rewrite (loop_final_step url _ _ last w r tail Hup Hret).
        exists 1%nat, 0%nat.
        destruct ((200 <=? status_code r) && (status_code r <=? 299)) eqn:Hs;
          cbn; rewrite ?app_nil_r;
          (split; [| split; [| split; [| split; [| split; [| split;
             [| split; [| split]]]]]]]); bounded_goal Hs.
    + rewrite loop_fail_step by now rewrite Hup.
      exists 1%nat, 0%nat. cbn. rewrite Hup, app_nil_r.
      (split; [| split; [| split; [| split; [| split; [| split;
         [| split; [| split]]]]]]]); bounded_goal I.
Qed.

(** X16. Whatever [max_retries] and whatever the network does,
    [_get_with_retry] makes at most [max_retries] requests, all to the
    given URL; every request but possibly the last is followed by its
    wait, and the waits are 2, 4, 8, ... in this order; a response is
    returned only with a 2xx status; the store is not touched. *)
Theorem get_with_retry_bounded (url : string) (max_retries : Z) (w : world) :
  let out := _get_with_retry url max_retries w in
  exists k j : nat,
    (k <= Z.to_nat max_retries)%nat /\ (k = j \/ k = S j)
    /\ requested (snd out) = requested w ++ replicate k url
    /\ upstream (snd out) = drop k (upstream w)
    /\ slept (snd out)
       = slept w
         ++ map (fun attempt => 2 ^ (attempt + 1)) (range (Z.of_nat j))
    /\ db_file (snd out) = db_file w
    /\ (forall r, fst out = Ok r -> 200 <= status_code r <= 299).
Proof.
  intros out. subst out. unfold _get_with_retry, range.
  destruct (get_with_retry_loop_bounded url (Z.to_nat max_retries) 0 None w)
    as [k [j [Hk [Hkj [_ [Hreq [Hups [Hsl [Hdb [_ Hok]]]]]]]]]].
  exists k, j. rewrite Nat2Z.id, map_map.
  split; [exact Hk |]. split; [exact Hkj |]. split; [exact Hreq |].
  split; [exact Hups |]. split; [exact Hsl |]. split; [exact Hdb |].
  exact Hok.
Qed.

(** X17. With [max_retries] 0 or negative the loop body never runs: no
    request is made, and the statement after the loop fails on the
    variable [resp], which was never bound. *)
Theorem get_with_retry_no_attempt (url : string) (max_retries : Z)
    (w : world) :
  max_retries <= 0 ->
  _get_with_retry url max_retries w = (Raise (UnboundLocalError "resp"), w).
Proof.
  intros Hn. unfold _get_with_retry, range.
  replace (Z.to_nat max_retries) with 0%nat by lia. reflexivity.
Qed.

(** X18. A transport failure is not retried: when the first request fails
    to connect, the error is raised at once, after that one request, with
    no wait and nothing logged. *)
Theorem get_with_retry_transport_failure (url : string) (max_retries : Z)
    (w : world) (tail : list http_result) :
  0 < max_retries ->
  upstream w = Fails :: tail ->
  _get_with_retry url max_retries w
  = (Raise ConnectError,
     mkWorld (db_file w) (db_conn w) (clock w) (logs w) tail
             (requested w ++ [url]) (slept w)).
Proof.
  intros Hn Hup. unfold _get_with_retry, range.
  destruct (Z.to_nat max_retries) as [| n] eqn:Hnat; [lia |].
  cbn [seq map _get_with_retry_loop].
  unfold mbind at 1, M_bind, client_get. now rewrite Hup.
Qed.

(** ** More on the arrival times *)


Lemma get_tiempos_parada_cached_run
    (w : world) (codigo : string) (row : tiempos_cache_row)
    (v : tiempos_parada) :
  select_by_pk tc_parada_codigo codigo (tiempos_cache (db_file w))
  = Some row ->
  tc_tiempos_json row = Encoded v ->
  clock w - tc_cached_at row < 60 * 1000000 ->
  get_tiempos_parada codigo false w
  = (Ok v,
     mkWorld (db_file w) None (clock w)
       (logs w ++ [(INFO, "Returning cached tiempos for parada")])
       (upstream w) (requested w) (slept w)).
Proof.
  intros Hsel Hv Hage. unfold get_tiempos_parada.
  cbn [negb]. unfold mbind at 1, M_bind.
  rewrite (get_cached_tiempos_fresh codigo w row v Hsel); [| | exact Hv].
  - reflexivity.
  - unfold timedelta_minutes, CACHE_TTL_MINUTES. lia.
Qed.

(** X19. A fresh, readable cache entry is served without any request: with
    [force_refresh] off, [get_tiempos_parada] returns the cached value,
    contacts nobody, waits for nothing and leaves the store as it is. *)
Theorem get_tiempos_parada_serves_fresh_entry
    (w : world) (codigo : string) (row : tiempos_cache_row)
    (v : tiempos_parada) :
  select_by_pk tc_parada_codigo codigo (tiempos_cache (db_file w))
  = Some row ->
  tc_tiempos_json row = Encoded v ->
  clock w - tc_cached_at row < 60 * 1000000 ->
  let out := get_tiempos_parada codigo false w in
  fst out = Ok v
  /\ requested (snd out) = requested w
  /\ upstream (snd out) = upstream w
  /\ slept (snd out) = slept w
  /\ db_file (snd out) = db_file w.
Proof.
  intros Hsel Hv Hage out. subst out.
  rewrite (get_tiempos_parada_cached_run w codigo row v Hsel Hv Hage).
  repeat split.
Qed.

Lemma get_tiempos_parada_refresh_run (codigo : string) (w : world) :
  let url := (BASE_URL ++ "/API/infotus-ui/tiempos/" ++ codigo)%string in
  let fetched := _get_with_retry url 3 w in
  get_tiempos_parada codigo true w
  = match fetched with
    | (Ok resp, w2) =>
        match body resp with
        | Encoded cuerpo =>
            let v :=
              mkTiemposParada codigo (b_descripcion cuerpo)
                (fmap (fun p => IZR (fst p) / 1000000)%R (b_posicion cuerpo))
                (fmap (fun p => IZR (snd p) / 1000000)%R (b_posicion cuerpo))
                (take 10
                   (sorted t_tiempo_minutos
                      (tiempos_de
                         (agrupar_sentidos
                            (stable_sort linea_sentido_leb
                               (filter (fun r => pl_parada_codigo r = codigo)
                                       (paradas_lineas (db_file w2)))))
                         (b_lineasCoincidentes cuerpo)))) in
            (Ok v,
             mkWorld
               (with_tiempos_cache
                  (insert_or_replace tc_parada_codigo
                     (mkTiemposCacheRow codigo (Encoded v) (clock w2)))
                  (db_file w2))
               None (clock w2) (logs w2) (upstream w2) (requested w2)
               (slept w2))
        | Corrupt _ => (Raise JSONDecodeError, w2)
        end
    | (Raise e, w2) => (Raise e, w2)
    end.
Proof.
  intros url fetched. unfold get_tiempos_parada. cbn [negb].
  unfold mbind at 1, M_bind. unfold mret at 1, M_ret at 1.
  unfold mbind at 1, M_bind. fold url. fold fetched.
  destruct fetched as [[resp | e] w2]; [| reflexivity].
  unfold mbind at 1, M_bind.
  destruct (body resp) as [cuerpo | raw]; [| reflexivity].
  cbn [json_loads]. unfold mret at 1, M_ret at 1.
  unfold mbind at 1, M_bind. rewrite get_sentidos_for_parada_run.
  unfold mbind at 1, M_bind. rewrite save_tiempos_cache_run.
  reflexivity.
Qed.

(** X20. What a refresh returns is what the cache then serves: after
    [get_tiempos_parada] has fetched an answer with [force_refresh] on, a
    call without it less than a minute later returns the same answer and
    makes no request. *)
Theorem get_tiempos_parada_refresh_then_cached
    (w : world) (codigo : string) (v : tiempos_parada) (t : Z) :
  fst (get_tiempos_parada codigo true w) = Ok v ->
  t < 60 * 1000000 ->
  let w1 := snd (get_tiempos_parada codigo true w) in
  let again := get_tiempos_parada codigo false (pasa t w1) in
  fst again = Ok v
  /\ requested (snd again) = requested w1
  /\ slept (snd again) = slept w1.
Proof.
  intros Hv Ht w1 again.
  assert (Hrow : select_by_pk tc_parada_codigo codigo
                   (tiempos_cache (db_file (pasa t w1)))
                 = Some (mkTiemposCacheRow codigo (Encoded v) (clock w1))).
  { subst w1. rewrite get_tiempos_parada_refresh_run in Hv |- *.
    cbv zeta in Hv |- *.
    destruct (_get_with_retry _ 3 w) as [[resp | e] w2]; [| discriminate].
    destruct (body resp) as [cuerpo | raw]; [| discriminate].
    cbn in Hv. injection Hv as <-. cbn.
    apply (select_insert_or_replace_eq tc_parada_codigo
             (mkTiemposCacheRow codigo _ _)). }
  subst again.
  rewrite (get_tiempos_parada_cached_run (pasa t w1) codigo _ v Hrow eq_refl)
    by (cbn; lia).
  repeat split.
Qed.




(** ** The answer of [/cercanas] *)

(** X22. The filters of [/cercanas] keep the order of the arrivals and at
    most five of them. With [tiempo_max] every arrival kept is due in 0 to
    [tiempo_max] minutes; with a non-empty list of lines its line is in
    the list; with a direction it carries that direction, so an arrival
    whose direction is not known is dropped. Before the cut to five, an
    arrival that passes the filters given is kept. An empty list of lines
    filters nothing. *)
Theorem filtrar_tiempos_sound_complete
    (tiempo_max : option Z) (lineas_filtro : option (list string))
    (sentido : option Z) (tiempos : list tiempo) :
  let pasa_filtros t :=
    (forall m, tiempo_max = Some m -> 0 <= t_tiempo_minutos t <= m)
    /\ (forall ls, lineas_filtro = Some ls -> ls <> [] -> t_linea t ∈ ls)
    /\ (forall s, sentido = Some s -> t_sentido t = Some s) in
  let todos := filtrar_tiempos tiempo_max lineas_filtro sentido tiempos in
  (length (take 5 todos) <= 5)%nat
  /\ take 5 todos `sublist_of` tiempos
  /\ (forall t, t ∈ todos <-> t ∈ tiempos /\ pasa_filtros t)
  /\ filtrar_tiempos tiempo_max (Some []) sentido tiempos
     = filtrar_tiempos tiempo_max None sentido tiempos.
Proof.
  intros pasa_filtros todos. split; [| split; [| split]].
  - rewrite length_take. lia.
  - etrans; [apply sublist_take |]. subst todos. unfold filtrar_tiempos.
    destruct sentido as [s |], lineas_filtro as [[| l ls] |],
        tiempo_max as [m |];
      repeat (etrans; [apply sublist_filter |]); reflexivity.
  - intros t. subst todos pasa_filtros. unfold filtrar_tiempos. cbv zeta.
    assert (Hs : forall l : list tiempo,
              t ∈ match sentido with
                  | Some s => filter (fun t => t_sentido t = Some s) l
                  | None => l
                  end
              <-> t ∈ l /\ (forall s, sentido = Some s -> t_sentido t = Some s)).
    { intros l. destruct sentido as [s |].
      - rewrite list_elem_of_filter. split.
        + intros [H1 H2]. split; [exact H2 |]. now intros s' [= <-].
        + intros [H1 H2]. split; [now apply H2 | exact H1].
      - split; [intros H; split; [exact H | discriminate] | now intros [H _]]. }
    assert (Hl : forall l : list tiempo,
              t ∈ match lineas_filtro with
                  | Some ((_ :: _) as ls) => filter (fun t => t_linea t ∈ ls) l
                  | _ => l
                  end
              <-> t ∈ l /\ (forall ls, lineas_filtro = Some ls -> ls <> [] ->
                                       t_linea t ∈ ls)).
    { intros l. destruct lineas_filtro as [[| x ls] |].
      - split; [| now intros [H _]]. intros H. split; [exact H |].
        intros ls [= <-] Hne. now destruct Hne.
      - rewrite list_elem_of_filter. split.
        + intros [H1 H2]. split; [exact H2 |]. now intros ls' [= <-] _.
        + intros [H1 H2]. split; [| exact H1].
          apply (H2 (x :: ls)); [reflexivity | discriminate].
      - split; [intros H; split; [exact H | discriminate] | now intros [H _]]. }
    assert (Hm : forall l : list tiempo,
              t ∈ match tiempo_max with
                  | Some m => filter (fun t => 0 <= t_tiempo_minutos t
                                               /\ t_tiempo_minutos t <= m) l
                  | None => l
                  end
              <-> t ∈ l /\ (forall m, tiempo_max = Some m ->
                                      0 <= t_tiempo_minutos t <= m)).
    { intros l. destruct tiempo_max as [m |].
      - rewrite list_elem_of_filter. split.
        + intros [H1 H2]. split; [exact H2 |]. now intros m' [= <-].
        + intros [H1 H2]. split; [now apply H2 | exact H1].
      - split; [intros H; split; [exact H | discriminate] | now intros [H _]]. }
    rewrite Hs, Hl, Hm. tauto.
  - reflexivity.
Qed.








(** ** Rate limiting *)

Section RateLimit.

Lemma get_key_indep (s1 s2 : RateLimitMiddleware) (req : request) :
  fst (_get_key_and_limit s1 req) = fst (_get_key_and_limit s2 req).
Proof.
  unfold _get_key_and_limit. destruct (x_device_id req) as [d |];
    [| reflexivity].
  destruct (negb (String.eqb d "") && _); reflexivity.
Qed.

Lemma get_limit_indep (s1 s2 : RateLimitMiddleware) (req : request) :
  device_limit s1 = device_limit s2 -> ip_limit s1 = ip_limit s2 ->
  snd (_get_key_and_limit s1 req) = snd (_get_key_and_limit s2 req).
Proof.
  intros Hd Hi. unfold _get_key_and_limit.
  destruct (x_device_id req) as [d |]; [| exact Hi].
  destruct (negb (String.eqb d "") && _); cbn; assumption.
Qed.

Lemma sorted_last_max (b : list R) (t : R) :
  StronglySorted Rle b -> last b = Some t -> forall x, x ∈ b -> (x <= t)%R.
Proof.
  intros Hb Hlast x Hx. apply last_Some in Hlast as [b' ->].
  apply elem_of_app in Hx as [Hx | Hx].
  - induction b' as [| y b' IH]; [inversion Hx |].
    cbn in Hb. apply StronglySorted_inv in Hb as [Hb Hy].
    apply elem_of_cons in Hx as [-> | Hx]; [| now apply IH].
    rewrite Forall_forall in Hy. apply Hy.
    apply elem_of_app. right. left.
  - apply list_elem_of_singleton in Hx. subst x. apply Rle_refl.
Qed.

Lemma stale_recientes (now now' : R) (win : Z) (b : list R) :
  StronglySorted Rle b -> stale now win b = true -> (now <= now')%R ->
  recientes now' win b = [].
Proof.
  intros Hb Hstale Hle. unfold stale in Hstale.
  destruct (last b) as [t |] eqn:Hlast.
  - apply bool_decide_eq_true in Hstale.
    pose proof (sorted_last_max b t Hb Hlast) as Hmax.
    unfold recientes. clear Hlast Hb.
    induction b as [| x b IH]; [reflexivity |].
    rewrite filter_cons.
    assert (Hx : (x <= t)%R) by (apply Hmax; left).
    rewrite decide_False by lra.
    apply IH. intros y Hy. apply Hmax. now right.
  - apply last_None in Hlast. now subst b.
Qed.

Lemma recientes_recientes (now now' : R) (win : Z) (b : list R) :
  (now <= now')%R ->
  recientes now' win (recientes now win b) = recientes now' win b.
Proof.
  intros Hle. unfold recientes. induction b as [| x b IH]; [reflexivity |].
  rewrite !filter_cons.
  destruct (decide (now - x < IZR win)%R) as [H1 | H1].
  - rewrite filter_cons. now rewrite IH.
  - rewrite IH. rewrite decide_False by lra. reflexivity.
Qed.

Lemma StronglySorted_snoc {A : Type} (R : A -> A -> Prop) (l : list A)
    (a : A) :
  StronglySorted R l -> Forall (fun x => R x a) l ->
  StronglySorted R (l ++ [a]).
Proof.
  induction 1 as [| x l Hl IH Hx]; intros Ha; cbn.
  - repeat constructor.
  - apply Forall_cons in Ha as [Hxa Ha]. constructor; [now apply IH |].
    apply Forall_app. split; [exact Hx |]. now constructor.
Qed.

(** What [dispatch] does, with the periodic cleaning set apart: the buckets
    it deletes are stale ones. *)
Lemma dispatch_spec (self : RateLimitMiddleware) (req : request) (now : R) :
  exists cleaned,
    device_limit cleaned = device_limit self
    /\ ip_limit cleaned = ip_limit self
    /\ window cleaned = window self
    /\ (forall k,
          bucket_of (buckets cleaned) k = bucket_of (buckets self) k
          \/ (bucket_of (buckets cleaned) k = []
              /\ stale now (window self) (bucket_of (buckets self) k) = true))
    /\ dispatch self req now
       = let key := fst (_get_key_and_limit self req) in
         let limit := snd (_get_key_and_limit self req) in
         let bucket :=
           recientes now (window self) (bucket_of (buckets cleaned) key) in
         if limit <=? Z.of_nat (length bucket)
         then (JSONResponse_429 limit,
               mkRateLimitMiddleware (device_limit self) (ip_limit self)
                 (window self) (<[key := bucket]> (buckets cleaned))
                 (last_cleanup cleaned))
         else (call_next,
               mkRateLimitMiddleware (device_limit self) (ip_limit self)
                 (window self) (<[key := bucket ++ [now]]> (buckets cleaned))
                 (last_cleanup cleaned)).
Proof.
  unfold dispatch.
  destruct (bool_decide (now - last_cleanup self > 300)%R
            || (MAX_BUCKETS <? Z.of_nat (size (buckets self)))).
  - eexists (mkRateLimitMiddleware _ _ _ _ _).
    cbn [device_limit ip_limit window buckets last_cleanup].
    split; [reflexivity |]. split; [reflexivity |]. split; [reflexivity |].
    split; [| reflexivity].
    intros k. unfold bucket_of.
    destruct (buckets self !! k) as [b |] eqn:Hk.
    + destruct (stale now (window self) b) eqn:Hb.
      * right. split; [| reflexivity].
        rewrite (map_lookup_filter_None_2 _ (buckets self) k); [reflexivity |].
        right. intros x Hx. cbn. congruence.
      * left.
        rewrite (map_lookup_filter_Some_2 _ (buckets self) k b);
          [reflexivity | exact Hk | exact Hb].
    + left.
      rewrite (map_lookup_filter_None_2 _ (buckets self) k); [reflexivity |].
      now left.
  - exists self. repeat split; auto.
Qed.

Lemma admitidas_snoc (self0 : RateLimitMiddleware) (key : string)
    (hist : list (request * R * dispatch_answer)) (req : request) (now : R)
    (ans : dispatch_answer) :
  admitidas self0 key (hist ++ [(req, now, ans)])
  = admitidas self0 key hist
    ++ (if decide (fst (_get_key_and_limit self0 req) = key
                   /\ ans = call_next)
        then [now] else []).
Proof.
  unfold admitidas. rewrite filter_app, map_app. f_equal.
  rewrite filter_cons, filter_nil. cbn [fst snd].
  now case_decide.
Qed.

(** One request keeps the state coherent, and is let through exactly when
    fewer than [limit] requests of its key were let through during the
    last [window] seconds. *)
Lemma dispatch_coherente (self0 self : RateLimitMiddleware)
    (hist : list (request * R * dispatch_answer)) (req : request) (now : R) :
  coherente self0 self hist ->
  Forall (fun h => (snd (fst h) <= now)%R) hist ->
  let key := fst (_get_key_and_limit self0 req) in
  let limit := snd (_get_key_and_limit self0 req) in
  let ans := fst (dispatch self req now) in
  ans = (if limit <=? Z.of_nat (length (recientes now (window self0)
                                          (admitidas self0 key hist)))
         then JSONResponse_429 limit else call_next)
  /\ coherente self0 (snd (dispatch self req now))
               (hist ++ [(req, now, ans)]).
Proof.
  intros [Hdl [Hil [Hwin Hbuckets]]] Hpast key limit ans.
  destruct (dispatch_spec self req now)
    as [cleaned [Hcd [Hci [Hcw [Hclean Hrun]]]]].
  assert (Hkey : fst (_get_key_and_limit self req) = key)
    by apply get_key_indep.
  assert (Hlimit : snd (_get_key_and_limit self req) = limit)
    by now apply get_limit_indep.
  rewrite Hkey, Hlimit, Hwin in Hrun. cbv zeta in Hrun.
  rewrite Hwin in Hclean.
  assert (Hc : forall k,
            StronglySorted Rle (bucket_of (buckets cleaned) k)
            /\ (forall t, t ∈ bucket_of (buckets cleaned) k ->
                          t ∈ map (fun h => snd (fst h)) hist)
            /\ (forall now', (now <= now')%R ->
                  Forall (fun h => (snd (fst h) <= now')%R) hist ->
                  recientes now' (window self0) (bucket_of (buckets cleaned) k)
                  = recientes now' (window self0) (admitidas self0 k hist))).
  { intros k. destruct (Hbuckets k) as [Hs [Hin Hrec]].
    destruct (Hclean k) as [-> | [-> Hstale]].
    - split; [exact Hs |]. split; [exact Hin |]. intros now' _. apply Hrec.
    - split; [constructor |]. split; [intros t Ht; inversion Ht |].
      intros now' Hle Hall. rewrite <- Hrec by exact Hall.
      now rewrite (stale_recientes now now' _ _ Hs Hstale Hle). }
  destruct (Hc key) as [Hs [Hin Hrec]].
  assert (Hnow : recientes now (window self0) (bucket_of (buckets cleaned) key)
                 = recientes now (window self0) (admitidas self0 key hist))
    by (apply Hrec; [apply Rle_refl | exact Hpast]).
  rewrite Hnow in Hrun.
  assert (Hle_now : forall t, t ∈ map (fun h => snd (fst h)) hist ->
                              (t <= now)%R).
  { intros t Ht. apply list_elem_of_fmap in Ht as [h [-> Hh]].
    rewrite Forall_forall in Hpast. now apply Hpast. }
  set (n := recientes now (window self0) (admitidas self0 key hist)) in *.
  assert (Hans : ans = if limit <=? Z.of_nat (length n)
                       then JSONResponse_429 limit else call_next).
  { subst ans. rewrite Hrun. now destruct (limit <=? Z.of_nat (length n)). }
  split; [exact Hans |].
  assert (Hstate :
    exists bucket',
      buckets (snd (dispatch self req now))
      = <[key := bucket']> (buckets cleaned)
      /\ bucket' = n ++ (if decide (key = key /\ ans = call_next)
                         then [now] else [])
      /\ device_limit (snd (dispatch self req now)) = device_limit self0
      /\ ip_limit (snd (dispatch self req now)) = ip_limit self0
      /\ window (snd (dispatch self req now)) = window self0).
  { rewrite Hans, Hrun.
    destruct (limit <=? Z.of_nat (length n)); cbn.
    - exists n. rewrite decide_False by (intros [_ H]; discriminate H).
      rewrite app_nil_r. auto.
    - exists (n ++ [now]). rewrite decide_True by auto. auto. }
  destruct Hstate as [bucket' [Hb' [Hbucket' [Hd' [Hi' Hw']]]]].
  split; [exact Hd' |]. split; [exact Hi' |]. split; [exact Hw' |].
  intros k. rewrite Hb'. unfold bucket_of at 1 2 3.
  destruct (decide (k = key)) as [-> | Hk].
  - rewrite lookup_insert_eq. rewrite admitidas_snoc. fold key.
    rewrite Hbucket'.
    assert (Hn_in : forall t, t ∈ n ->
                              t ∈ map (fun h => snd (fst h)) hist).
    { intros t Ht. subst n. rewrite <- Hnow in Ht.
      apply list_elem_of_filter in Ht as [_ Ht]. now apply Hin. }
    split; [| split].
    + case_decide.
      * apply StronglySorted_snoc.
        -- subst n. rewrite <- Hnow. now apply StronglySorted_filter_list.
        -- apply Forall_forall. intros t Ht.
           apply Hle_now. now apply Hn_in.
      * rewrite app_nil_r. subst n. rewrite <- Hnow.
        now apply StronglySorted_filter_list.
    + intros t Ht. rewrite map_app, elem_of_app. cbn.
      apply elem_of_app in Ht as [Ht | Ht]; [left; now apply Hn_in |].
      case_decide; [| inversion Ht]. right. exact Ht.
    + intros now' Hall. apply Forall_app in Hall as [Hall Hlast].
      apply Forall_cons in Hlast as [Hlast _]. cbn in Hlast.
      unfold recientes at 1 2. rewrite !filter_app. f_equal.
      subst n. apply (recientes_recientes now now' _ _ Hlast).
  - rewrite lookup_insert_ne by congruence.
    fold (bucket_of (buckets cleaned) k).
    destruct (Hc k) as [Hsk [Hink Hreck]].
    split; [exact Hsk |]. split.
    + intros t Ht. rewrite map_app, elem_of_app. left. now apply Hink.
    + intros now' Hall. apply Forall_app in Hall as [Hall Hlast].
      apply Forall_cons in Hlast as [Hlast _]. cbn in Hlast.
      rewrite admitidas_snoc. fold key.
      rewrite decide_False by (intros [H _]; congruence).
      rewrite app_nil_r. now apply Hreck.
Qed.

Lemma atender_snoc (self0 : RateLimitMiddleware)
    (pre : list (request * R)) (req : request) (now : R) :
  atender self0 (pre ++ [(req, now)])
  = (fst (atender self0 pre)
     ++ [(req, now, fst (dispatch (snd (atender self0 pre)) req now))],
     snd (dispatch (snd (atender self0 pre)) req now)).
Proof. unfold atender. rewrite foldl_snoc. reflexivity. Qed.

Lemma sorted_snoc_bound (ts : list R) (now : R) :
  StronglySorted Rle (ts ++ [now]) ->
  StronglySorted Rle ts /\ Forall (fun t => (t <= now)%R) ts.
Proof.
  induction ts as [| t ts IH]; cbn; intros Hs; [split; constructor |].
  apply StronglySorted_inv in Hs as [Hs Ht].
  destruct (IH Hs) as [Hs' Hall]. split.
  - constructor; [exact Hs' |]. apply Forall_app in Ht as [Ht _]. exact Ht.
  - constructor; [| exact Hall]. apply Forall_app in Ht as [_ Ht].
    now apply Forall_cons in Ht as [Ht _].
Qed.

Lemma atender_coherente (device_limit ip_limit window : Z) (t0 : R)
    (peticiones : list (request * R)) :
  StronglySorted Rle (map snd peticiones) ->
  let self0 := RateLimitMiddleware_init device_limit ip_limit window t0 in
  coherente self0 (snd (atender self0 peticiones))
            (fst (atender self0 peticiones))
  /\ map (fun h => snd (fst h)) (fst (atender self0 peticiones))
     = map snd peticiones.
Proof.
  intros Hs self0. induction peticiones as [| [req now] pre IH] using rev_ind.
  - cbn. split; [| reflexivity]. repeat split; try constructor.
    intros t Ht. inversion Ht.
  - rewrite map_app in Hs. cbn in Hs.
    apply sorted_snoc_bound in Hs as [Hs Hall].
    destruct (IH Hs) as [Hco Htimes]. rewrite atender_snoc. cbn [fst snd].
    split.
    + apply dispatch_coherente; [exact Hco |].
      apply Forall_forall. intros h Hh.
      rewrite Forall_forall in Hall. apply Hall.
      rewrite <- Htimes. apply list_elem_of_fmap. eauto.
    + rewrite !map_app, Htimes. reflexivity.
Qed.

End RateLimit.

(** X24. The rate limiter counts exactly the requests it let through.
    Started empty and given requests whose times never go back, the
    middleware lets a request through if and only if fewer than its limit
    (the limit of devices or that of addresses, as its key says) of the
    earlier requests with the same key were let through less than
    [window] seconds before it. Rejected requests do not count, and the
    periodic deletion of stale buckets changes no answer. *)
Theorem rate_limit_counts_admitted_in_window
    (device_limit ip_limit window : Z) (t0 : R)
    (anteriores : list (request * R)) (req : request) (now : R) :
  StronglySorted Rle (map snd anteriores ++ [now]) ->
  let self0 := RateLimitMiddleware_init device_limit ip_limit window t0 in
  let historial := fst (atender self0 anteriores) in
  let self := snd (atender self0 anteriores) in
  let key := fst (_get_key_and_limit self0 req) in
  let limit := snd (_get_key_and_limit self0 req) in
  fst (dispatch self req now)
  = if limit <=? Z.of_nat (length (recientes now window
                                     (admitidas self0 key historial)))
    then JSONResponse_429 limit else call_next.
Proof.
  intros Hs self0 historial self key limit.
  apply sorted_snoc_bound in Hs as [Hs Hall].
  destruct (atender_coherente device_limit ip_limit window t0 anteriores Hs)
    as [Hco Htimes].
  apply (dispatch_coherente self0 self historial req now Hco).
  apply Forall_forall. intros h Hh.
  rewrite Forall_forall in Hall. apply Hall.
  fold self0 in Htimes. fold historial in Htimes.
  rewrite <- Htimes. apply list_elem_of_fmap. eauto.
Qed.

(** ** The synchronisation *)

Section SyncStops.

Lemma recoger_nodo_cases (todas : list (string * parada_dict)) (n : nodo) :
  recoger_nodo todas n
  = if decide (nodo_valido n /\ n_codigo n ∉ map fst todas)
    then todas ++ [(n_codigo n, dict_de_nodo n)]
    else todas.
Proof.
  unfold recoger_nodo, nodo_valido, dict_de_nodo. cbv zeta.
  assert (Hz : forall z : Z, (IZR z / 1000000)%R <> 0%R <-> z <> 0).
  { intros z. split.
    - intros H ->. apply H. unfold Rdiv. apply Rmult_0_l.
    - intros H Hq. apply H. apply eq_IZR.
      replace (IZR z) with (IZR z / 1000000 * 1000000)%R by (field; lra).
      rewrite Hq. simpl. lra. }
  case_bool_decide as Hc.
  - rewrite decide_False; [reflexivity |]. tauto.
  - case_bool_decide as Hv.
    + rewrite decide_True; [reflexivity |]. rewrite !Hz in Hv. tauto.
    + rewrite decide_False; [reflexivity |]. rewrite !Hz in Hv. tauto.
Qed.

Lemma todas_paradas_de_flat (respuestas : list (list nodo)) :
  todas_paradas_de respuestas = foldl recoger_nodo [] (mjoin respuestas).
Proof.
  unfold todas_paradas_de. generalize (@nil (string * parada_dict)).
  induction respuestas as [| nodos rs IH]; intros acc; [reflexivity |].
  cbn [foldl mjoin list_join]. rewrite foldl_app. apply IH.
Qed.

Lemma primer_nodo_snoc (k : string) (nodos : list nodo) (n : nodo) :
  primer_nodo k (nodos ++ [n])
  = match primer_nodo k nodos with
    | Some m => Some m
    | None => if decide (nodo_valido n /\ n_codigo n = k) then Some n
              else None
    end.
Proof.
  unfold primer_nodo. rewrite filter_app.
  destruct (filter _ nodos) as [| m ms]; [| reflexivity].
  cbn [app]. rewrite filter_cons, filter_nil. now case_decide.
Qed.

Lemma recoger_nodos_spec (nodos : list nodo) :
  let todas := foldl recoger_nodo [] nodos in
  NoDup (map fst todas)
  /\ (forall k p,
        (k, p) ∈ todas
        <-> exists n, primer_nodo k nodos = Some n /\ p = dict_de_nodo n).
Proof.
  induction nodos as [| n nodos IH] using rev_ind.
  - cbn. split; [constructor |]. intros k p. split; [inversion 1 |].
    intros [n [Hn _]]. discriminate Hn.
  - cbv zeta in *. destruct IH as [Hnd Hin]. rewrite foldl_snoc.
    set (todas := foldl recoger_nodo [] nodos) in *.
    assert (Hkeys : forall k, k ∈ map fst todas
                              <-> is_Some (primer_nodo k nodos)).
    { intros k. rewrite list_elem_of_fmap. split.
      - intros [[k' p] [-> Hp]]. apply Hin in Hp as [m [Hm _]]. cbn. eauto.
      - intros [m Hm]. exists (k, dict_de_nodo m). split; [reflexivity |].
        apply Hin. eauto. }
    rewrite recoger_nodo_cases.
    destruct (decide (nodo_valido n /\ n_codigo n ∉ map fst todas))
      as [[Hv Hfresh] | Hno].
    + split.
      * rewrite map_app. apply NoDup_app. split; [exact Hnd |].
        split; [| apply NoDup_singleton].
        intros k Hk Hk'. cbn in Hk'. apply list_elem_of_singleton in Hk'.
        now subst k.
      * assert (Hnone : primer_nodo (n_codigo n) nodos = None).
        { destruct (primer_nodo (n_codigo n) nodos) eqn:Hp; [| reflexivity].
          exfalso. apply Hfresh, Hkeys. eauto. }
        intros k p. rewrite elem_of_app, list_elem_of_singleton.
        rewrite primer_nodo_snoc. split.
        -- intros [Hp | [= -> ->]].
           ++ apply Hin in Hp as [m [Hm ->]]. rewrite Hm. eauto.
           ++ rewrite Hnone. rewrite decide_True by auto. eauto.
        -- intros [m [Hm ->]].
           destruct (primer_nodo k nodos) as [m' |] eqn:Hp.
           ++ injection Hm as ->. left. apply Hin. eauto.
           ++ case_decide as Hk; [| discriminate].
              injection Hm as ->. destruct Hk as [_ <-]. now right.
    + split; [exact Hnd |]. intros k p. rewrite Hin, primer_nodo_snoc.
      destruct (primer_nodo k nodos) as [m' |] eqn:Hp; [reflexivity |].
      case_decide as Hk; [| reflexivity]. exfalso.
      destruct Hk as [Hv <-]. apply Hno. split; [exact Hv |].
      rewrite Hkeys, Hp. now intros [? ?].
Qed.

(** X25. What a synchronisation of the stops collects from node lists:
    one stop for each code that some node with a code and two non-zero
    coordinates carries, made from the first such node of that code; no
    code twice; no street and no number in any of them. Nodes without a
    code, or with a coordinate equal to 0, add nothing. *)
Theorem todas_paradas_de_first_valid_node (respuestas : list (list nodo)) :
  let todas := todas_paradas_de respuestas in
  NoDup (map fst todas)
  /\ (forall k p,
        (k, p) ∈ todas
        <-> exists n, primer_nodo k (mjoin respuestas) = Some n
                      /\ p = dict_de_nodo n)
  /\ Forall (fun kp => d_codigo (snd kp) = fst kp /\ fst kp <> ""
                       /\ d_calle (snd kp) = None
                       /\ d_numero (snd kp) = None
                       /\ d_latitud (snd kp) <> 0%R
                       /\ d_longitud (snd kp) <> 0%R) todas.
Proof.
  intros todas. subst todas. rewrite todas_paradas_de_flat.
  destruct (recoger_nodos_spec (mjoin respuestas)) as [Hnd Hin].
  split; [exact Hnd |]. split; [exact Hin |].
  apply Forall_forall. intros [k p] Hkp. apply Hin in Hkp as [n [Hn ->]].
  unfold primer_nodo in Hn. apply head_Some_elem_of in Hn.
  apply list_elem_of_filter in Hn as [[[Hc [Hlat Hlon]] Hk] _].
  cbn. subst k. repeat split; auto.
  - intros Hq. apply Hlat. apply eq_IZR.
    replace (IZR (n_latitudE6 n))
      with (IZR (n_latitudE6 n) / 1000000 * 1000000)%R by (field; lra).
    rewrite Hq. simpl. lra.
  - intros Hq. apply Hlon. apply eq_IZR.
    replace (IZR (n_longitudE6 n))
      with (IZR (n_longitudE6 n) / 1000000 * 1000000)%R by (field; lra).
    rewrite Hq. simpl. lra.
Qed.



End SyncStops.

Section SyncMemberships.

Lemma relaciones_de_nodos_elem_of (label : string) (sentido : Z)
    (nodos : list nodo) (r : relacion_dict) :
  r ∈ relaciones_de_nodos label sentido nodos
  <-> exists i n,
        nodos !! i = Some n /\ n_codigo n <> ""
        /\ r = mkRelacionDict (Some (n_codigo n)) (Some label) (Some sentido)
                              (Some (Z.of_nat i)).
Proof.
  unfold relaciones_de_nodos. rewrite list_elem_of_join. split.
  - intros [l [Hr Hl]]. apply elem_of_lookup_imap in Hl as [i [n [-> Hn]]].
    cbv zeta in Hr. case_bool_decide as Hc; [inversion Hr |].
    apply list_elem_of_singleton in Hr. eauto.
  - intros [i [n [Hn [Hc ->]]]]. eexists. split.
    + apply list_elem_of_singleton. reflexivity.
    + apply elem_of_lookup_imap. exists i, n. split; [| exact Hn].
      cbv zeta. now rewrite bool_decide_false by exact Hc.
Qed.

Lemma relaciones_de_elem_of (respuestas : list (string * Z * list nodo))
    (r : relacion_dict) :
  r ∈ relaciones_de respuestas
  <-> exists label sentido nodos i n,
        (label, sentido, nodos) ∈ respuestas
        /\ nodos !! i = Some n /\ n_codigo n <> ""
        /\ r = mkRelacionDict (Some (n_codigo n)) (Some label) (Some sentido)
                              (Some (Z.of_nat i)).
Proof.
  unfold relaciones_de. rewrite list_elem_of_In, in_flat_map. split.
  - intros [[[label sentido] nodos] [Hin Hr]].
    apply list_elem_of_In in Hin, Hr. cbn in Hr.
    apply relaciones_de_nodos_elem_of in Hr as [i [n Hr]].
    exists label, sentido, nodos, i, n. tauto.
  - intros [label [sentido [nodos [i [n [Hin Hr]]]]]].
    exists (label, sentido, nodos). rewrite <- !list_elem_of_In.
    split; [exact Hin |]. cbn. apply relaciones_de_nodos_elem_of. eauto.
Qed.

Lemma save_paradas_lineas_batch_ok_run (relaciones : list relacion_dict)
    (filas : list parada_linea) (w : world) :
  relaciones <> [] ->
  mapM fila_de relaciones = Some filas ->
  save_paradas_lineas_batch relaciones w
  = (Ok tt,
     mkWorld (with_paradas_lineas (fun _ => insertar_filas filas [])
                                  (db_file w))
             None (clock w) (logs w) (upstream w) (requested w) (slept w)).
Proof.
  intros Hne Hfilas. destruct relaciones as [| r0 rel]; [congruence |].
  set (rels := r0 :: rel) in *.
  pose proof (for_each_insertar_run rels
                (set_conn (Some (with_paradas_lineas (fun _ => [])
                                   (db_file w))) w)
                (with_paradas_lineas (fun _ => []) (db_file w)) eq_refl)
    as Hloop.
  rewrite Hfilas in Hloop.
  subst rels. unfold save_paradas_lineas_batch. run_step.
  unfold set_conn in Hloop. cbn [db_file db_conn clock logs upstream
                                 requested slept] in Hloop.
  rewrite Hloop. destruct w as [[ps pls tc dc] conn ck lg up rq sl].
  reflexivity.
Qed.

(** X27. The memberships a synchronisation builds always carry their four
    keys, so saving them never fails. When no node with a code was
    received, the membership table stays as it was. Otherwise the table is
    rebuilt: each of its rows is a node of a received list, with the label
    and the direction of that list and the position of the node in it;
    every node with a code has a row for its stop, line and direction;
    and no key is stored twice. The stops are not changed. *)
Theorem sync_paradas_lineas_guardar_rebuilds
    (respuestas : list (string * Z * list nodo)) (w : world) :
  let relaciones := relaciones_de respuestas in
  let out := sync_paradas_lineas_guardar respuestas w in
  let t' := paradas_lineas (db_file (snd out)) in
  fst out = Ok (Z.of_nat (length relaciones))
  /\ paradas (db_file (snd out)) = paradas (db_file w)
  /\ (relaciones = [] -> db_file (snd out) = db_file w)
  /\ (relaciones <> [] ->
      NoDup (map pl_key t')
      /\ (forall x, x ∈ t' ->
            exists nodos n,
              (pl_linea_numero x, pl_sentido x, nodos) ∈ respuestas
              /\ 0 <= pl_orden x
              /\ nodos !! Z.to_nat (pl_orden x) = Some n
              /\ n_codigo n = pl_parada_codigo x
              /\ pl_parada_codigo x <> "")
      /\ (forall label sentido nodos n,
            (label, sentido, nodos) ∈ respuestas -> n ∈ nodos ->
            n_codigo n <> "" ->
            exists x, x ∈ t' /\ pl_key x = (n_codigo n, label, sentido))).
Proof.
  intros relaciones out t'.
  assert (Hkeys : Forall (is_Some ∘ fila_de) relaciones).
  { apply Forall_forall. intros r Hr.
    apply relaciones_de_elem_of in Hr
      as [label [sentido [nodos [i [n [_ [_ [_ ->]]]]]]]].
    cbn. eauto. }
  apply mapM_is_Some_2 in Hkeys as [filas Hfilas].
  destruct (decide (relaciones = [])) as [Hnil | Hne].
  - assert (Hout : out
                   = (Ok 0,
                      mkWorld (db_file w) (db_conn w) (clock w)
                        (logs w
                         ++ [(WARNING,
                              "save_paradas_lineas_batch llamado con lista vacía, no se borra nada");
                             (INFO, "Synced %d parada-linea relations")])
                        (upstream w) (requested w) (slept w))).
    { subst out. unfold sync_paradas_lineas_guardar. cbv zeta.
      fold relaciones. rewrite Hnil. cbn [save_paradas_lineas_batch length].
      unfold mbind, M_bind, log, mret, M_ret. cbn.
      now rewrite <- app_assoc. }
    subst t'. rewrite Hout, Hnil. cbn.
    split; [reflexivity |]. split; [reflexivity |]. split; [reflexivity |].
    intros H. now destruct H.
  - assert (Hout : out
                   = (Ok (Z.of_nat (length relaciones)),
                      mkWorld
                        (with_paradas_lineas
                           (fun _ => insertar_filas filas []) (db_file w))
                        None (clock w)
                        (logs w ++ [(INFO, "Synced %d parada-linea relations")])
                        (upstream w) (requested w) (slept w))).
    { subst out. unfold sync_paradas_lineas_guardar. cbv zeta.
      fold relaciones. unfold mbind at 1, M_bind.
      now rewrite (save_paradas_lineas_batch_ok_run relaciones filas w Hne
                     Hfilas). }
    subst t'. rewrite Hout. cbn.
    split; [reflexivity |]. split; [reflexivity |].
    split; [intros H; contradiction |]. intros _.
    apply mapM_Some in Hfilas.
    split; [| split].
    + apply insertar_filas_NoDup. constructor.
    + intros x Hx. apply insertar_filas_elem_of in Hx as [Hx | Hx];
        [inversion Hx |].
      apply list_elem_of_lookup in Hx as [j Hj].
      destruct (Forall2_lookup_r _ _ _ _ _ Hfilas Hj) as [r [Hr Hrx]].
      apply list_elem_of_lookup_2, relaciones_de_elem_of in Hr
        as [label [sentido [nodos [i [n [Hin [Hn [Hc ->]]]]]]]].
      cbn in Hrx. injection Hrx as <-. cbn.
      exists nodos, n. rewrite Nat2Z.id.
      split; [exact Hin |]. split; [lia |]. auto.
    + intros label sentido nodos n Hin Hn Hc.
      apply list_elem_of_lookup in Hn as [i Hn].
      assert (Hr : mkRelacionDict (Some (n_codigo n)) (Some label)
                     (Some sentido) (Some (Z.of_nat i)) ∈ relaciones).
      { apply relaciones_de_elem_of. exists label, sentido, nodos, i, n.
        auto. }
      apply list_elem_of_lookup in Hr as [j Hj].
      destruct (Forall2_lookup_l _ _ _ _ _ Hfilas Hj) as [x [Hx Hrx]].
      cbn in Hrx. injection Hrx as <-.
      apply list_elem_of_lookup_2 in Hx.
      destruct (insertar_filas_has_key filas [] _ Hx) as [x' [Hx' Hk]].
      exists x'. split; [exact Hx' |]. rewrite Hk. reflexivity.
Qed.

End SyncMemberships.

(** ** The weekly job *)

Lemma bind_Ok {A B : Type} (m : M A) (k : A -> M B) (w w' : world) (a : A) :
  m w = (Ok a, w') -> (m ≫= k) w = k a w'.
Proof. intros H. unfold mbind, M_bind. now rewrite H. Qed.

Lemma bind_Raise {A B : Type} (m : M A) (k : A -> M B) (w w' : world)
    (e : exn) :
  m w = (Raise e, w') -> (m ≫= k) w = (Raise e, w').
Proof. intros H. unfold mbind, M_bind. now rewrite H. Qed.

Lemma cancelado_dec {A : Type} (m : M A) (w : world) :
  cancelado m w \/ ~ cancelado m w.
Proof.
  unfold cancelado. destruct (m w) as [[x | e] w']; cbn [fst].
  - right. discriminate.
  - destruct e; (now left) || (right; discriminate).
Qed.

Lemma paso_run {A : Type} (m : M A) (ok err : string) (w : world) :
  (~ cancelado m w ->
   try_except (x ← m; log INFO ok) (fun _ => log ERROR err) w
   = (Ok tt, tras_paso m ok err w))
  /\ (cancelado m w ->
      try_except (x ← m; log INFO ok) (fun _ => log ERROR err) w
      = (Raise CancelledError, snd (m w))).
Proof.
  unfold cancelado, tras_paso, try_except, mbind, M_bind.
  destruct (m w) as [[x | e] w']; cbn [fst snd].
  - split; [reflexivity | discriminate].
  - destruct e; split; intros H; try reflexivity; try discriminate H;
      now destruct H.
Qed.

(** X28. The weekly job never raises an [Exception], whatever its four
    steps do; only what is not an [Exception], as a cancellation, passes
    through it. When the synchronisation of the stops fails with an
    [Exception], the job stops there: the three other steps are not run
    and the abort is logged. When it succeeds, the three other steps are
    each run once, in their order, each from the world the one before has
    left, whether the one before succeeded or failed; the outcome of each
    is logged, and the job ends by logging its completion. *)
Theorem run_weekly_sync_never_raises
    (sync_paradas sync_lineas sync_relaciones : M Z)
    (sync_direcciones : M (Z * Z * Z)) (w : world) :
  let out := _run_weekly_sync sync_paradas sync_lineas sync_relaciones
                              sync_direcciones w in
  let w0 := snd (log INFO "Iniciando sincronización semanal programada..." w) in
  (forall e, fst out = Raise e -> e = CancelledError)
  /\ (forall e w1,
        sync_paradas w0 = (Raise e, w1) -> is_Exception e = true ->
        out
        = (Ok tt,
           snd (log ERROR "Error syncing paradas — abortando sync semanal"
                    w1)))
  /\ (forall w1,
        sync_paradas w0 = (Raise CancelledError, w1) ->
        out = (Raise CancelledError, w1))
  /\ (forall n w1,
        sync_paradas w0 = (Ok n, w1) ->
        let w1' := snd (log INFO "Sync paradas OK: %d" w1) in
        let w2 := tras_paso sync_lineas "Sync líneas OK: %d"
                    "Error syncing líneas — continuando con relaciones" w1' in
        let w3 := tras_paso sync_relaciones "Sync relaciones OK: %d"
                    "Error syncing relaciones parada-línea" w2 in
        let w4 := tras_paso sync_direcciones
                    "Geocodificación OK: %d total, %d ok, %d errores"
                    "Error en geocodificación: %s" w3 in
        (~ cancelado sync_lineas w1' -> ~ cancelado sync_relaciones w2 ->
         ~ cancelado sync_direcciones w3 ->
         out
         = (Ok tt, snd (log INFO "Sincronización semanal completada." w4)))
        /\ (cancelado sync_lineas w1' ->
            out = (Raise CancelledError, snd (sync_lineas w1')))
        /\ (~ cancelado sync_lineas w1' -> cancelado sync_relaciones w2 ->
            out = (Raise CancelledError, snd (sync_relaciones w2)))
        /\ (~ cancelado sync_lineas w1' -> ~ cancelado sync_relaciones w2 ->
            cancelado sync_direcciones w3 ->
            out = (Raise CancelledError, snd (sync_direcciones w3)))).
Proof.
  intros out w0.
  assert (Hstart : out
            = match sync_paradas w0 with
              | (Ok n, w1) =>
                  (try_except
                     (x ← sync_lineas; log INFO "Sync líneas OK: %d")
                     (fun _ =>
                        log ERROR
                          "Error syncing líneas — continuando con relaciones") ;;
                   try_except
                     (x ← sync_relaciones; log INFO "Sync relaciones OK: %d")
                     (fun _ =>
                        log ERROR "Error syncing relaciones parada-línea") ;;
                   try_except
                     (x ← sync_direcciones;
                      log INFO
                        "Geocodificación OK: %d total, %d ok, %d errores")
                     (fun _ => log ERROR "Error en geocodificación: %s") ;;
                   log INFO "Sincronización semanal completada.")
                    (snd (log INFO "Sync paradas OK: %d" w1))
              | (Raise e, w1) =>
                  if is_Exception e
                  then (Ok tt,
                        snd (log ERROR
                               "Error syncing paradas — abortando sync semanal"
                               w1))
                  else (Raise e, w1)
              end).
  { subst out. unfold _run_weekly_sync.
    unfold mbind at 1, M_bind. fold w0.
    change (log INFO "Iniciando sincronización semanal programada..." w)
      with (Ok tt, w0). cbv iota beta.
    unfold mbind at 1, M_bind. unfold try_except at 1.
    unfold mbind at 1, M_bind.
    destruct (sync_paradas w0) as [[n | e] w1]; [reflexivity |].
    destruct e; reflexivity. }
  assert (Hrest : forall w1',
    let w2 := tras_paso sync_lineas "Sync líneas OK: %d"
                "Error syncing líneas — continuando con relaciones" w1' in
    let w3 := tras_paso sync_relaciones "Sync relaciones OK: %d"
                "Error syncing relaciones parada-línea" w2 in
    let w4 := tras_paso sync_direcciones
                "Geocodificación OK: %d total, %d ok, %d errores"
                "Error en geocodificación: %s" w3 in
    let rest :=
      (try_except
         (x ← sync_lineas; log INFO "Sync líneas OK: %d")
         (fun _ =>
            log ERROR "Error syncing líneas — continuando con relaciones") ;;
       try_except
         (x ← sync_relaciones; log INFO "Sync relaciones OK: %d")
         (fun _ => log ERROR "Error syncing relaciones parada-línea") ;;
       try_except
         (x ← sync_direcciones;
          log INFO "Geocodificación OK: %d total, %d ok, %d errores")
         (fun _ => log ERROR "Error en geocodificación: %s") ;;
       log INFO "Sincronización semanal completada.") w1' in
    (~ cancelado sync_lineas w1' -> ~ cancelado sync_relaciones w2 ->
     ~ cancelado sync_direcciones w3 ->
     rest = (Ok tt, snd (log INFO "Sincronización semanal completada." w4)))
    /\ (cancelado sync_lineas w1' ->
        rest = (Raise CancelledError, snd (sync_lineas w1')))
    /\ (~ cancelado sync_lineas w1' -> cancelado sync_relaciones w2 ->
        rest = (Raise CancelledError, snd (sync_relaciones w2)))
    /\ (~ cancelado sync_lineas w1' -> ~ cancelado sync_relaciones w2 ->
        cancelado sync_direcciones w3 ->
        rest = (Raise CancelledError, snd (sync_direcciones w3)))).
  { intros w1' w2 w3 w4 rest. subst rest.
    destruct (paso_run sync_lineas "Sync líneas OK: %d"
                "Error syncing líneas — continuando con relaciones" w1')
      as [H2ok H2no].
    destruct (paso_run sync_relaciones "Sync relaciones OK: %d"
                "Error syncing relaciones parada-línea" w2) as [H3ok H3no].
    destruct (paso_run sync_direcciones
                "Geocodificación OK: %d total, %d ok, %d errores"
                "Error en geocodificación: %s" w3) as [H4ok H4no].
    fold w2 in H2ok. fold w3 in H3ok. fold w4 in H4ok.
    split; [| split; [| split]].
    - intros C2 C3 C4. rewrite (bind_Ok _ _ _ _ _ (H2ok C2)).
      rewrite (bind_Ok _ _ _ _ _ (H3ok C3)).
      now rewrite (bind_Ok _ _ _ _ _ (H4ok C4)).
    - intros C2. now rewrite (bind_Raise _ _ _ _ _ (H2no C2)).
    - intros C2 C3. rewrite (bind_Ok _ _ _ _ _ (H2ok C2)).
      now rewrite (bind_Raise _ _ _ _ _ (H3no C3)).
    - intros C2 C3 C4. rewrite (bind_Ok _ _ _ _ _ (H2ok C2)).
      rewrite (bind_Ok _ _ _ _ _ (H3ok C3)).
      now rewrite (bind_Raise _ _ _ _ _ (H4no C4)). }
  split; [| split; [| split]].
  - intros e. rewrite Hstart.
    destruct (sync_paradas w0) as [[n | e1] w1].
    + specialize (Hrest (snd (log INFO "Sync paradas OK: %d" w1))).
      cbv zeta in Hrest. destruct Hrest as [Hok [Hc2 [Hc3 Hc4]]].
      destruct (cancelado_dec sync_lineas
                          (snd (log INFO "Sync paradas OK: %d" w1)))
        as [C2 | C2]; [rewrite (Hc2 C2); now intros [= <-] |].
      match type of Hc3 with
      | _ -> cancelado _ ?w2 -> _ =>
          destruct (cancelado_dec sync_relaciones w2) as [C3 | C3];
            [rewrite (Hc3 C2 C3); now intros [= <-] |]
      end.
      match type of Hc4 with
      | _ -> _ -> cancelado _ ?w3 -> _ =>
          destruct (cancelado_dec sync_direcciones w3) as [C4 | C4];
            [rewrite (Hc4 C2 C3 C4); now intros [= <-] |]
      end.
      rewrite (Hok C2 C3 C4). discriminate.
    + destruct e1; cbn; try discriminate. now intros [= <-].
  - intros e w1 He Hexn. rewrite Hstart, He, Hexn. reflexivity.
  - intros w1 He. rewrite Hstart, He. reflexivity.
  - intros n w1 Hn. rewrite Hstart, Hn. apply Hrest.
Qed.

(** ** The further properties on the example data *)

(** The stop "43" of [mundo_meridiano] has no street; once it is given
    one it is not pending any more. *)
Lemma update_parada_direccion_leaves_pending_witness :
  "Calle Feria" <> ""
  /\ forall pendientes pendientes',
       fst (get_paradas_sin_direccion mundo_meridiano) = Ok pendientes ->
       fst (get_paradas_sin_direccion
              (snd (update_parada_direccion "43" "Calle Feria" "1" "41003"
                      "Sevilla" "Sevilla" "Andalucia" "Calle Feria 1"
                      mundo_meridiano))) = Ok pendientes' ->
       (resumen_de parada_norte ∈ pendientes'
        <-> resumen_de parada_norte ∈ pendientes
            /\ s_codigo (resumen_de parada_norte) <> "43").
Proof.
  assert (H : "Calle Feria" <> "") by discriminate.
  split; [exact H |].
  exact (update_parada_direccion_leaves_pending "43" "Calle Feria" "1" "41003"
           "Sevilla" "Sevilla" "Andalucia" "Calle Feria 1" mundo_meridiano
           (resumen_de parada_norte) H).
Defined.

Lemma corrupt_cache_entry_is_dropped_witness :
  (select_by_pk tc_parada_codigo "43"
     (tiempos_cache (db_file mundo_cache_corrupto))
   = Some (mkTiemposCacheRow "43" (Corrupt "{") 0)
   /\ select_by_pk dc_key
        (Py.round_ndigits 37.3896 4, Py.round_ndigits (-5.9843) 4)
        (direcciones_cache (db_file mundo_cache_corrupto))
      = Some (mkDireccionesCacheRow (Py.round_ndigits 37.3896 4)
                (Py.round_ndigits (-5.9843) 4) (Corrupt "{") 0))
  /\ fst (get_cached_tiempos "43" mundo_cache_corrupto) = Ok None
  /\ fst (get_cached_direccion 37.3896 (-5.9843) mundo_cache_corrupto)
     = Ok None.
Proof.
  assert (H1 : select_by_pk tc_parada_codigo "43"
                 (tiempos_cache (db_file mundo_cache_corrupto))
               = Some (mkTiemposCacheRow "43" (Corrupt "{") 0))
    by reflexivity.
  assert (H2 : select_by_pk dc_key
                 (Py.round_ndigits 37.3896 4, Py.round_ndigits (-5.9843) 4)
                 (direcciones_cache (db_file mundo_cache_corrupto))
               = Some (mkDireccionesCacheRow (Py.round_ndigits 37.3896 4)
                         (Py.round_ndigits (-5.9843) 4) (Corrupt "{") 0)).
  { unfold select_by_pk. cbn [direcciones_cache db_file mundo_cache_corrupto].
    rewrite filter_cons_True by reflexivity. reflexivity. }
  split; [split; assumption |].
  destruct (corrupt_cache_entry_is_dropped mundo_cache_corrupto) as [Ht Hd].
  split.
  - exact (proj1 (Ht "43" _ "{" H1 eq_refl)).
  - exact (proj1 (Hd 37.3896%R (-5.9843)%R _ "{" H2 eq_refl)).
Defined.

Lemma cache_hit_iff_younger_than_ttl_witness :
  (select_by_pk tc_parada_codigo "43"
     (tiempos_cache (db_file mundo_cache_fresco))
   = Some (mkTiemposCacheRow "43" (Encoded tiempos_ejemplo) 0)
   /\ select_by_pk dc_key
        (Py.round_ndigits 37.3896 4, Py.round_ndigits (-5.9843) 4)
        (direcciones_cache (db_file mundo_cache_fresco))
      = Some (mkDireccionesCacheRow (Py.round_ndigits 37.3896 4)
                (Py.round_ndigits (-5.9843) 4) (Encoded direccion_ejemplo) 0))
  /\ (fst (get_cached_tiempos "43" mundo_cache_fresco)
      = Ok (Some tiempos_ejemplo)
      <-> clock mundo_cache_fresco - 0 < 60 * 1000000)
  /\ (fst (get_cached_direccion 37.3896 (-5.9843) mundo_cache_fresco)
      = Ok (Some direccion_ejemplo)
      <-> clock mundo_cache_fresco - 0 < 30 * 86400 * 1000000).
Proof.
  assert (H1 : select_by_pk tc_parada_codigo "43"
                 (tiempos_cache (db_file mundo_cache_fresco))
               = Some (mkTiemposCacheRow "43" (Encoded tiempos_ejemplo) 0))
    by reflexivity.
  assert (H2 : select_by_pk dc_key
                 (Py.round_ndigits 37.3896 4, Py.round_ndigits (-5.9843) 4)
                 (direcciones_cache (db_file mundo_cache_fresco))
               = Some (mkDireccionesCacheRow (Py.round_ndigits 37.3896 4)
                         (Py.round_ndigits (-5.9843) 4)
                         (Encoded direccion_ejemplo) 0)).
  { unfold select_by_pk. cbn [direcciones_cache db_file mundo_cache_fresco].
    rewrite filter_cons_True by reflexivity. reflexivity. }
  split; [split; assumption |].
  destruct (cache_hit_iff_younger_than_ttl mundo_cache_fresco) as [Ht Hd].
  split.
  - exact (proj1 (Ht "43" _ tiempos_ejemplo H1 eq_refl)).
  - exact (proj1 (Hd 37.3896%R (-5.9843)%R _ direccion_ejemplo H2
                       eq_refl)).
Defined.

Lemma save_tiempos_cache_last_write_wins_witness :
  30 * 1000000 < 60 * 1000000
  /\ fst (get_cached_tiempos "43"
            (pasa (30 * 1000000)
                  (snd (save_tiempos_cache "43" tiempos_ejemplo mundo_vacio))))
     = Ok (Some tiempos_ejemplo).
Proof.
  assert (H : 30 * 1000000 < 60 * 1000000) by reflexivity.
  split; [exact H |].
  exact (proj1 (save_tiempos_cache_last_write_wins mundo_vacio "43"
                  tiempos_ejemplo (30 * 1000000) H)).
Defined.

Lemma get_with_retry_no_attempt_witness :
  0 <= 0
  /\ _get_with_retry "http://test.com" 0 mundo_429_200
     = (Raise (UnboundLocalError "resp"), mundo_429_200).
Proof.
  assert (H : 0 <= 0) by discriminate.
  split; [exact H |].
  exact (get_with_retry_no_attempt "http://test.com" 0 mundo_429_200 H).
Defined.

Lemma get_with_retry_transport_failure_witness :
  (0 < 3 /\ upstream mundo_sin_red = Fails :: [Responds respuesta_200])
  /\ fst (_get_with_retry "http://test.com" 3 mundo_sin_red)
     = Raise ConnectError
  /\ slept (snd (_get_with_retry "http://test.com" 3 mundo_sin_red)) = [].
Proof.
  assert (H1 : 0 < 3) by reflexivity.
  assert (H2 : upstream mundo_sin_red = Fails :: [Responds respuesta_200])
    by reflexivity.
  split; [split; assumption |].
  rewrite (get_with_retry_transport_failure "http://test.com" 3 mundo_sin_red
             _ H1 H2).
  split; reflexivity.
Defined.

Lemma get_tiempos_parada_serves_fresh_entry_witness :
  (select_by_pk tc_parada_codigo "43"
     (tiempos_cache (db_file mundo_cache_fresco))
   = Some (mkTiemposCacheRow "43" (Encoded tiempos_ejemplo) 0)
   /\ clock mundo_cache_fresco - 0 < 60 * 1000000)
  /\ fst (get_tiempos_parada "43" false mundo_cache_fresco)
     = Ok tiempos_ejemplo
  /\ requested (snd (get_tiempos_parada "43" false mundo_cache_fresco)) = [].
Proof.
  assert (H1 : select_by_pk tc_parada_codigo "43"
                 (tiempos_cache (db_file mundo_cache_fresco))
               = Some (mkTiemposCacheRow "43" (Encoded tiempos_ejemplo) 0))
    by reflexivity.
  assert (H2 : clock mundo_cache_fresco - 0 < 60 * 1000000) by reflexivity.
  split; [split; assumption |].
  pose proof (get_tiempos_parada_serves_fresh_entry mundo_cache_fresco "43" _
                tiempos_ejemplo H1 eq_refl H2) as H.
  cbv zeta in H. destruct H as [Hv [Hr _]]. split; assumption.
Defined.

Lemma get_tiempos_parada_refresh_then_cached_witness :
  (fst (get_tiempos_parada "43" true mundo_tiempos)
   = Ok (mkTiemposParada "43" "Recaredo (Puerta Carmona)" None None
           [llegada_C4; llegada_01])
   /\ 30 * 1000000 < 60 * 1000000)
  /\ fst (get_tiempos_parada "43" false
            (pasa (30 * 1000000)
                  (snd (get_tiempos_parada "43" true mundo_tiempos))))
     = Ok (mkTiemposParada "43" "Recaredo (Puerta Carmona)" None None
             [llegada_C4; llegada_01]).
Proof.
  assert (H1 : fst (get_tiempos_parada "43" true mundo_tiempos)
               = Ok (mkTiemposParada "43" "Recaredo (Puerta Carmona)" None
                       None [llegada_C4; llegada_01]))
    by (vm_compute; reflexivity).
  assert (H2 : 30 * 1000000 < 60 * 1000000) by reflexivity.
  split; [split; assumption |].
  exact (proj1 (get_tiempos_parada_refresh_then_cached mundo_tiempos "43" _
                  (30 * 1000000) H1 H2)).
Defined.


(** Two requests of the same watch, one second apart. *)
Lemma rate_limit_counts_admitted_in_window_witness :
  StronglySorted Rle (map snd [(peticion_reloj, 1%R)] ++ [2%R])
  /\ fst (dispatch
            (snd (atender (RateLimitMiddleware_init 60 300 60 0)
                          [(peticion_reloj, 1%R)]))
            peticion_reloj 2)
     = if snd (_get_key_and_limit (RateLimitMiddleware_init 60 300 60 0)
                                  peticion_reloj)
          <=? Z.of_nat
                (length
                   (recientes 2 60
                      (admitidas (RateLimitMiddleware_init 60 300 60 0)
                         (fst (_get_key_and_limit
                                 (RateLimitMiddleware_init 60 300 60 0)
                                 peticion_reloj))
                         (fst (atender (RateLimitMiddleware_init 60 300 60 0)
                                       [(peticion_reloj, 1%R)])))))
       then JSONResponse_429
              (snd (_get_key_and_limit (RateLimitMiddleware_init 60 300 60 0)
                                       peticion_reloj))
       else call_next.
Proof.
  assert (H : StronglySorted Rle (map snd [(peticion_reloj, 1%R)] ++ [2%R])).
  { cbn. repeat constructor. lra. }
  split; [exact H |].
  exact (rate_limit_counts_admitted_in_window 60 300 60 0
           [(peticion_reloj, 1%R)] peticion_reloj 2 H).
Defined.


(** A weekly job whose synchronisation of the lines fails: the two steps
    after it are run, and the job ends with the completion record. *)
Lemma run_weekly_sync_never_raises_witness :
  _run_weekly_sync (mret 967) (raise ConnectError) (mret 2310)
                   (mret (967, 960, 7)) mundo_vacio
  = (Ok tt,
     mkWorld (mkDatabase [] [] [] []) None 0
       [(INFO, "Iniciando sincronización semanal programada...");
        (INFO, "Sync paradas OK: %d");
        (ERROR, "Error syncing líneas — continuando con relaciones");
        (INFO, "Sync relaciones OK: %d");
        (INFO, "Geocodificación OK: %d total, %d ok, %d errores");
        (INFO, "Sincronización semanal completada.")]
       [] [] []).
Proof.
  pose proof (run_weekly_sync_never_raises (mret 967) (raise ConnectError)
                (mret 2310) (mret (967, 960, 7)) mundo_vacio) as H.
  cbv zeta in H. destruct H as [_ [_ [_ H]]].
  destruct (H 967 _ eq_refl) as [Hok _].
  rewrite Hok; [reflexivity | discriminate | discriminate | discriminate].
Defined.

(** The filter on the lines looks at the whole list of lines given. *)
Example filtrar_tiempos_por_linea :
  filtrar_tiempos None (Some ["01"]) None [llegada_C4; llegada_01]
  = [llegada_01]
  /\ filtrar_tiempos (Some 3) (Some ["01"; "C4"]) (Some 1)
                     [llegada_C4; llegada_01]
     = [llegada_C4]
  /\ filtrar_tiempos None None (Some 1) [llegada_C4; llegada_01]
     = [llegada_C4].
Proof. repeat split. Qed.

(** The watch has the limit of devices, and its key is its device id. *)
Example get_key_and_limit_reloj :
  _get_key_and_limit (RateLimitMiddleware_init DEVICE_RATE_LIMIT IP_RATE_LIMIT
                                               60 0) peticion_reloj
  = ("device:6F9619FF-8B86-D011-B42D-00CF4FC964FF", 60)
  /\ _get_key_and_limit (RateLimitMiddleware_init DEVICE_RATE_LIMIT
                                                  IP_RATE_LIMIT 60 0)
                        (mkRequest None None)
     = ("ip:unknown", 300).
Proof. split; reflexivity. Qed.
